(** * Timetable router: publication, visibility and full-replace sync

    A shallow embedding of [src/src/timetable.ts] (the multi-term router:
    [timetable_entries], [timetable_settings], [timetable_published_terms])
    and the properties of its handlers.

    Conventions of the embedding:
    - a JavaScript number is an integral value or NaN ([jsnum]); fractional
      and infinite values are outside the embedding;
    - strings are ASCII strings;
    - the three tables are finite maps keyed by their PRIMARY KEY;
    - a handler is a function from the database (and the request) to a
      result (a JSON answer or a thrown exception) and the database it
      leaves behind;
    - [strftime('%s','now')] is the [now] argument of a handler;
    - the store is reliable: a statement fails only by violating a
      constraint of the schema (NOT NULL, PRIMARY KEY) or by a value that
      the D1 driver refuses to bind. *)

From stdpp Require Import gmap strings list fin_maps sorting pretty.
From Stdlib Require Import ZArith Ascii String.

Local Open Scope string_scope.
Local Open Scope Z_scope.

(** ** JavaScript values and exceptions *)

Inductive jsnum : Type :=
  | Num (z : Z)
  | NaN.

Global Instance jsnum_eq_dec : EqDecision jsnum.
Proof. solve_decision. Defined.

(** [Number.isFinite] *)
Definition isFinite (n : jsnum) : bool :=
  match n with Num _ => true | NaN => false end.

(** [Number.isNaN] *)
Definition isNaN (n : jsnum) : bool :=
  match n with Num _ => false | NaN => true end.

Inductive exn : Type :=
  | HTTPException (status : Z) (message : string)
  | TypeError
  | SyntaxError
  | D1Error.

Global Instance exn_eq_dec : EqDecision exn.
Proof. solve_decision. Defined.

Inductive result (A : Type) : Type :=
  | Ok (a : A)
  | Throw (e : exn).
Arguments Ok {A} a.
Arguments Throw {A} e.

Global Instance result_eq_dec `{EqDecision A} : EqDecision (result A).
Proof. solve_decision. Defined.

(** [await]-sequencing: the first exception aborts what follows. *)
Global Instance result_ret : MRet result := λ A a, Ok a.
Global Instance result_bind : MBind result := λ A B k r,
  match r with
  | Ok a => k a
  | Throw e => Throw e
  end.

(** ** Strings: [toLowerCase] and [parseInt(_, 10)] on ASCII strings *)

Definition lower_ascii (c : ascii) : ascii :=
  let n := nat_of_ascii c in
  if ((65 <=? n) && (n <=? 90))%nat then ascii_of_nat (n + 32) else c.

Fixpoint toLowerCase (s : string) : string :=
  match s with
  | EmptyString => EmptyString
  | String c r => String (lower_ascii c) (toLowerCase r)
  end.

(** White space skipped by [parseInt]: TAB, LF, VT, FF, CR, SP. *)
Definition is_ws (c : ascii) : bool :=
  let n := nat_of_ascii c in
  ((9 <=? n) && (n <=? 13) || (n =? 32))%nat.

Fixpoint trim_start (s : string) : string :=
  match s with
  | EmptyString => EmptyString
  | String c r => if is_ws c then trim_start r else s
  end.

Definition digit_of (c : ascii) : option Z :=
  let n := nat_of_ascii c in
  if ((48 <=? n) && (n <=? 57))%nat then Some (Z.of_nat (n - 48)) else None.

(** The longest prefix of decimal digits, as a number; [None] when the
    string does not start with a digit. *)
Fixpoint digits (acc : option Z) (s : string) : option Z :=
  match s with
  | EmptyString => acc
  | String c r =>
      match digit_of c with
      | Some d => digits (Some (10 * default 0 acc + d)) r
      | None => acc
      end
  end.

Definition parseInt (s : string) : jsnum :=
  let s1 := trim_start s in
  let '(neg, s2) :=
    match s1 with
    | String "-" r => (true, r)
    | String "+" r => (false, r)
    | _ => (false, s1)
    end in
  match digits None s2 with
  | None => NaN
  | Some v => Num (if neg : bool then - v else v)
  end.

(** ** Day conversion (timetable.ts, lines 131-151) *)

(** What a caller passes as [k]: the declared type is [string | number];
    an entry that has neither [day] nor [dayNum] passes [undefined]. *)
Inductive dayarg : Type :=
  | DayUndefined
  | DayNumber (n : jsnum)
  | DayString (s : string).

(** What [dayKeyToNum] returns: a number, or, because [map] is an object
    literal, the member of [Object.prototype] that [map[key]] finds for
    the keys [constructor] and [__proto__] (the only inherited names that
    are their own lower case). *)
Inductive dayres : Type :=
  | OutNumber (n : jsnum)
  | OutProto (key : string).

Global Instance dayres_eq_dec : EqDecision dayres.
Proof. solve_decision. Defined.

(** [map[key]] for [const map = { m:1, t:2, w:3, r:4, f:5 }]. *)
Definition day_map (key : string) : option dayres :=
  if decide (key = "m") then Some (OutNumber (Num 1))
  else if decide (key = "t") then Some (OutNumber (Num 2))
  else if decide (key = "w") then Some (OutNumber (Num 3))
  else if decide (key = "r") then Some (OutNumber (Num 4))
  else if decide (key = "f") then Some (OutNumber (Num 5))
  else if decide (key = "constructor") then Some (OutProto key)
  else if decide (key = "__proto__") then Some (OutProto key)
  else None.

Definition dayKeyToNum (k : dayarg) : result dayres :=
  match k with
  | DayNumber n => Ok (OutNumber n)
  | DayUndefined => Throw TypeError
  | DayString s =>
      let key := toLowerCase s in
      match day_map key with
      | Some v => Ok v
      | None =>
          match parseInt key with
          | Num num =>
              if (1 <=? num) && (num <=? 5) then Ok (OutNumber (Num num))
              else Throw (HTTPException 400 ("bad day: " +:+ s))
          | NaN => Throw (HTTPException 400 ("bad day: " +:+ s))
          end
      end
  end.

(** [const map = ['','m','t','w','r','f']; map[n]] for 1 <= n <= 5. *)
Definition day_keys (n : Z) : string :=
  if decide (n = 1) then "m"
  else if decide (n = 2) then "t"
  else if decide (n = 3) then "w"
  else if decide (n = 4) then "r"
  else "f".

Definition dayNumToKey (n : Z) : result string :=
  if (n <? 1) || (n >? 5)
  then Throw (HTTPException 500 ("bad day num: " +:+ pretty n))
  else Ok (day_keys n).

(** ** The database (schema of [ensureTimetableSchema], lines 25-85) *)

(** A term: (year, semester, sub_term). *)
Abbreviation term := (Z * Z * Z)%type.

(** PRIMARY KEY(user_id, year, semester, sub_term, day, period), as
    ((user_id, term), (day, period)). *)
Abbreviation entry_key := (string * term * (Z * Z))%type.

(** PRIMARY KEY (user_id, year, semester, sub_term). *)
Abbreviation published_key := (string * term)%type.

Record entry_row : Type := {
  course_code : option string;
  course_name : option string;
  instructor : option string;
  updated_at : Z
}.

Record settings_row : Type := {
  is_public : Z;
  allow_copy : Z;
  allow_followers : Z;
  custom_colors : option string;
  settings_updated_at : option Z
}.

Record published_row : Type := {
  is_latest : Z;
  published_at : Z
}.

Global Instance entry_row_eq_dec : EqDecision entry_row.
Proof. solve_decision. Defined.
Global Instance settings_row_eq_dec : EqDecision settings_row.
Proof. solve_decision. Defined.
Global Instance published_row_eq_dec : EqDecision published_row.
Proof. solve_decision. Defined.

(** [follows] carries the state of each (follower_id, followee_id) pair.
    [allow_followers_col] tells whether [timetable_settings] has the
    [allow_followers] column (the read path tolerates its absence). *)
Record db : Type := {
  timetable_entries : gmap entry_key entry_row;
  timetable_settings : gmap string settings_row;
  timetable_published_terms : gmap published_key published_row;
  follows : gmap (string * string) string;
  allow_followers_col : bool
}.

Definition set_entries (d : db) (E : gmap entry_key entry_row) : db :=
  {| timetable_entries := E;
     timetable_settings := timetable_settings d;
     timetable_published_terms := timetable_published_terms d;
     follows := follows d;
     allow_followers_col := allow_followers_col d |}.

Definition set_settings (d : db) (S : gmap string settings_row) : db :=
  {| timetable_entries := timetable_entries d;
     timetable_settings := S;
     timetable_published_terms := timetable_published_terms d;
     follows := follows d;
     allow_followers_col := allow_followers_col d |}.

Definition set_published (d : db) (P : gmap published_key published_row) : db :=
  {| timetable_entries := timetable_entries d;
     timetable_settings := timetable_settings d;
     timetable_published_terms := P;
     follows := follows d;
     allow_followers_col := allow_followers_col d |}.

(** ** Statements

    A bound number reaches SQLite as an INTEGER, NaN as NULL.  Every
    column of a key is NOT NULL, and a comparison with NULL selects no
    row. *)

(** The three bound term parameters as a term, when none is NULL. *)
Definition bound_term (year semester subTerm : jsnum) : option term :=
  match year, semester, subTerm with
  | Num y, Num s, Num t => Some (y, s, t)
  | _, _, _ => None
  end.

(** [DELETE FROM timetable_entries
     WHERE user_id = ? AND year = ? AND semester = ? AND sub_term = ?] *)
Definition delete_term (uid : string) (year semester subTerm : jsnum)
    (E : gmap entry_key entry_row) : gmap entry_key entry_row :=
  match bound_term year semester subTerm with
  | Some tm => filter (λ kv, kv.1.1 ≠ (uid, tm)) E
  | None => E
  end.

(** The parameters bound to one
    [INSERT INTO timetable_entries (user_id, year, semester, sub_term, day,
     period, course_code, course_name, instructor, updated_at)
     VALUES (?, ?, ?, ?, ?, ?, ?, ?, ?, strftime('%s','now'))]. *)
Record entry_insert : Type := {
  i_user : string;
  i_year : jsnum;
  i_semester : jsnum;
  i_sub_term : jsnum;
  i_day : jsnum;
  i_period : jsnum;
  i_course_code : option string;
  i_course_name : option string;
  i_instructor : option string
}.

Definition insert_key (st : entry_insert) : option entry_key :=
  match bound_term (i_year st) (i_semester st) (i_sub_term st),
        i_day st, i_period st with
  | Some tm, Num d, Num p => Some (i_user st, tm, (d, p))
  | _, _, _ => None
  end.

Definition insert_row (now : Z) (st : entry_insert) : entry_row :=
  {| course_code := i_course_code st;
     course_name := i_course_name st;
     instructor := i_instructor st;
     updated_at := now |}.

(** One plain INSERT: NULL in a NOT NULL column and a taken primary key
    are errors. *)
Definition run_insert (now : Z) (E : gmap entry_key entry_row)
    (st : entry_insert) : result (gmap entry_key entry_row) :=
  match insert_key st with
  | None => Throw D1Error
  | Some k =>
      match E !! k with
      | Some _ => Throw D1Error
      | None => Ok (<[k := insert_row now st]> E)
      end
  end.

(** [tdb.batch(stmts)]: the statements run in order inside one
    transaction; the first error rolls all of them back. *)
Fixpoint batch (now : Z) (E : gmap entry_key entry_row)
    (stmts : list entry_insert) : result (gmap entry_key entry_row) :=
  match stmts with
  | [] => Ok E
  | st :: rest => E' ← run_insert now E st; batch now E' rest
  end.

(** [.bind(..., day, ...)]: the driver binds numbers, strings and null,
    and throws on a function or a plain object. *)
Definition bind_day (v : dayres) : result jsnum :=
  match v with
  | OutNumber n => Ok n
  | OutProto _ => Throw D1Error
  end.

(** The upsert of [PUT /timetables/publish] (lines 712-718):
    [INSERT ... VALUES (?, ?, ?, ?, ?5, now)
     ON CONFLICT DO UPDATE SET published_at = excluded.published_at,
       is_latest = CASE WHEN ?5 = 1 THEN 1 ELSE is_latest END]. *)
Definition upsert_published (uid : string) (year semester subTerm : jsnum)
    (latest : Z) (now : Z) (P : gmap published_key published_row)
    : result (gmap published_key published_row) :=
  match bound_term year semester subTerm with
  | None => Throw D1Error
  | Some tm =>
      match P !! (uid, tm) with
      | None =>
          Ok (<[(uid, tm) := {| is_latest := latest; published_at := now |}]> P)
      | Some old =>
          Ok (<[(uid, tm) :=
                 {| is_latest := if decide (latest = 1) then 1 else is_latest old;
                    published_at := now |}]> P)
      end
  end.

(** The upsert of the sync handler (lines 412-417):
    [INSERT ... VALUES (?, ?, ?, ?, 1, now)
     ON CONFLICT DO UPDATE SET is_latest = 1,
       published_at = excluded.published_at]. *)
Definition upsert_published_latest (uid : string) (year semester subTerm : jsnum)
    (now : Z) (P : gmap published_key published_row)
    : result (gmap published_key published_row) :=
  match bound_term year semester subTerm with
  | None => Throw D1Error
  | Some tm => Ok (<[(uid, tm) := {| is_latest := 1; published_at := now |}]> P)
  end.

(** A comparison [col = ?] that is false: the parameter is not NULL and
    differs from the column (with a NULL parameter it is unknown). *)
Definition sql_differs (col : Z) (param : jsnum) : bool :=
  match param with
  | Num v => negb (col =? v)
  | NaN => false
  end.

(** [UPDATE timetable_published_terms SET is_latest = 0
     WHERE user_id = ? AND NOT (year = ? AND semester = ? AND sub_term = ?)]:
    the NOT is true when one of the three comparisons is false. *)
Definition clear_other_latest (uid : string) (year semester subTerm : jsnum)
    (P : gmap published_key published_row)
    : gmap published_key published_row :=
  map_imap (λ (k : published_key) row,
    let '(u, (y, s, t)) := k in
    Some (if bool_decide (u = uid)
             && (sql_differs y year || sql_differs s semester
                 || sql_differs t subTerm)
          then {| is_latest := 0; published_at := published_at row |}
          else row)) P.

(** ** Authentication (lines 104-126)

    Token verification is an external service: a request comes with no
    bearer token, with one that does not verify, or with a verified uid.
    An empty uid counts as not verified ([if (!uid) throw]). *)
Inductive credentials : Type :=
  | NoToken
  | InvalidToken
  | Verified (uid : string).

Definition auth (cred : credentials) : result string :=
  match cred with
  | NoToken => Throw (HTTPException 401 "Missing token")
  | InvalidToken => Throw (HTTPException 401 "Invalid token")
  | Verified uid =>
      if decide (uid = "") then Throw (HTTPException 401 "Invalid token")
      else Ok uid
  end.

(** [isFollower] (lines 174-181). *)
Definition isFollower (d : db) (viewerId ownerId : string) : bool :=
  if decide (viewerId = "" ∨ ownerId = "") then false
  else bool_decide (follows d !! (viewerId, ownerId) = Some "active").

(** ** JSON requests and answers *)

(** [x ?? y] *)
Definition coalesce {A} (x y : option A) : option A :=
  match x with
  | Some _ => x
  | None => y
  end.

(** [Number(x)] for a field that is a number or absent. *)
Definition Number (x : option jsnum) : jsnum := default NaN x.

(** An element of [entries]; [None] and [DayUndefined] are absent fields. *)
Record entry_json : Type := {
  e_year : option jsnum;
  e_semester : option jsnum;
  e_subTerm : option jsnum;
  e_sub_term : option jsnum;
  e_day : dayarg;
  e_dayNum : dayarg;
  e_period : option jsnum;
  e_courseCode : option string;
  e_course_code : option string;
  e_courseName : option string;
  e_course_name : option string;
  e_instructor : option string
}.

Inductive entries_field : Type :=
  | EntriesAbsent
  | EntriesNotArray
  | EntriesArray (l : list entry_json).

Record sync_body : Type := {
  b_year : option jsnum;
  b_semester : option jsnum;
  b_subTerm : option jsnum;
  b_sub_term : option jsnum;
  b_entries : entries_field;
  b_publishLatest : bool
}.

(** A JSON value of an answer.  [JSynced n y s t] is the message of the
    sync answer, the template
    [Synced ${n} entries for ${y}... ${s}... ${t}] with its four values. *)
Inductive json : Type :=
  | JNull
  | JBool (b : bool)
  | JNumber (n : jsnum)
  | JString (s : string)
  | JSynced (inserted : nat) (year semester subTerm : jsnum).

Global Instance json_eq_dec : EqDecision json.
Proof. solve_decision. Defined.

(** A JSON object: its fields in the order they are written. *)
Abbreviation json_object := (list (string * json))%type.

(** ** PUT /timetables/sync (lines 336-439) *)

(** [e.day ?? e.dayNum] *)
Definition day_value (e : entry_json) : dayarg :=
  match e_day e with
  | DayUndefined => e_dayNum e
  | v => v
  end.

(** The callback of [entries.map] (lines 372-401). *)
Definition sync_stmt (uid : string) (year semester subTerm : jsnum)
    (e : entry_json) : result entry_insert :=
  let entryYear := default year (e_year e) in
  let entrySemester := default semester (e_semester e) in
  let entrySubTerm := default subTerm (coalesce (e_subTerm e) (e_sub_term e)) in
  day ← dayKeyToNum (day_value e);
  let period := Number (e_period e) in
  let courseCode := coalesce (e_courseCode e) (e_course_code e) in
  let courseName := coalesce (e_courseName e) (e_course_name e) in
  d ← bind_day day;
  Ok {| i_user := uid; i_year := entryYear; i_semester := entrySemester;
        i_sub_term := entrySubTerm; i_day := d; i_period := period;
        i_course_code := courseCode; i_course_name := courseName;
        i_instructor := e_instructor e |}.

(** Step 2 (lines 371-405): nothing when [entries] is empty, else build the
    statements and run them as one batch. *)
Definition sync_insert (now : Z) (uid : string) (year semester subTerm : jsnum)
    (entries : list entry_json) (E : gmap entry_key entry_row)
    : result (gmap entry_key entry_row) :=
  if decide (entries = []) then Ok E
  else stmts ← mapM (sync_stmt uid year semester subTerm) entries;
       batch now E stmts.

(** The publication step (lines 409-426).  Its own [try/catch] swallows an
    error after [console.warn]; the second component is the lines written
    by [console.warn]. *)
Definition sync_publish (now : Z) (uid : string) (year semester subTerm : jsnum)
    (publishLatest : bool) (P : gmap published_key published_row)
    : gmap published_key published_row * list string :=
  if publishLatest then
    match upsert_published_latest uid year semester subTerm now P with
    | Ok P1 => (clear_other_latest uid year semester subTerm P1, [])
    | Throw _ => (P, ["[PUT /timetables/sync] publishLatest failed (ignored):"])
    end
  else (P, []).

Definition sync_entries (b : sync_body) : option (list entry_json) :=
  match b_entries b with
  | EntriesAbsent => Some []
  | EntriesNotArray => None
  | EntriesArray l => Some l
  end.

(** The answer, the database left behind, and the [console.warn] lines. *)
Definition PUT_sync (now : Z) (d : db) (cred : credentials) (body : sync_body)
    : result json_object * db * list string :=
  match auth cred with
  | Throw e => (Throw e, d, [])
  | Ok uid =>
      let year := Number (b_year body) in
      let semester := Number (b_semester body) in
      let subTerm :=
        default (Num 0) (coalesce (b_subTerm body) (b_sub_term body)) in
      match sync_entries body with
      | None => (Throw (HTTPException 400 "entries must be an array"), d, [])
      | Some entries =>
          (* 1. delete the stored entries of the term *)
          let d1 := set_entries d
            (delete_term uid year semester subTerm (timetable_entries d)) in
          (* 2. insert the new ones *)
          match sync_insert now uid year semester subTerm entries
                  (timetable_entries d1) with
          | Throw _ => (Throw (HTTPException 500 "Sync failed"), d1, [])
          | Ok E2 =>
              let d2 := set_entries d1 E2 in
              let '(P3, warned) :=
                sync_publish now uid year semester subTerm
                  (b_publishLatest body) (timetable_published_terms d2) in
              (Ok [("success", JBool true);
                   ("deleted", JBool true);
                   ("inserted", JNumber (Num (Z.of_nat (List.length entries))));
                   ("message",
                    JSynced (List.length entries) year semester subTerm)],
               set_published d2 P3, warned)
          end
      end
  end.

(** ** The sync under a store that refuses a statement

    The inner [try] of lines 409-426 is written for a store that refuses
    one of the two statements of the publication step, whatever their
    parameters.  Each statement is its own [run()]: what the upsert wrote
    stays when the UPDATE after it is refused. *)
Inductive store_fault : Type :=
  | NoFault
  | UpsertRefused
  | ClearRefused.

(** The body of the inner [try] when [publishLatest] is set: how it ends,
    and the publication index it leaves. *)
Definition publish_latest_under (fault : store_fault) (now : Z) (uid : string)
    (year semester subTerm : jsnum) (P : gmap published_key published_row)
    : result unit * gmap published_key published_row :=
  match fault with
  | UpsertRefused => (Throw D1Error, P)
  | _ =>
      match upsert_published_latest uid year semester subTerm now P with
      | Throw e => (Throw e, P)
      | Ok P1 =>
          match fault with
          | ClearRefused => (Throw D1Error, P1)
          | _ => (Ok (), clear_other_latest uid year semester subTerm P1)
          end
      end
  end.

(** The publication step (lines 409-426) with its [catch]. *)
Definition sync_publish_under (fault : store_fault) (now : Z) (uid : string)
    (year semester subTerm : jsnum) (publishLatest : bool)
    (P : gmap published_key published_row)
    : gmap published_key published_row * list string :=
  if publishLatest then
    match publish_latest_under fault now uid year semester subTerm P with
    | (Ok _, P') => (P', [])
    | (Throw _, P') =>
        (P', ["[PUT /timetables/sync] publishLatest failed (ignored):"])
    end
  else (P, []).

(** [PUT_sync] with the store of the publication step made explicit. *)
Definition PUT_sync_under (fault : store_fault) (now : Z) (d : db)
    (cred : credentials) (body : sync_body)
    : result json_object * db * list string :=
  match auth cred with
  | Throw e => (Throw e, d, [])
  | Ok uid =>
      let year := Number (b_year body) in
      let semester := Number (b_semester body) in
      let subTerm :=
        default (Num 0) (coalesce (b_subTerm body) (b_sub_term body)) in
      match sync_entries body with
      | None => (Throw (HTTPException 400 "entries must be an array"), d, [])
      | Some entries =>
          let d1 := set_entries d
            (delete_term uid year semester subTerm (timetable_entries d)) in
          match sync_insert now uid year semester subTerm entries
                  (timetable_entries d1) with
          | Throw _ => (Throw (HTTPException 500 "Sync failed"), d1, [])
          | Ok E2 =>
              let d2 := set_entries d1 E2 in
              let '(P3, warned) :=
                sync_publish_under fault now uid year semester subTerm
                  (b_publishLatest body) (timetable_published_terms d2) in
              (Ok [("success", JBool true);
                   ("deleted", JBool true);
                   ("inserted", JNumber (Num (Z.of_nat (List.length entries))));
                   ("message",
                    JSynced (List.length entries) year semester subTerm)],
               set_published d2 P3, warned)
          end
      end
  end.

(** ** PUT /timetables/publish (lines 699-729) *)

Record publish_body : Type := {
  p_year : option jsnum;
  p_semester : option jsnum;
  p_subTerm : option jsnum;
  p_sub_term : option jsnum;
  p_latest : bool
}.

Definition PUT_publish (now : Z) (d : db) (cred : credentials)
    (body : publish_body) : result json_object * db :=
  match auth cred with
  | Throw e => (Throw e, d)
  | Ok uid =>
      let year := Number (p_year body) in
      let semester := Number (p_semester body) in
      let subTerm :=
        default (Num 0) (coalesce (p_subTerm body) (p_sub_term body)) in
      let latest := p_latest body in
      if negb (isFinite year) || negb (isFinite semester) then
        (Throw (HTTPException 400 "year/semester required"), d)
      else
        match upsert_published uid year semester subTerm
                (if latest then 1 else 0) now (timetable_published_terms d) with
        | Throw e => (Throw e, d)
        | Ok P1 =>
            let P2 :=
              if latest then clear_other_latest uid year semester subTerm P1
              else P1 in
            (Ok [("ok", JBool true)], set_published d P2)
        end
  end.

(** ** Reading a term: [SELECT ... ORDER BY day, period] *)

(** A selected row: ((day, period), the other columns). *)
Abbreviation cell := (Z * Z * entry_row)%type.

(** [ORDER BY day, period] *)
Definition cell_le (a b : cell) : Prop :=
  a.1.1 < b.1.1 ∨ (a.1.1 = b.1.1 ∧ a.1.2 ≤ b.1.2).

Global Instance cell_le_dec : RelDecision cell_le.
Proof. intros a b. unfold cell_le. apply _. Defined.

(** [SELECT day, period, course_code, course_name, instructor, sub_term
     FROM timetable_entries
     WHERE user_id = ? AND year = ? AND semester = ? AND sub_term = ?
     ORDER BY day, period] *)
Definition select_term (uid : string) (year semester subTerm : jsnum)
    (E : gmap entry_key entry_row) : list cell :=
  match bound_term year semester subTerm with
  | None => []
  | Some tm =>
      merge_sort cell_le
        ((λ kv : entry_key * entry_row, (kv.1.2, kv.2))
           <$> map_to_list (filter (λ kv, kv.1.1 = (uid, tm)) E))
  end.

(** ** POST /timetables/copy/:sourceUserId (lines 636-694)

    [sourceUserId] is the uid that [resolveUid] found for the path
    parameter. *)

Record copy_body : Type := {
  c_year : option jsnum;
  c_semester : option jsnum;
  c_subTerm : option jsnum
}.

Definition copy_stmt (uid : string) (year semester subTerm : jsnum)
    (r : cell) : entry_insert :=
  {| i_user := uid; i_year := year; i_semester := semester;
     i_sub_term := subTerm; i_day := Num r.1.1; i_period := Num r.1.2;
     i_course_code := course_code r.2; i_course_name := course_name r.2;
     i_instructor := instructor r.2 |}.

(** [INSERT INTO timetable_settings (user_id, is_public, allow_copy,
     custom_colors, updated_at) VALUES (?, 0, 0, ?, now)
     ON CONFLICT(user_id) DO UPDATE SET custom_colors = excluded.custom_colors,
       updated_at = excluded.updated_at]; a new row takes the column
    default 1 for [allow_followers]. *)
Definition upsert_colors (uid : string) (colors : option string) (now : Z)
    (S : gmap string settings_row) : gmap string settings_row :=
  match S !! uid with
  | None =>
      <[uid := {| is_public := 0; allow_copy := 0; allow_followers := 1;
                  custom_colors := colors;
                  settings_updated_at := Some now |}]> S
  | Some old =>
      <[uid := {| is_public := is_public old; allow_copy := allow_copy old;
                  allow_followers := allow_followers old;
                  custom_colors := colors;
                  settings_updated_at := Some now |}]> S
  end.

(** [!settings || settings.is_public !== 1 || settings.allow_copy !== 1] *)
Definition copy_refused (settings : option settings_row) : bool :=
  match settings with
  | None => true
  | Some s => negb (bool_decide (is_public s = 1))
              || negb (bool_decide (allow_copy s = 1))
  end.

Definition POST_copy (now : Z) (d : db) (cred : credentials)
    (sourceUserId : string) (body : copy_body) : result json_object * db :=
  match auth cred with
  | Throw e => (Throw e, d)
  | Ok uid =>
      let year := Number (c_year body) in
      let semester := Number (c_semester body) in
      let subTerm := default (Num 0) (c_subTerm body) in
      let settings := timetable_settings d !! sourceUserId in
      if copy_refused settings then
        (Throw (HTTPException 403 "Copy not allowed"), d)
      else
        let d1 := set_entries d
          (delete_term uid year semester subTerm (timetable_entries d)) in
        let srcRows :=
          select_term sourceUserId year semester subTerm (timetable_entries d1) in
        let stmts := copy_stmt uid year semester subTerm <$> srcRows in
        match batch now (timetable_entries d1) stmts with
        | Throw e => (Throw e, d1)
        | Ok E2 =>
            let d2 := set_entries d1 E2 in
            let colors := settings ≫= custom_colors in
            (Ok [("success", JBool true);
                 ("copied", JNumber (Num (Z.of_nat (List.length stmts))))],
             set_settings d2 (upsert_colors uid colors now (timetable_settings d2)))
        end
  end.

(** ** GET /timetables/:userId (lines 189-328) *)

(** The rows of one owner in the publication index. *)
Abbreviation published := (term * published_row)%type.

Definition published_of (ownerUid : string)
    (P : gmap published_key published_row) : list published :=
  (λ kv : published_key * published_row, (kv.1.2, kv.2))
    <$> map_to_list (filter (λ kv, kv.1.1 = ownerUid) P).

(** [ORDER BY published_at DESC] *)
Definition published_desc (a b : published) : Prop :=
  published_at b.2 ≤ published_at a.2.

Global Instance published_desc_dec : RelDecision published_desc.
Proof. intros a b. unfold published_desc. apply _. Defined.

(** [ORDER BY is_latest DESC, published_at DESC] *)
Definition latest_desc (a b : published) : Prop :=
  is_latest b.2 < is_latest a.2
  ∨ (is_latest a.2 = is_latest b.2 ∧ published_at b.2 ≤ published_at a.2).

Global Instance latest_desc_dec : RelDecision latest_desc.
Proof. intros a b. unfold latest_desc. apply _. Defined.

(** Lines 252-264: the row flagged latest, else the most recently
    published one, each through [ORDER BY published_at DESC LIMIT 1]. *)
Definition latest_term (ownerUid : string)
    (P : gmap published_key published_row) : option term :=
  let rows := published_of ownerUid P in
  match head (merge_sort published_desc
                (filter (λ r : published, is_latest r.2 = 1) rows)) with
  | Some row => Some row.1
  | None => fst <$> head (merge_sort published_desc rows)
  end.

(** The visibility gate (lines 237-247). *)
Definition visibility_gate (d : db) (isPublic allowFollowers : bool)
    (cred : credentials) (ownerUid : string) : result unit :=
  if isPublic then Ok ()
  else
    match auth cred with
    | Throw _ => Throw (HTTPException 403 "Timetable is private")
    | Ok uid =>
        if decide (uid ≠ ownerUid) then
          if negb allowFollowers then
            Throw (HTTPException 403 "Timetable is private")
          else if isFollower d uid ownerUid then Ok ()
          else Throw (HTTPException 403 "Timetable is private")
        else Ok ()
    end.

(** One element of [entries]; the answer repeats [sub_term], [course_code]
    and [course_name] under their camel-case names with the same values. *)
Record entry_view : Type := {
  v_sub_term : Z;
  v_day : string;
  v_dayNum : Z;
  v_period : Z;
  v_course_code : string;
  v_course_name : string;
  v_instructor : string
}.

Record settings_view : Type := {
  s_is_public : Z;
  s_allow_copy : Z;
  s_allow_followers : Z;
  s_custom_colors : option string
}.

Record term_view : Type := {
  t_year : Z;
  t_semester : Z;
  t_subTerm : Z;
  t_isLatest : Z;
  t_publishedAt : Z
}.

(** The answer: [entries] (also sent as [items]), [settings],
    [available_terms] and [meta.selected]. *)
Record get_response : Type := {
  r_entries : list entry_view;
  r_settings : settings_view;
  r_available_terms : list term_view;
  r_selected : option term
}.

(** The request: the resolved owner, [Number] of the three query
    parameters (NaN for an absent one), and the caller's credentials. *)
Record get_request : Type := {
  g_owner : string;
  g_year : jsnum;
  g_semester : jsnum;
  g_subTerm : jsnum;
  g_cred : credentials
}.

Definition view_entry (subTerm : Z) (r : cell) : result entry_view :=
  day ← dayNumToKey r.1.1;
  Ok {| v_sub_term := subTerm; v_day := day; v_dayNum := r.1.1;
        v_period := r.1.2;
        v_course_code := default "" (course_code r.2);
        v_course_name := default "" (course_name r.2);
        v_instructor := default "" (instructor r.2) |}.

Definition view_term (r : published) : term_view :=
  {| t_year := r.1.1.1; t_semester := r.1.1.2; t_subTerm := r.1.2;
     t_isLatest := if decide (is_latest r.2 = 1) then 1 else 0;
     t_publishedAt := published_at r.2 |}.

Definition bool_to_Z (b : bool) : Z := if b then 1 else 0.

(** Lines 232-234, for the row that [.first()] returned ([None]: no row):
    [settingsRow?.is_public === 1], [settingsRow?.allow_copy === 1] and
    [hasAllowFollowersCol ? settingsRow?.allow_followers === 1 : false]. *)
Definition row_isPublic (settingsRow : option settings_row) : bool :=
  from_option (λ r, bool_decide (is_public r = 1)) false settingsRow.

Definition row_allowCopy (settingsRow : option settings_row) : bool :=
  from_option (λ r, bool_decide (allow_copy r = 1)) false settingsRow.

Definition row_allowFollowers (hasAllowFollowersCol : bool)
    (settingsRow : option settings_row) : bool :=
  if hasAllowFollowersCol
  then from_option (λ r, bool_decide (allow_followers r = 1)) false settingsRow
  else false.

Section Read.
(** Whether [JSON.parse] accepts a text. *)
Variable JSON_valid : string → bool.

(** [settingsRow?.custom_colors ? JSON.parse(...) : null]; the parsed
    value is carried as the text it was parsed from. *)
Definition parse_colors (row : option settings_row) : result (option string) :=
  match row ≫= custom_colors with
  | None => Ok None
  | Some text =>
      if decide (text = "") then Ok None
      else if JSON_valid text then Ok (Some text)
      else Throw SyntaxError
  end.

Definition GET_timetable (d : db) (req : get_request) : result get_response :=
  let ownerUid := g_owner req in
  let settingsRow := timetable_settings d !! ownerUid in
  let isPublic := row_isPublic settingsRow in
  let allowCopy := row_allowCopy settingsRow in
  let allowFollowers :=
    row_allowFollowers (allow_followers_col d) settingsRow in
  customColors ← parse_colors settingsRow;
  _ ← visibility_gate d isPublic allowFollowers (g_cred req) ownerUid;
  let settings :=
    {| s_is_public := bool_to_Z isPublic; s_allow_copy := bool_to_Z allowCopy;
       s_allow_followers := bool_to_Z allowFollowers;
       s_custom_colors := customColors |} in
  let noTermSpecified :=
    isNaN (g_year req) || isNaN (g_semester req) || isNaN (g_subTerm req) in
  let resolved :=
    if noTermSpecified
    then latest_term ownerUid (timetable_published_terms d)
    else bound_term (g_year req) (g_semester req) (g_subTerm req) in
  match resolved with
  | None =>
      Ok {| r_entries := []; r_settings := settings;
            r_available_terms := []; r_selected := None |}
  | Some (year, semester, subTerm) =>
      let rows :=
        select_term ownerUid (Num year) (Num semester) (Num subTerm)
          (timetable_entries d) in
      entries ← mapM (view_entry subTerm) rows;
      let termRows :=
        merge_sort latest_desc
          (published_of ownerUid (timetable_published_terms d)) in
      Ok {| r_entries := entries; r_settings := settings;
            r_available_terms := view_term <$> termRows;
            r_selected := Some (year, semester, subTerm) |}
  end.
End Read.

(** ** Vocabulary of the properties *)

(** The five day letters. *)
Definition day_letters : list ascii := ["m"; "t"; "w"; "r"; "f"]%char.

(** The one-character string. *)
Definition letter (c : ascii) : string := String c EmptyString.

(** An ASCII letter, of either case. *)
Definition is_letter (c : ascii) : bool :=
  let n := nat_of_ascii (lower_ascii c) in
  ((97 <=? n) && (n <=? 122))%nat.

(** Decoding one character and encoding the result gives its lower case. *)
Definition letter_round_trip (c : ascii) : bool :=
  match dayKeyToNum (DayString (letter c)) with
  | Ok (OutNumber (Num n)) =>
      bool_decide (dayNumToKey n = Ok (letter (lower_ascii c)))
  | _ => false
  end.

(** The gate as [GET_timetable] calls it: with the flags read from the
    owner's settings row. *)
Definition read_gate (d : db) (cred : credentials) (ownerUid : string)
    : result unit :=
  let settingsRow := timetable_settings d !! ownerUid in
  visibility_gate d (row_isPublic settingsRow)
    (row_allowFollowers (allow_followers_col d) settingsRow) cred ownerUid.

(** The error of a denied read. *)
Definition PrivateTimetable : exn := HTTPException 403 "Timetable is private".

(** The error of a refused copy. *)
Definition CopyNotAllowed : exn := HTTPException 403 "Copy not allowed".

(** ** Sample data *)

(** An entry [{ day, period, courseCode }]. *)
Definition entry_of (day : dayarg) (period : Z) (code : option string)
    : entry_json :=
  {| e_year := None; e_semester := None; e_subTerm := None;
     e_sub_term := None; e_day := day; e_dayNum := DayUndefined;
     e_period := Some (Num period); e_courseCode := code;
     e_course_code := None; e_courseName := None; e_course_name := None;
     e_instructor := None |}.

(** A sync request for the term (2025, 1, 0). *)
Definition sync_2025 (entries : list entry_json) (publishLatest : bool)
    : sync_body :=
  {| b_year := Some (Num 2025); b_semester := Some (Num 1);
     b_subTerm := Some (Num 0); b_sub_term := None;
     b_entries := EntriesArray entries; b_publishLatest := publishLatest |}.

Definition old_row : entry_row :=
  {| course_code := Some "MATH1"; course_name := None; instructor := None;
     updated_at := 5 |}.

Definition empty_db : db :=
  {| timetable_entries := ∅; timetable_settings := ∅;
     timetable_published_terms := ∅; follows := ∅;
     allow_followers_col := true |}.

(** User u already has one entry in the term (2025, 1, 0). *)
Definition db_one_entry : db :=
  set_entries empty_db {[ ("u", (2025, 1, 0), (2, 3)) := old_row ]}.

(** The owner's read of the term (2025, 1, 0). *)
Definition read_2025 (cred : credentials) : get_request :=
  {| g_owner := "u"; g_year := Num 2025; g_semester := Num 1;
     g_subTerm := Num 0; g_cred := cred |}.

(** Owner o keeps the timetable private and lets followers read it;
    f follows o, s does not. *)
Definition private_row : settings_row :=
  {| is_public := 0; allow_copy := 0; allow_followers := 1;
     custom_colors := None; settings_updated_at := None |}.

Definition db_private : db :=
  {| timetable_entries := ∅;
     timetable_settings := {[ "o" := private_row ]};
     timetable_published_terms := ∅;
     follows := {[ ("f", "o") := "active" ]};
     allow_followers_col := true |}.

(** Source user p is public but does not allow copies. *)
Definition db_no_copy : db :=
  {| timetable_entries := {[ ("u", (2025, 1, 0), (2, 3)) := old_row ]};
     timetable_settings :=
       {[ "p" := {| is_public := 1; allow_copy := 0; allow_followers := 1;
                    custom_colors := None; settings_updated_at := None |} ]};
     timetable_published_terms := ∅;
     follows := ∅;
     allow_followers_col := true |}.

Definition copy_2025 : copy_body :=
  {| c_year := Some (Num 2025); c_semester := Some (Num 1);
     c_subTerm := Some (Num 0) |}.

(** ** The publication index *)

(** At most one published term of the owner is flagged latest. *)
Definition at_most_one_latest (ownerUid : string)
    (P : gmap published_key published_row) : Prop :=
  ∀ t1 t2 r1 r2,
    P !! (ownerUid, t1) = Some r1 → P !! (ownerUid, t2) = Some r2 →
    is_latest r1 = 1 → is_latest r2 = 1 → t1 = t2.

(** The requests that write the publication index, by any caller. *)
Inductive publish_op : Type :=
  | Publish (now : Z) (cred : credentials) (body : publish_body)
  | Sync (now : Z) (cred : credentials) (body : sync_body).

Definition apply_op (d : db) (op : publish_op) : db :=
  match op with
  | Publish now cred body => (PUT_publish now d cred body).2
  | Sync now cred body => (PUT_sync now d cred body).1.2
  end.

(** The requests are served one after the other. *)
Definition run_ops (d : db) (ops : list publish_op) : db :=
  foldl apply_op d ops.

(** No row is flagged latest in [P'] that was not flagged in [P]. *)
Definition no_new_latest (P P' : gmap published_key published_row) : Prop :=
  ∀ k r', P' !! k = Some r' → is_latest r' = 1 →
          ∃ r, P !! k = Some r ∧ is_latest r = 1.

(** u has published (2024, 2, 0) and, pinned as latest, (2025, 1, 0). *)
Definition db_published : db :=
  set_published empty_db
    {[ ("u", (2024, 2, 0)) := {| is_latest := 0; published_at := 100 |};
       ("u", (2025, 1, 0)) := {| is_latest := 1; published_at := 90 |} ]}.

Definition publish_2024 (latest : bool) : publish_body :=
  {| p_year := Some (Num 2024); p_semester := Some (Num 2);
     p_subTerm := None; p_sub_term := None; p_latest := latest |}.

(** ** The sync request *)

(** The term a sync request names: [Number(body.year)],
    [Number(body.semester)], [Number(body.subTerm ?? body.sub_term ?? 0)]. *)
Definition body_year (b : sync_body) : jsnum := Number (b_year b).
Definition body_semester (b : sync_body) : jsnum := Number (b_semester b).
Definition body_subTerm (b : sync_body) : jsnum :=
  default (Num 0) (coalesce (b_subTerm b) (b_sub_term b)).

(** The answer of a sync that went through. *)
Definition sync_answer (b : sync_body) (entries : list entry_json)
    : json_object :=
  [("success", JBool true);
   ("deleted", JBool true);
   ("inserted", JNumber (Num (Z.of_nat (List.length entries))));
   ("message",
    JSynced (List.length entries) (body_year b) (body_semester b)
      (body_subTerm b))].

(** The answer has a field beyond the four of [sync_answer]. *)
Definition has_extra_field (answer : json_object) : Prop :=
  ∃ k v, (k, v) ∈ answer ∧ k ∉ ["success"; "deleted"; "inserted"; "message"].

(** ** Reading without a term *)

(** [noTermSpecified] (line 250). *)
Definition noTermSpecified (req : get_request) : bool :=
  isNaN (g_year req) || isNaN (g_semester req) || isNaN (g_subTerm req).

(** The owner's read that names no term. *)
Definition read_latest (cred : credentials) : get_request :=
  {| g_owner := "u"; g_year := NaN; g_semester := NaN; g_subTerm := NaN;
     g_cred := cred |}.

(** ** Replace, then fetch *)

(** Day ascending, then period ascending. *)
Definition view_le (a b : entry_view) : Prop :=
  v_dayNum a < v_dayNum b ∨ (v_dayNum a = v_dayNum b ∧ v_period a ≤ v_period b).

(** A stored cell as the answer shows it, for a day within 1..5. *)
Definition view_of (subTerm : Z) (r : cell) : entry_view :=
  {| v_sub_term := subTerm; v_day := day_keys r.1.1; v_dayNum := r.1.1;
     v_period := r.1.2;
     v_course_code := default "" (course_code r.2);
     v_course_name := default "" (course_name r.2);
     v_instructor := default "" (instructor r.2) |}.

(** The entry names no other term than the request does. *)
Definition entry_in_term (year semester subTerm : jsnum) (e : entry_json)
    : Prop :=
  default year (e_year e) = year
  ∧ default semester (e_semester e) = semester
  ∧ default subTerm (coalesce (e_subTerm e) (e_sub_term e)) = subTerm.

(** The day number that the sync stores for the entry. *)
Definition entry_day (e : entry_json) : option Z :=
  match dayKeyToNum (day_value e) with
  | Ok (OutNumber (Num d)) => Some d
  | _ => None
  end.

(** The entry's day is one of Monday..Friday. *)
Definition day_in_week (e : entry_json) : Prop :=
  ∃ d, entry_day e = Some d ∧ 1 ≤ d ≤ 5.

(** A submitted entry as a fetched entry: the day as number and letter,
    the period, and the three texts, absent ones as the empty string. *)
Definition expected_view (subTerm : Z) (e : entry_json) : option entry_view :=
  match entry_day e, Number (e_period e) with
  | Some d, Num p =>
      Some {| v_sub_term := subTerm; v_day := day_keys d; v_dayNum := d;
              v_period := p;
              v_course_code :=
                default "" (coalesce (e_courseCode e) (e_course_code e));
              v_course_name :=
                default "" (coalesce (e_courseName e) (e_course_name e));
              v_instructor := default "" (e_instructor e) |}
  | _, _ => None
  end.

(** The read of one term of a user. *)
Definition read_term (uid : string) (tm : term) (cred : credentials)
    : get_request :=
  {| g_owner := uid; g_year := Num tm.1.1; g_semester := Num tm.1.2;
     g_subTerm := Num tm.2; g_cred := cred |}.

(** An entry that names its own year: [{ year: 2024, day: "m", period: 1 }]. *)
Definition entry_2024 : entry_json :=
  {| e_year := Some (Num 2024); e_semester := None; e_subTerm := None;
     e_sub_term := None; e_day := DayString "m"; e_dayNum := DayUndefined;
     e_period := Some (Num 1); e_courseCode := None;
     e_course_code := None; e_courseName := None; e_course_name := None;
     e_instructor := None |}.

(** Two entries for the term (2025, 1, 0), the later cell first. *)
Definition two_entries : list entry_json :=
  [entry_of (DayString "W") 2 (Some "CS101");
   entry_of (DayNumber (Num 1)) 4 None].

(** * The other handlers of the router *)

(** ** POST /timetables (lines 446-509) *)

(** The callback of [entries.map] (lines 461-499): the term comes from the
    entry alone. *)
Definition upsert_stmt (uid : string) (e : entry_json) : result entry_insert :=
  let year := Number (e_year e) in
  let semester := Number (e_semester e) in
  let subTerm := default (Num 0) (coalesce (e_subTerm e) (e_sub_term e)) in
  day ← dayKeyToNum (day_value e);
  let period := Number (e_period e) in
  let courseCode := coalesce (e_courseCode e) (e_course_code e) in
  let courseName := coalesce (e_courseName e) (e_course_name e) in
  d ← bind_day day;
  Ok {| i_user := uid; i_year := year; i_semester := semester;
        i_sub_term := subTerm; i_day := d; i_period := period;
        i_course_code := courseCode; i_course_name := courseName;
        i_instructor := e_instructor e |}.

(** [INSERT ... ON CONFLICT(user_id, year, semester, sub_term, day, period)
     DO UPDATE SET course_code = excluded.course_code, course_name = ...,
       instructor = ..., updated_at = excluded.updated_at]: NULL in a key
    column is an error, a taken key is overwritten. *)
Definition run_upsert (now : Z) (E : gmap entry_key entry_row)
    (st : entry_insert) : result (gmap entry_key entry_row) :=
  match insert_key st with
  | None => Throw D1Error
  | Some k => Ok (<[k := insert_row now st]> E)
  end.

Fixpoint batch_upsert (now : Z) (E : gmap entry_key entry_row)
    (stmts : list entry_insert) : result (gmap entry_key entry_row) :=
  match stmts with
  | [] => Ok E
  | st :: rest => E' ← run_upsert now E st; batch_upsert now E' rest
  end.

Definition POST_timetables (now : Z) (d : db) (cred : credentials)
    (entries : entries_field) : result json_object * db :=
  match auth cred with
  | Throw e => (Throw e, d)
  | Ok uid =>
      match entries with
      | EntriesAbsent | EntriesNotArray | EntriesArray [] =>
          (Throw (HTTPException 400 "entries required"), d)
      | EntriesArray l =>
          match mapM (upsert_stmt uid) l with
          | Throw e => (Throw e, d)
          | Ok stmts =>
              match batch_upsert now (timetable_entries d) stmts with
              | Throw e => (Throw e, d)
              | Ok E' =>
                  (Ok [("success", JBool true);
                       ("upserted", JNumber (Num (Z.of_nat (List.length l))))],
                   set_entries d E')
              end
          end
      end
  end.

(** ** DELETE /timetables (lines 515-552) *)

Record delete_body : Type := {
  d_year : option jsnum;
  d_semester : option jsnum;
  d_subTerm : option jsnum;
  d_sub_term : option jsnum;
  d_day : dayarg;
  d_period : option jsnum
}.

(** [DELETE FROM timetable_entries WHERE user_id = ? AND year = ? AND
     semester = ? AND sub_term = ? AND day = ? AND period = ?] *)
Definition delete_cell (uid : string) (year semester subTerm day period : jsnum)
    (E : gmap entry_key entry_row) : gmap entry_key entry_row :=
  match bound_term year semester subTerm, day, period with
  | Some tm, Num dd, Num p => delete (uid, tm, (dd, p)) E
  | _, _, _ => E
  end.

Definition DELETE_timetables (d : db) (cred : credentials) (body : delete_body)
    : result json_object * db :=
  match auth cred with
  | Throw e => (Throw e, d)
  | Ok uid =>
      let year := Number (d_year body) in
      let semester := Number (d_semester body) in
      let subTerm :=
        default (Num 0) (coalesce (d_subTerm body) (d_sub_term body)) in
      match dayKeyToNum (d_day body) with
      | Throw e => (Throw e, d)
      | Ok day =>
          let period := Number (d_period body) in
          match bind_day day with
          | Throw e => (Throw e, d)
          | Ok dd =>
              (Ok [("success", JBool true)],
               set_entries d
                 (delete_cell uid year semester subTerm dd period
                    (timetable_entries d)))
          end
      end
  end.

(** ** PUT /timetables/settings (lines 558-610) *)

(** [b.customColors]: absent, null, a string, an object or array (with the
    text that [JSON.stringify] gives for it), or a number or boolean. *)
Inductive colors_field : Type :=
  | ColorsAbsent
  | ColorsNull
  | ColorsString (s : string)
  | ColorsObject (stringified : string)
  | ColorsOther.

(** A flag is [Some b] when the field is a boolean, [None] otherwise. *)
Record settings_body : Type := {
  sb_isPublic : option bool;
  sb_allowCopy : option bool;
  sb_allowFollowers : option bool;
  sb_customColors : colors_field
}.

(** Lines 566-575: [customColors] starts as null and is never undefined. *)
Definition stored_colors (c : colors_field) : option string :=
  match c with
  | ColorsString s => Some s
  | ColorsObject text => Some text
  | ColorsAbsent | ColorsNull | ColorsOther => None
  end.

(** [typeof b.x === 'boolean' ? (b.x ? 1 : 0) : null] *)
Definition flag (x : option bool) : option Z := bool_to_Z <$> x.

Definition PUT_settings (now : Z) (d : db) (cred : credentials)
    (b : settings_body) : result json_object * db :=
  match auth cred with
  | Throw e => (Throw e, d)
  | Ok uid =>
      let isPublic := flag (sb_isPublic b) in
      let allowCopy := flag (sb_allowCopy b) in
      let allowFollowers := flag (sb_allowFollowers b) in
      let customColors := stored_colors (sb_customColors b) in
      match timetable_settings d !! uid with
      | None =>
          (* the INSERT names the allow_followers column *)
          if allow_followers_col d then
            (Ok [("success", JBool true)],
             set_settings d
               (<[uid := {| is_public := default 1 isPublic;
                            allow_copy := default 0 allowCopy;
                            allow_followers := default 1 allowFollowers;
                            custom_colors := customColors;
                            settings_updated_at := Some now |}]>
                  (timetable_settings d)))
          else (Throw D1Error, d)
      | Some old =>
          (* [customColors !== undefined] holds always: custom_colors and
             updated_at are set by every update *)
          if negb (allow_followers_col d) && bool_decide (is_Some allowFollowers)
          then (Throw D1Error, d)
          else
            (Ok [("success", JBool true)],
             set_settings d
               (<[uid := {| is_public := default (is_public old) isPublic;
                            allow_copy := default (allow_copy old) allowCopy;
                            allow_followers :=
                              default (allow_followers old) allowFollowers;
                            custom_colors := customColors;
                            settings_updated_at := Some now |}]>
                  (timetable_settings d)))
      end
  end.

(** The handler registered for GET /timetables/settings (lines 614-627) is
    not embedded: the path also matches /timetables/:userId, whose
    handler is registered first (line 189) and answers without calling
    [next], so a read of the settings goes through [GET_timetable]. *)

(** ** GET /timetables/:userId/terms (lines 732-744) *)

Definition GET_terms (d : db) (ownerUid : string) : list term_view :=
  view_term
    <$> merge_sort latest_desc
          (published_of ownerUid (timetable_published_terms d)).

(** ** The schema middleware (lines 25-88)

    Of [ensureTimetableSchema], what changes the embedded state: a
    settings table without the allow_followers column gets it, with the
    column default 1 in every row. *)
Definition ensureTimetableSchema (d : db) : db :=
  if allow_followers_col d then d
  else
    {| timetable_entries := timetable_entries d;
       timetable_settings :=
         (λ r, {| is_public := is_public r; allow_copy := allow_copy r;
                  allow_followers := 1; custom_colors := custom_colors r;
                  settings_updated_at := settings_updated_at r |})
           <$> timetable_settings d;
       timetable_published_terms := timetable_published_terms d;
       follows := follows d;
       allow_followers_col := true |}.

(** ** resolveUid (lines 156-169)

    The [users] table of the social database, in the order the SELECT
    scans it: (id, user_id), [None] for a NULL user_id. *)
Abbreviation users := (list (string * option string))%type.

(** [userParam.startsWith('@') ? userParam.slice(1) : userParam] *)
Definition strip_at (userParam : string) : string :=
  match userParam with
  | String "@" rest => rest
  | _ => userParam
  end.

(** [WHERE id = ?1 OR LOWER(user_id) = LOWER(?1)] *)
Definition user_matches (q : string) (row : string * option string) : bool :=
  bool_decide (row.1 = q)
  || from_option (λ h, bool_decide (toLowerCase h = toLowerCase q)) false row.2.

Definition resolveUid (us : users) (userParam : string) : string :=
  if decide (userParam = "") then userParam
  else
    let q := strip_at userParam in
    match List.find (user_matches q) us with
    | Some row => row.1
    | None => q
    end.

(** ** Following (the application file, lines 312-372, 704-717 and 945-975)

    Of these handlers, what they do to the [follows] table; the [users]
    and [notifications] tables, which [ensureUserRow] and
    [createNotification] write, are not part of the embedded state.  The
    caller's id is the verified subject of the token. *)

(** An answer built with [c.json] or [c.text]. *)
Inductive reply : Type :=
  | ReplyJson (status : Z) (body : json_object)
  | ReplyText (status : Z) (body : string).

(** [requireAuth]: the answer to send back, or the caller's id. *)
Definition requireAuth (cred : credentials) : reply + string :=
  match cred with
  | NoToken => inl (ReplyText 401 "unauthorized")
  | InvalidToken => inl (ReplyText 401 "invalid token")
  | Verified sub =>
      if decide (sub = "") then inl (ReplyText 401 "invalid token")
      else inr sub
  end.

Definition set_follows (d : db) (F : gmap (string * string) string) : db :=
  {| timetable_entries := timetable_entries d;
     timetable_settings := timetable_settings d;
     timetable_published_terms := timetable_published_terms d;
     follows := F;
     allow_followers_col := allow_followers_col d |}.

(** [POST /api/follow/:id]:
    [INSERT INTO follows (follower_id, followee_id, state, followed_at)
     VALUES (?1, ?2, 'active', CURRENT_TIMESTAMP)
     ON CONFLICT(follower_id, followee_id) DO UPDATE SET state='active', ...] *)
Definition POST_follow (d : db) (cred : credentials) (followee : string)
    : reply * db :=
  match requireAuth cred with
  | inl bad => (bad, d)
  | inr follower =>
      if decide (followee = "" ∨ follower = followee)
      then (ReplyText 400 "bad request", d)
      else (ReplyJson 200 [("success", JBool true)],
            set_follows d (<[(follower, followee) := "active"]> (follows d)))
  end.

(** [DELETE /api/follow/:id]:
    [UPDATE follows SET state='inactive'
     WHERE follower_id = ?1 AND followee_id = ?2] *)
Definition DELETE_follow (d : db) (cred : credentials) (followee : string)
    : reply * db :=
  match requireAuth cred with
  | inl bad => (bad, d)
  | inr follower =>
      (ReplyJson 200 [("ok", JBool true)],
       set_follows d (alter (λ _, "inactive") (follower, followee) (follows d)))
  end.

(** ** Vocabulary of the further properties *)

(** The character of a decimal digit. *)
Definition digit_char (d : Z) : ascii := ascii_of_nat (48 + Z.to_nat d).

(** The key and the row that one entry of a POST writes. *)
Definition upsert_cell (now : Z) (uid : string) (e : entry_json)
    (kv : entry_key * entry_row) : Prop :=
  ∃ st, upsert_stmt uid e = Ok st ∧ insert_key st = Some kv.1
        ∧ kv.2 = insert_row now st.

(** The DELETE request that names the cell of an entry. *)
Definition delete_of (e : entry_json) : delete_body :=
  {| d_year := e_year e; d_semester := e_semester e;
     d_subTerm := e_subTerm e; d_sub_term := e_sub_term e;
     d_day := day_value e; d_period := e_period e |}.

(** An entry [{ year, semester, day, period, courseCode }]. *)
Definition full_entry (year semester : Z) (day : dayarg) (period : Z)
    (code : option string) : entry_json :=
  {| e_year := Some (Num year); e_semester := Some (Num semester);
     e_subTerm := None; e_sub_term := None; e_day := day;
     e_dayNum := DayUndefined; e_period := Some (Num period);
     e_courseCode := code; e_course_code := None; e_courseName := None;
     e_course_name := None; e_instructor := None |}.

(** The cell that a POST by uid writes for an entry, if it accepts it. *)
Definition entry_cell (uid : string) (e : entry_json) : option entry_key :=
  match upsert_stmt uid e with
  | Ok st => insert_key st
  | Throw _ => None
  end.

(** A POST of one entry for Tuesday, period 3 of (2025, 1, 0). *)
Definition post_one : entries_field :=
  EntriesArray [full_entry 2025 1 (DayString "t") 3 (Some "PHYS2")].

(** The colours that a read shows for a stored text: none for no text and
    for the empty text. *)
Definition shown_colors (text : option string) : option string :=
  match text with
  | Some s => if decide (s = "") then None else Some s
  | None => None
  end.

(** The settings that a read shows after the settings write [b] of [uid]
    over the database [d]: a flag of the request, else the stored flag,
    else the default of the INSERT; the colours of the request. *)
Definition written_settings (d : db) (uid : string) (b : settings_body)
    : settings_view :=
  let old := timetable_settings d !! uid in
  {| s_is_public :=
       bool_to_Z (default (from_option (λ r, bool_decide (is_public r = 1))
                             true old) (sb_isPublic b));
     s_allow_copy :=
       bool_to_Z (default (from_option (λ r, bool_decide (allow_copy r = 1))
                             false old) (sb_allowCopy b));
     s_allow_followers :=
       bool_to_Z (default (from_option
                             (λ r, bool_decide (allow_followers r = 1))
                             true old) (sb_allowFollowers b));
     s_custom_colors := shown_colors (stored_colors (sb_customColors b)) |}.

(** A settings request that sets the three flags and no colours. *)
Definition settings_flags (isPublic allowCopy allowFollowers : bool)
    : settings_body :=
  {| sb_isPublic := Some isPublic; sb_allowCopy := Some allowCopy;
     sb_allowFollowers := Some allowFollowers;
     sb_customColors := ColorsAbsent |}.

(** A settings request that only sets the colours to a text. *)
Definition settings_colors (s : string) : settings_body :=
  {| sb_isPublic := None; sb_allowCopy := None; sb_allowFollowers := None;
     sb_customColors := ColorsString s |}.

(** A parser that accepts the texts that start with a brace. *)
Definition starts_with_brace (s : string) : bool :=
  match s with
  | String "{" _ => true
  | _ => false
  end.

(** Every flag of the publication index is 0 or 1. *)
Definition flags_boolean (P : gmap published_key published_row) : Prop :=
  ∀ k r, P !! k = Some r → is_latest r = 0 ∨ is_latest r = 1.

(** The order of the listed terms: latest first, then most recent first. *)
Definition term_view_desc (a b : term_view) : Prop :=
  t_isLatest b < t_isLatest a
  ∨ (t_isLatest a = t_isLatest b ∧ t_publishedAt b ≤ t_publishedAt a).

(** The term that a publish request names. *)
Definition publish_term (b : publish_body) : option term :=
  bound_term (Number (p_year b)) (Number (p_semester b))
    (default (Num 0) (coalesce (p_subTerm b) (p_sub_term b))).

(** A row as a copy writes it: the same texts, written now. *)
Definition copied_row (now : Z) (r : entry_row) : entry_row :=
  {| course_code := course_code r; course_name := course_name r;
     instructor := instructor r; updated_at := now |}.

(** The term that a copy request names. *)
Definition copy_term (b : copy_body) : option term :=
  bound_term (Number (c_year b)) (Number (c_semester b))
    (default (Num 0) (c_subTerm b)).

(** Source user p allows copies and has two cells in (2025, 1, 0); the
    destination u has one, in another cell. *)
Definition db_copyable : db :=
  {| timetable_entries :=
       {[ ("u", (2025, 1, 0), (2, 3)) := old_row;
          ("p", (2025, 1, 0), (1, 1)) :=
            {| course_code := Some "CS101"; course_name := Some "Programming";
               instructor := None; updated_at := 7 |};
          ("p", (2025, 1, 0), (4, 2)) :=
            {| course_code := Some "BIO3"; course_name := None;
               instructor := Some "Ito"; updated_at := 8 |} ]};
     timetable_settings :=
       {[ "p" := {| is_public := 1; allow_copy := 1; allow_followers := 1;
                    custom_colors := Some "{}";
                    settings_updated_at := None |} ]};
     timetable_published_terms := ∅;
     follows := ∅;
     allow_followers_col := true |}.

(** The term that a read resolves (lines 249-276). *)
Definition resolved_term (d : db) (req : get_request) : option term :=
  if noTermSpecified req
  then latest_term (g_owner req) (timetable_published_terms d)
  else bound_term (g_year req) (g_semester req) (g_subTerm req).

(** A settings table from before the allow_followers column: owner o is
    private, f follows o. *)
Definition db_legacy : db :=
  {| timetable_entries := ∅;
     timetable_settings :=
       {[ "o" := {| is_public := 0; allow_copy := 0; allow_followers := 0;
                    custom_colors := None; settings_updated_at := None |} ]};
     timetable_published_terms := ∅;
     follows := {[ ("f", "o") := "active" ]};
     allow_followers_col := false |}.

(** User u has a cell with day 6 in (2025, 1, 0). *)
Definition db_day_6 : db :=
  set_entries empty_db {[ ("u", (2025, 1, 0), (6, 1)) := old_row ]}.

(** Two users; the second has the handle Alice. *)
Definition two_users : users :=
  [("uid-1", Some "bob"); ("uid-2", Some "Alice")].

(** * The latest-only router

    The second router of [src/src/timetable.ts] (lines 746-1214) keeps one
    timetable per user, in [timetable_entries_latest], and the term it
    stands for in [timetable_settings].  Its [auth], [dayKeyToNum],
    [dayNumToKey] and [resolveUid] are those of the first router.  The
    handlers are embedded on a database without the old
    [timetable_entries] table, for which the migration of the schema
    middleware (lines 803-820) does nothing. *)

Module Latest.

(** PRIMARY KEY(user_id, day, period), as (user_id, (day, period)). *)
Abbreviation cell_key := (string * (Z * Z))%type.

(** A row of [timetable_settings] (lines 774-787); the three term columns
    and [updated_at] may be NULL. *)
Record settings_row : Type := {
  is_public : Z;
  allow_copy : Z;
  allow_followers : Z;
  custom_colors : option string;
  current_year : option Z;
  current_semester : option Z;
  current_sub_term : option Z;
  is_term_mode : Z;
  settings_updated_at : option Z
}.

(** The tables the two embedded handlers use.  No handler reads the
    [updated_at] of an entry, which every INSERT sets. *)
Record db : Type := {
  timetable_entries_latest : gmap cell_key entry_row;
  timetable_settings : gmap string settings_row;
  follows : gmap (string * string) string
}.

Definition set_entries (d : db) (E : gmap cell_key entry_row) : db :=
  {| timetable_entries_latest := E;
     timetable_settings := timetable_settings d;
     follows := follows d |}.

Definition set_settings (d : db) (S : gmap string settings_row) : db :=
  {| timetable_entries_latest := timetable_entries_latest d;
     timetable_settings := S;
     follows := follows d |}.

(** [isFollower] (lines 897-906). *)
Definition isFollower (d : db) (viewerId ownerId : string) : bool :=
  if decide (viewerId = "" ∨ ownerId = "") then false
  else bool_decide (follows d !! (viewerId, ownerId) = Some "active").

(** ** PUT /timetables/sync (lines 1040-1132) *)

Record sync_body : Type := {
  b_year : option jsnum;
  b_semester : option jsnum;
  b_subTerm : option jsnum;
  b_sub_term : option jsnum;
  b_isTermMode : option bool;
  b_entries : entries_field
}.

(** [body?.entries ?? []], when it is an array. *)
Definition sync_entries (b : sync_body) : option (list entry_json) :=
  match b_entries b with
  | EntriesAbsent => Some []
  | EntriesNotArray => None
  | EntriesArray l => Some l
  end.

(** [DELETE FROM timetable_entries_latest WHERE user_id = ?] *)
Definition delete_user (uid : string) (E : gmap cell_key entry_row)
    : gmap cell_key entry_row :=
  filter (λ kv, kv.1.1 ≠ uid) E.

(** The parameters bound to one
    [INSERT INTO timetable_entries_latest (user_id, day, period,
     course_code, course_name, instructor, updated_at)
     VALUES (?, ?, ?, ?, ?, ?, strftime('%s','now'))]. *)
Record cell_insert : Type := {
  i_user : string;
  i_day : jsnum;
  i_period : jsnum;
  i_course_code : option string;
  i_course_name : option string;
  i_instructor : option string
}.

Definition insert_key (st : cell_insert) : option cell_key :=
  match i_day st, i_period st with
  | Num d, Num p => Some (i_user st, (d, p))
  | _, _ => None
  end.

Definition insert_row (now : Z) (st : cell_insert) : entry_row :=
  {| course_code := i_course_code st;
     course_name := i_course_name st;
     instructor := i_instructor st;
     updated_at := now |}.

(** One plain INSERT: NULL in a NOT NULL column and a taken primary key
    are errors. *)
Definition run_insert (now : Z) (E : gmap cell_key entry_row)
    (st : cell_insert) : result (gmap cell_key entry_row) :=
  match insert_key st with
  | None => Throw D1Error
  | Some k =>
      match E !! k with
      | Some _ => Throw D1Error
      | None => Ok (<[k := insert_row now st]> E)
      end
  end.

(** [tdb.batch(stmts)]: one transaction, rolled back by the first error. *)
Fixpoint batch (now : Z) (E : gmap cell_key entry_row)
    (stmts : list cell_insert) : result (gmap cell_key entry_row) :=
  match stmts with
  | [] => Ok E
  | st :: rest => E' ← run_insert now E st; batch now E' rest
  end.

(** The callback of [entries.map] (lines 1075-1097). *)
Definition sync_stmt (uid : string) (e : entry_json) : result cell_insert :=
  day ← dayKeyToNum (day_value e);
  let period := Number (e_period e) in
  let courseCode := coalesce (e_courseCode e) (e_course_code e) in
  let courseName := coalesce (e_courseName e) (e_course_name e) in
  d ← bind_day day;
  Ok {| i_user := uid; i_day := d; i_period := period;
        i_course_code := courseCode; i_course_name := courseName;
        i_instructor := e_instructor e |}.

(** Step 2 (lines 1074-1101). *)
Definition sync_insert (now : Z) (uid : string) (entries : list entry_json)
    (E : gmap cell_key entry_row) : result (gmap cell_key entry_row) :=
  if decide (entries = []) then Ok E
  else stmts ← mapM (sync_stmt uid) entries; batch now E stmts.

(** A number bound to a nullable INTEGER column: NaN is stored as NULL. *)
Definition sql_integer (n : jsnum) : option Z :=
  match n with
  | Num z => Some z
  | NaN => None
  end.

(** Step 3 (lines 1104-1120): the INSERT of a first row leaves the three
    flags and the colours to the defaults of the table; the UPDATE keeps
    them. *)
Definition save_term (now : Z) (uid : string) (year semester subTerm : jsnum)
    (isTermMode : bool) (S : gmap string settings_row)
    : gmap string settings_row :=
  match S !! uid with
  | None =>
      <[uid := {| is_public := 1; allow_copy := 0; allow_followers := 1;
                  custom_colors := None;
                  current_year := sql_integer year;
                  current_semester := sql_integer semester;
                  current_sub_term := sql_integer subTerm;
                  is_term_mode := bool_to_Z isTermMode;
                  settings_updated_at := Some now |}]> S
  | Some r =>
      <[uid := {| is_public := is_public r; allow_copy := allow_copy r;
                  allow_followers := allow_followers r;
                  custom_colors := custom_colors r;
                  current_year := sql_integer year;
                  current_semester := sql_integer semester;
                  current_sub_term := sql_integer subTerm;
                  is_term_mode := bool_to_Z isTermMode;
                  settings_updated_at := Some now |}]> S
  end.

(** [Number(body.year ?? 2025)], [Number(body.semester ?? 1)] and
    [Number(body.subTerm ?? body.sub_term ?? 0)]. *)
Definition body_year (b : sync_body) : jsnum := default (Num 2025) (b_year b).

Definition body_semester (b : sync_body) : jsnum :=
  default (Num 1) (b_semester b).

Definition body_subTerm (b : sync_body) : jsnum :=
  default (Num 0) (coalesce (b_subTerm b) (b_sub_term b)).

(** The answer and the database left behind.  Everything after the check
    of [entries] runs inside one [try], whose [catch] answers 500. *)
Definition PUT_sync (now : Z) (d : db) (cred : credentials) (body : sync_body)
    : result json_object * db :=
  match auth cred with
  | Throw e => (Throw e, d)
  | Ok uid =>
      let year := body_year body in
      let semester := body_semester body in
      let subTerm := body_subTerm body in
      let isTermMode := default false (b_isTermMode body) in
      match sync_entries body with
      | None => (Throw (HTTPException 400 "entries must be an array"), d)
      | Some entries =>
          (* 1. delete every stored entry of the user *)
          let d1 := set_entries d
            (delete_user uid (timetable_entries_latest d)) in
          (* 2. insert the new ones *)
          match sync_insert now uid entries (timetable_entries_latest d1) with
          | Throw _ => (Throw (HTTPException 500 "Sync failed"), d1)
          | Ok E2 =>
              let d2 := set_entries d1 E2 in
              (* 3. save the term in the settings *)
              let d3 := set_settings d2
                (save_term now uid year semester subTerm isTermMode
                   (timetable_settings d2)) in
              (Ok [("success", JBool true);
                   ("message",
                    JString ("Synced " +:+ pretty (List.length entries)
                             +:+ " entries as latest timetable"))],
               d3)
          end
      end
  end.

(** ** GET /timetables/:userId (lines 910-1034) *)

(** The request: the resolved owner, [Number] of the three query
    parameters (of '2025', '1' and '0' for an absent one), and the
    caller's credentials. *)
Record get_request : Type := {
  g_owner : string;
  g_year : jsnum;
  g_semester : jsnum;
  g_subTerm : jsnum;
  g_cred : credentials
}.

(** One element of [entries]; [sub_term], [course_code] and [course_name]
    are repeated under their camel-case names with the same values. *)
Record entry_view : Type := {
  v_year : jsnum;
  v_semester : jsnum;
  v_sub_term : jsnum;
  v_day : string;
  v_dayNum : Z;
  v_period : Z;
  v_course_code : string;
  v_course_name : string;
  v_instructor : string
}.

Record settings_view : Type := {
  s_is_public : bool;
  s_allow_copy : bool;
  s_allow_followers : bool;
  s_custom_colors : option string;
  s_current_year : jsnum;
  s_current_semester : jsnum;
  s_current_sub_term : jsnum;
  s_is_term_mode : bool
}.

(** The answer: [entries] (also sent as [items]) and [settings]. *)
Record get_response : Type := {
  r_entries : list entry_view;
  r_settings : settings_view
}.

(** [SELECT day, period, course_code, course_name, instructor
     FROM timetable_entries_latest WHERE user_id = ?
     ORDER BY day, period] *)
Definition select_user (uid : string) (E : gmap cell_key entry_row)
    : list cell :=
  merge_sort cell_le
    ((λ kv : cell_key * entry_row, (kv.1.2, kv.2))
       <$> map_to_list (filter (λ kv, kv.1.1 = uid) E)).

Definition view_entry (year semester subTerm : jsnum) (r : cell)
    : result entry_view :=
  day ← dayNumToKey r.1.1;
  Ok {| v_year := year; v_semester := semester; v_sub_term := subTerm;
        v_day := day; v_dayNum := r.1.1; v_period := r.1.2;
        v_course_code := default "" (course_code r.2);
        v_course_name := default "" (course_name r.2);
        v_instructor := default "" (instructor r.2) |}.

(** [settingsRow?.col === 1] *)
Definition is_one (col : settings_row → Z) (settingsRow : option settings_row)
    : bool :=
  from_option (λ r, bool_decide (col r = 1)) false settingsRow.

(** [settingsRow?.col ?? fallback] *)
Definition or_query (col : settings_row → option Z)
    (settingsRow : option settings_row) (fallback : jsnum) : jsnum :=
  from_option Num fallback (settingsRow ≫= col).

(** The access check (lines 940-955). *)
Definition visibility_gate (d : db) (isPublic allowFollowers : bool)
    (cred : credentials) (ownerUid : string) : result unit :=
  if isPublic then Ok ()
  else
    match auth cred with
    | Throw _ => Throw (HTTPException 403 "Timetable is private")
    | Ok uid =>
        if decide (uid ≠ ownerUid) then
          if negb allowFollowers then
            Throw (HTTPException 403 "Timetable is private")
          else if isFollower d uid ownerUid then Ok ()
          else Throw (HTTPException 403 "Timetable is private")
        else Ok ()
    end.

Section Read.
(** Whether [JSON.parse] accepts a text. *)
Variable JSON_valid : string → bool.

(** [settingsRow?.custom_colors ? JSON.parse(...) : null]; the parsed
    value is carried as the text it was parsed from. *)
Definition parse_colors (row : option settings_row) : result (option string) :=
  match row ≫= custom_colors with
  | None => Ok None
  | Some text =>
      if decide (text = "") then Ok None
      else if JSON_valid text then Ok (Some text)
      else Throw SyntaxError
  end.

(** The [try] around the read (lines 958-1033): an error of the [map]
    callback is logged and the answer carries no entry. *)
Definition GET_timetable (d : db) (req : get_request) : result get_response :=
  let ownerUid := g_owner req in
  let settingsRow := timetable_settings d !! ownerUid in
  let isPublic := is_one is_public settingsRow in
  let allowCopy := is_one allow_copy settingsRow in
  let allowFollowers := is_one allow_followers settingsRow in
  customColors ← parse_colors settingsRow;
  let currentYear := or_query current_year settingsRow (g_year req) in
  let currentSemester :=
    or_query current_semester settingsRow (g_semester req) in
  let currentSubTerm :=
    or_query current_sub_term settingsRow (g_subTerm req) in
  let isTermMode := is_one is_term_mode settingsRow in
  _ ← visibility_gate d isPublic allowFollowers (g_cred req) ownerUid;
  let settings :=
    {| s_is_public := isPublic; s_allow_copy := allowCopy;
       s_allow_followers := allowFollowers;
       s_custom_colors := customColors;
       s_current_year := currentYear;
       s_current_semester := currentSemester;
       s_current_sub_term := currentSubTerm;
       s_is_term_mode := isTermMode |} in
  let rows := select_user ownerUid (timetable_entries_latest d) in
  match mapM (view_entry currentYear currentSemester currentSubTerm) rows with
  | Ok entries => Ok {| r_entries := entries; r_settings := settings |}
  | Throw _ => Ok {| r_entries := []; r_settings := settings |}
  end.
End Read.

(** ** Vocabulary of the properties *)

(** The cell and row that a sync stores for an entry. *)
Definition stored (now : Z) (uid : string) (e : entry_json)
    : option (cell_key * entry_row) :=
  match sync_stmt uid e with
  | Ok st => (λ k, (k, insert_row now st)) <$> insert_key st
  | Throw _ => None
  end.

(** A read by a caller without a token. *)
Definition anonymous (ownerUid : string) (year semester subTerm : jsnum)
    : get_request :=
  {| g_owner := ownerUid; g_year := year; g_semester := semester;
     g_subTerm := subTerm; g_cred := NoToken |}.

Definition no_body (entries : list entry_json) : sync_body :=
  {| b_year := None; b_semester := None; b_subTerm := None;
     b_sub_term := None; b_isTermMode := None;
     b_entries := EntriesArray entries |}.

Definition empty_db : db :=
  {| timetable_entries_latest := ∅; timetable_settings := ∅; follows := ∅ |}.

(** User u has one cell, on day 2 in period 3. *)
Definition db_one_cell : db :=
  set_entries empty_db {[ ("u", (2, 3)) := old_row ]}.

(** User u has a cell with day 6 and public settings. *)
Definition db_day_6 : db :=
  {| timetable_entries_latest :=
       {[ ("u", (6, 1)) := old_row; ("u", (2, 3)) := old_row ]};
     timetable_settings :=
       {[ "u" := {| is_public := 1; allow_copy := 0; allow_followers := 1;
                    custom_colors := None; current_year := None;
                    current_semester := None; current_sub_term := None;
                    is_term_mode := 0; settings_updated_at := None |} ]};
     follows := ∅ |}.

End Latest.

(** * Properties *)

(** ** Sequencing in [result] *)

Lemma bind_Ok {A B} (a : A) (k : A → result B) : (Ok a ≫= k) = k a.
Proof. reflexivity. Qed.

Lemma bind_Throw {A B} (e : exn) (k : A → result B) : (Throw e ≫= k) = Throw e.
Proof. reflexivity. Qed.

Section Result.
Context {A B : Type}.
Implicit Types (f : A → result B) (l : list A).

Lemma mapM_result_cons f x l :
  mapM f (x :: l) = (y ← f x; k ← mapM f l; Ok (y :: k)).
Proof. reflexivity. Qed.

(** [map] throws what its callback throws on some element. *)
Lemma mapM_Throw f l e : mapM f l = Throw e → ∃ x, x ∈ l ∧ f x = Throw e.
Proof.
  induction l as [|x l IH]; [discriminate|].
  rewrite mapM_result_cons.
  destruct (f x) as [y|e'] eqn:Hx.
  - rewrite bind_Ok.
    destruct (mapM f l) as [k|e'']; [discriminate|].
    rewrite bind_Throw. intros [= ->].
    destruct IH as (x' & Hin & Hx'); [done|].
    exists x'. split; [by apply list_elem_of_further|done].
  - rewrite bind_Throw. intros [= ->].
    exists x. split; [apply list_elem_of_here|done].
Qed.

(** [map] succeeds when its callback does on every element. *)
Lemma mapM_Ok f l ys :
  mapM f l = Ok ys ↔ Forall2 (λ x y, f x = Ok y) l ys.
Proof.
  revert ys. induction l as [|x l IH]; intros ys.
  - split; [intros [= <-]; constructor|by inversion 1].
  - rewrite mapM_result_cons. split.
    + destruct (f x) as [y|] eqn:Hx; [|discriminate]. rewrite bind_Ok.
      destruct (mapM f l) as [k|]; [|discriminate].
      rewrite bind_Ok. intros [= <-]. constructor; [done|by apply IH].
    + inversion 1 as [|? y ? k Hx Hl]; subst.
      rewrite Hx, bind_Ok. apply IH in Hl. rewrite Hl. reflexivity.
Qed.

Lemma mapM_elem_Throw f l x e :
  x ∈ l → f x = Throw e → ∃ e', mapM f l = Throw e'.
Proof.
  intros Hin Hx. induction l as [|y l IH]; [by apply elem_of_nil in Hin|].
  rewrite mapM_result_cons.
  apply elem_of_cons in Hin as [<-|Hin].
  - rewrite Hx, bind_Throw. eauto.
  - destruct (f y); [|rewrite bind_Throw; eauto].
    rewrite bind_Ok. destruct (IH Hin) as [e' ->]. rewrite bind_Throw. eauto.
Qed.

Lemma mapM_total (g : A → B) f l :
  (∀ x, x ∈ l → f x = Ok (g x)) → mapM f l = Ok (g <$> l).
Proof.
  intros Hf. apply mapM_Ok. induction l as [|x l IH]; constructor.
  - apply Hf. apply list_elem_of_here.
  - apply IH. intros y Hy. apply Hf. by apply list_elem_of_further.
Qed.
End Result.

(** ** Day conversion *)

Section Day.

Lemma dayNumToKey_in_range d :
  1 ≤ d ≤ 5 → dayNumToKey d = Ok (day_keys d).
Proof.
  intros Hd. unfold dayNumToKey.
  destruct (d <? 1) eqn:H1; [lia|].
  destruct (d >? 5) eqn:H5; [lia|]. reflexivity.
Qed.

Lemma dayNumToKey_out_of_range d :
  d < 1 ∨ 5 < d →
  dayNumToKey d = Throw (HTTPException 500 ("bad day num: " +:+ pretty d)).
Proof.
  intros Hd. unfold dayNumToKey.
  destruct (d <? 1) eqn:H1; [reflexivity|].
  destruct (d >? 5) eqn:H5; [reflexivity|]. lia.
Qed.

Lemma dayNumToKey_Ok d k : dayNumToKey d = Ok k → 1 ≤ d ≤ 5 ∧ k = day_keys d.
Proof.
  unfold dayNumToKey.
  destruct (d <? 1) eqn:H1; [discriminate|].
  destruct (d >? 5) eqn:H5; [discriminate|].
  intros [= <-]. split; [lia|reflexivity].
Qed.

Lemma day_keys_decode d :
  1 ≤ d ≤ 5 → dayKeyToNum (DayString (day_keys d)) = Ok (OutNumber (Num d)).
Proof.
  intros Hd.
  assert (d = 1 ∨ d = 2 ∨ d = 3 ∨ d = 4 ∨ d = 5) as Hc by lia.
  destruct Hc as [-> | [-> | [-> | [-> | ->]]]]; reflexivity.
Qed.

Lemma letter_round_trip_all c :
  lower_ascii c ∈ day_letters → letter_round_trip c = true.
Proof.
  intros Hc.
  assert (bool_decide (lower_ascii c ∈ day_letters) = true) as Hb
    by (by apply bool_decide_eq_true_2).
  clear Hc. revert Hb.
  destruct c as [[] [] [] [] [] [] [] []]; vm_compute; congruence.
Qed.

(** A letter outside the five is refused with status 400. *)
Lemma dayKeyToNum_other_letter c :
  is_letter c = true → lower_ascii c ∉ day_letters →
  dayKeyToNum (DayString (letter c))
  = Throw (HTTPException 400 ("bad day: " +:+ letter c)).
Proof.
  intros Hl Hc.
  assert (bool_decide (lower_ascii c ∈ day_letters) = false) as Hb
    by (by apply bool_decide_eq_false_2).
  clear Hc. revert Hl Hb.
  destruct c as [[] [] [] [] [] [] [] []]; vm_compute; congruence.
Qed.

(** A numeric string is checked against 1..5; a number is not. *)
Lemma dayKeyToNum_number n : dayKeyToNum (DayNumber n) = Ok (OutNumber n).
Proof. reflexivity. Qed.

Example dayKeyToNum_string_6 :
  dayKeyToNum (DayString "6") = Throw (HTTPException 400 "bad day: 6").
Proof. reflexivity. Qed.

End Day.

(** C7: for every d in 1..5, [dayNumToKey] followed by [dayKeyToNum] gives
    back d; for every letter of m, t, w, r, f in either case, [dayKeyToNum]
    followed by [dayNumToKey] gives the lower-case letter. *)
Theorem day_round_trip :
  (∀ d, 1 ≤ d ≤ 5 →
     ∃ k, dayNumToKey d = Ok k
          ∧ dayKeyToNum (DayString k) = Ok (OutNumber (Num d)))
  ∧ (∀ c, lower_ascii c ∈ day_letters →
     ∃ n, dayKeyToNum (DayString (letter c)) = Ok (OutNumber (Num n))
          ∧ dayNumToKey n = Ok (letter (lower_ascii c))).
Proof.
  split.
  - intros d Hd. exists (day_keys d).
    split; [by apply dayNumToKey_in_range | by apply day_keys_decode].
  - intros c Hc. apply letter_round_trip_all in Hc.
    unfold letter_round_trip in Hc.
    destruct (dayKeyToNum (DayString (letter c))) as [[[n|]|]|]; try discriminate.
    exists n. split; [reflexivity|]. by apply bool_decide_eq_true in Hc.
Qed.

Lemma day_round_trip_witness :
  (∃ k, dayNumToKey 3 = Ok k
        ∧ dayKeyToNum (DayString k) = Ok (OutNumber (Num 3)))
  ∧ (∃ n, dayKeyToNum (DayString (letter "W")) = Ok (OutNumber (Num n))
          ∧ dayNumToKey n = Ok (letter (lower_ascii "W"))).
Proof.
  split.
  - apply (proj1 day_round_trip 3). lia.
  - apply (proj2 day_round_trip "W"%char).
    apply (bool_decide_unpack _). vm_compute. exact I.
Defined.

(** C3: a number is returned as it is, so 6 is a day for [dayKeyToNum];
    the sync of [{day:"m",period:1,courseCode:"CS101"}, {day:6,period:1}]
    answers success and stores both entries, and the term can then no
    longer be read. *)
Theorem day_number_not_range_checked :
  dayKeyToNum (DayNumber (Num 6)) = Ok (OutNumber (Num 6))
  ∧ ∃ d',
      PUT_sync 10 empty_db (Verified "u")
        (sync_2025 [entry_of (DayString "m") 1 (Some "CS101");
                    entry_of (DayNumber (Num 6)) 1 None] false)
      = (Ok [("success", JBool true); ("deleted", JBool true);
             ("inserted", JNumber (Num 2));
             ("message", JSynced 2 (Num 2025) (Num 1) (Num 0))], d', [])
      ∧ select_term "u" (Num 2025) (Num 1) (Num 0) (timetable_entries d')
        = [(1, 1, {| course_code := Some "CS101"; course_name := None;
                     instructor := None; updated_at := 10 |});
           (6, 1, {| course_code := None; course_name := None;
                     instructor := None; updated_at := 10 |})]
      ∧ GET_timetable (λ _, true) d' (read_2025 (Verified "u"))
        = Throw (HTTPException 500 "bad day num: 6").
Proof.
  split; [reflexivity|].
  eexists. split; [vm_compute; reflexivity|].
  split; vm_compute; reflexivity.
Qed.

(** ** Full-replace sync *)

(** A sync with an entry whose day does not decode answers 500, after the
    stored entries of the term were deleted. *)
Lemma sync_invalid_day now d cred uid body entries e err :
  auth cred = Ok uid →
  sync_entries body = Some entries →
  e ∈ entries →
  dayKeyToNum (day_value e) = Throw err →
  PUT_sync now d cred body
  = (Throw (HTTPException 500 "Sync failed"),
     set_entries d
       (delete_term uid (body_year body) (body_semester body)
          (body_subTerm body) (timetable_entries d)),
     []).
Proof.
  intros Ha He Hin Hday. unfold PUT_sync. rewrite Ha, He.
  fold (body_year body) (body_semester body) (body_subTerm body). simpl.
  unfold sync_insert.
  destruct (decide (entries = [])) as [->|_]; [by apply elem_of_nil in Hin|].
  destruct (mapM_elem_Throw
              (sync_stmt uid (body_year body) (body_semester body)
                 (body_subTerm body)) entries e err Hin) as [e' ->].
  - unfold sync_stmt. by rewrite Hday.
  - reflexivity.
Qed.

(** C1: a sync whose only entry has the undecodable day "x" answers 500
    "Sync failed", and the entry that user u had in the term is gone: the
    DELETE ran before the entries were looked at. *)
Theorem sync_deletes_before_validating :
  dayKeyToNum (DayString "x") = Throw (HTTPException 400 "bad day: x")
  ∧ timetable_entries db_one_entry !! ("u", (2025, 1, 0), (2, 3)) = Some old_row
  ∧ PUT_sync 10 db_one_entry (Verified "u")
      (sync_2025 [entry_of (DayString "x") 1 None] false)
    = (Throw (HTTPException 500 "Sync failed"), set_entries db_one_entry ∅, []).
Proof.
  split; [reflexivity|]. split; vm_compute; reflexivity.
Qed.

(** ** Visibility *)

Section Gate.
Variable JSON_valid : string → bool.

Lemma auth_Ok_nonempty cred uid : auth cred = Ok uid → uid ≠ "".
Proof.
  destruct cred as [| |u]; simpl; try discriminate.
  destruct (decide (u = "")); [discriminate|]. by intros [= <-].
Qed.

(** The gate answers nothing but "allowed" or [PrivateTimetable]. *)
Lemma visibility_gate_cases d isPublic allowFollowers cred owner :
  visibility_gate d isPublic allowFollowers cred owner = Ok ()
  ∨ visibility_gate d isPublic allowFollowers cred owner
    = Throw PrivateTimetable.
Proof.
  unfold visibility_gate.
  destruct isPublic; [by left|].
  destruct (auth cred); [|by right].
  destruct (decide (a ≠ owner)); [|by left].
  destruct allowFollowers; simpl; [|by right].
  destruct (isFollower d a owner); [by left|by right].
Qed.

(** Building the entries of the answer fails with status 500 only. *)
Lemma view_entries_Throw subTerm rows e :
  mapM (view_entry subTerm) rows = Throw e →
  ∃ msg, e = HTTPException 500 msg.
Proof.
  intros (r & _ & Hr)%mapM_Throw. revert Hr.
  unfold view_entry, dayNumToKey.
  destruct ((r.1.1 <? 1) || (r.1.1 >? 5)); [|discriminate].
  intros [= <-]. eauto.
Qed.

(** The handler is: parse the colours, pass the gate, then read. *)
Lemma GET_timetable_denied d req :
  GET_timetable JSON_valid d req = Throw PrivateTimetable ↔
  (∃ colors, parse_colors JSON_valid
               (timetable_settings d !! g_owner req) = Ok colors)
  ∧ read_gate d (g_cred req) (g_owner req) = Throw PrivateTimetable.
Proof.
  unfold GET_timetable, read_gate.
  destruct (parse_colors JSON_valid (timetable_settings d !! g_owner req))
    as [colors|e] eqn:Hp; simpl.
  - destruct (visibility_gate_cases d
      (row_isPublic (timetable_settings d !! g_owner req))
      (row_allowFollowers (allow_followers_col d)
         (timetable_settings d !! g_owner req))
      (g_cred req) (g_owner req)) as [-> | ->]; simpl.
    + split; [|intros [_ [=]]].
      destruct (if _ : bool then _ else _) as [[[y s] t]|]; [|discriminate].
      destruct (mapM _ _) eqn:Hm; simpl; [discriminate|].
      intros [= ->]. apply view_entries_Throw in Hm as [msg [=]].
    + split; eauto.
  - split; [|by intros [[c [=]] _]].
    intros [= ->]. exfalso. revert Hp. unfold parse_colors.
    destruct (_ ≫= custom_colors) as [text|]; [|discriminate].
    destruct (decide (text = "")); [discriminate|].
    destruct (JSON_valid text); discriminate.
Qed.

End Gate.

(** C5: when the owner's timetable is not public, the owner passes the
    gate; an authenticated viewer who is neither the owner nor an active
    follower is denied with [PrivateTimetable] whatever allow_followers
    says; and an active follower passes exactly when followers may view. *)
Theorem private_visibility (d : db) (cred : credentials) (owner : string) :
  row_isPublic (timetable_settings d !! owner) = false →
  (auth cred = Ok owner → read_gate d cred owner = Ok ())
  ∧ (∀ v, auth cred = Ok v → v ≠ owner → isFollower d v owner = false →
       read_gate d cred owner = Throw PrivateTimetable)
  ∧ (∀ v, auth cred = Ok v → v ≠ owner → isFollower d v owner = true →
       (read_gate d cred owner = Ok ()
        ↔ row_allowFollowers (allow_followers_col d)
            (timetable_settings d !! owner) = true)).
Proof.
  intros Hpriv. unfold read_gate, visibility_gate. rewrite Hpriv.
  split; [|split].
  - intros ->. by destruct (decide (owner ≠ owner)).
  - intros v -> Hne Hf. destruct (decide (v ≠ owner)); [|done].
    rewrite Hf. by destruct (row_allowFollowers _ _).
  - intros v -> Hne Hf. destruct (decide (v ≠ owner)); [|done].
    rewrite Hf. destruct (row_allowFollowers _ _); simpl; split; done.
Qed.

Lemma private_visibility_witness :
  read_gate db_private (Verified "o") "o" = Ok ()
  ∧ read_gate db_private (Verified "s") "o" = Throw PrivateTimetable
  ∧ (read_gate db_private (Verified "f") "o" = Ok ()
     ↔ row_allowFollowers (allow_followers_col db_private)
         (timetable_settings db_private !! "o") = true).
Proof.
  split; [|split].
  - apply (private_visibility db_private (Verified "o") "o"); reflexivity.
  - apply (proj1 (proj2 (private_visibility db_private (Verified "s") "o"
                           eq_refl)) "s");
      [reflexivity|discriminate|reflexivity].
  - apply (proj2 (proj2 (private_visibility db_private (Verified "f") "o"
                           eq_refl)) "f");
      [reflexivity|discriminate|reflexivity].
Defined.

(** C10: when the owner has no settings row, every read by anyone who is
    not authenticated as the owner is denied with [PrivateTimetable], and
    the owner's own authenticated read passes the gate and is not denied. *)
Theorem no_settings_row_is_private (JSON_valid : string → bool) (d : db)
    (req : get_request) :
  timetable_settings d !! g_owner req = None →
  (auth (g_cred req) ≠ Ok (g_owner req) →
     GET_timetable JSON_valid d req = Throw PrivateTimetable)
  ∧ (auth (g_cred req) = Ok (g_owner req) →
     read_gate d (g_cred req) (g_owner req) = Ok ()
     ∧ GET_timetable JSON_valid d req ≠ Throw PrivateTimetable).
Proof.
  intros Hrow. split.
  - intros Hne. apply GET_timetable_denied. rewrite Hrow. split; [by eexists|].
    unfold read_gate, visibility_gate. rewrite Hrow. simpl.
    destruct (auth (g_cred req)) as [uid|]; [|done].
    destruct (decide (uid ≠ g_owner req)) as [|Heq]; [by destruct (allow_followers_col d)|].
    destruct Hne. f_equal. by destruct (decide (uid = g_owner req)).
  - intros Ho.
    assert (read_gate d (g_cred req) (g_owner req) = Ok ()) as Hg.
    { unfold read_gate, visibility_gate. rewrite Hrow, Ho. simpl.
      by destruct (decide (g_owner req ≠ g_owner req)). }
    split; [done|].
    intros [_ Hd]%GET_timetable_denied. congruence.
Qed.

Lemma no_settings_row_is_private_witness :
  GET_timetable (λ _, true) empty_db (read_2025 NoToken) = Throw PrivateTimetable
  ∧ GET_timetable (λ _, true) empty_db (read_2025 (Verified "v"))
    = Throw PrivateTimetable
  ∧ read_gate empty_db (Verified "u") "u" = Ok ().
Proof.
  split; [|split].
  - apply (no_settings_row_is_private (λ _, true) empty_db (read_2025 NoToken));
      [reflexivity|discriminate].
  - apply (no_settings_row_is_private (λ _, true) empty_db
             (read_2025 (Verified "v"))); [reflexivity|discriminate].
  - apply (no_settings_row_is_private (λ _, true) empty_db
             (read_2025 (Verified "u"))); reflexivity.
Defined.

(** ** Copy *)

(** C9: when the source's settings row is missing or does not have both
    is_public = 1 and allow_copy = 1, the copy leaves the database as it
    was, and for an authenticated caller it fails with [CopyNotAllowed]. *)
Theorem copy_refused_leaves_db (now : Z) (d : db) (cred : credentials)
    (sourceUserId : string) (body : copy_body) :
  (∀ s, timetable_settings d !! sourceUserId = Some s →
        ¬ (is_public s = 1 ∧ allow_copy s = 1)) →
  (POST_copy now d cred sourceUserId body).2 = d
  ∧ (∀ uid, auth cred = Ok uid →
       POST_copy now d cred sourceUserId body = (Throw CopyNotAllowed, d)).
Proof.
  intros Hs.
  assert (copy_refused (timetable_settings d !! sourceUserId) = true) as Hr.
  { destruct (timetable_settings d !! sourceUserId) as [s|]; [|done]. simpl.
    specialize (Hs s eq_refl).
    destruct (decide (is_public s = 1)) as [Hp|Hp].
    - destruct (decide (allow_copy s = 1)) as [Hc|Hc]; [tauto|].
      by rewrite (bool_decide_eq_true_2 _ Hp), (bool_decide_eq_false_2 _ Hc).
    - by rewrite (bool_decide_eq_false_2 _ Hp). }
  unfold POST_copy. destruct (auth cred) as [uid|e].
  - rewrite Hr. split; [done|]. by intros uid' [= <-].
  - split; [done|]. discriminate.
Qed.

Lemma copy_refused_leaves_db_witness :
  (POST_copy 10 db_no_copy NoToken "p" copy_2025).2 = db_no_copy
  ∧ POST_copy 10 db_no_copy (Verified "u") "p" copy_2025
    = (Throw CopyNotAllowed, db_no_copy).
Proof.
  assert (∀ s, timetable_settings db_no_copy !! "p" = Some s →
               ¬ (is_public s = 1 ∧ allow_copy s = 1)) as Hs.
  { intros s Hs. vm_compute in Hs. injection Hs as <-. simpl. lia. }
  split.
  - apply (copy_refused_leaves_db 10 db_no_copy NoToken "p" copy_2025 Hs).
  - apply (proj2 (copy_refused_leaves_db 10 db_no_copy (Verified "u") "p"
                    copy_2025 Hs) "u"). reflexivity.
Defined.

(** ** The publication index *)

Section Publication.
Implicit Types (P : gmap published_key published_row) (tm : term).

Lemma bound_term_Some year semester subTerm tm :
  bound_term year semester subTerm = Some tm →
  year = Num tm.1.1 ∧ semester = Num tm.1.2 ∧ subTerm = Num tm.2.
Proof.
  destruct year, semester, subTerm; simpl; try discriminate.
  by intros [= <-].
Qed.

Lemma sql_differs_Num col v : sql_differs col (Num v) = true ↔ col ≠ v.
Proof. simpl. rewrite negb_true_iff, Z.eqb_neq. done. Qed.

Lemma clear_other_latest_lookup uid year semester subTerm P u y s t :
  clear_other_latest uid year semester subTerm P !! (u, (y, s, t))
  = (λ row,
       if bool_decide (u = uid)
          && (sql_differs y year || sql_differs s semester
              || sql_differs t subTerm)
       then {| is_latest := 0; published_at := published_at row |}
       else row) <$> P !! (u, (y, s, t)).
Proof.
  unfold clear_other_latest. rewrite map_lookup_imap.
  by destruct (P !! (u, (y, s, t))).
Qed.

(** The UPDATE flags no row. *)
Lemma clear_other_latest_no_new uid year semester subTerm P :
  no_new_latest P (clear_other_latest uid year semester subTerm P).
Proof.
  intros [u [[y s] t]] r'. rewrite clear_other_latest_lookup.
  destruct (P !! (u, (y, s, t))) as [r|]; [|discriminate]. simpl.
  destruct (_ && _); intros [= <-]; simpl; [discriminate|]. eauto.
Qed.

Lemma sql_differs_term y s t tm :
  sql_differs y (Num tm.1.1) || sql_differs s (Num tm.1.2)
    || sql_differs t (Num tm.2)
  = bool_decide ((y, s, t) ≠ tm).
Proof.
  destruct tm as [[y' s'] t']. unfold sql_differs. simpl.
  destruct (Z.eqb_spec y y'), (Z.eqb_spec s s'), (Z.eqb_spec t t'); simpl;
    symmetry; first [apply bool_decide_eq_true_2 | apply bool_decide_eq_false_2];
    congruence.
Qed.

(** After the UPDATE, a flagged row of that user is the bound term. *)
Lemma clear_other_latest_flagged uid tm P tm' r' :
  clear_other_latest uid (Num tm.1.1) (Num tm.1.2) (Num tm.2) P
    !! (uid, tm') = Some r' →
  is_latest r' = 1 → tm' = tm.
Proof.
  destruct tm' as [[y' s'] t'].
  rewrite clear_other_latest_lookup, sql_differs_term.
  destruct (P !! (uid, (y', s', t'))) as [r|]; [|discriminate].
  rewrite bool_decide_eq_true_2 by done.
  destruct (decide ((y', s', t') = tm)) as [Heq|Hne]; [done|].
  rewrite (bool_decide_eq_true_2 _ Hne).
  intros [= <-]. simpl. discriminate.
Qed.

Lemma no_new_latest_refl P : no_new_latest P P.
Proof. intros k r' ? ?. eauto. Qed.

Lemma no_new_latest_trans P1 P2 P3 :
  no_new_latest P1 P2 → no_new_latest P2 P3 → no_new_latest P1 P3.
Proof.
  intros H12 H23 k r3 Hk Hl.
  destruct (H23 k r3 Hk Hl) as (r2 & Hk2 & Hl2). eauto.
Qed.

Lemma at_most_one_latest_no_new owner P P' :
  no_new_latest P P' → at_most_one_latest owner P →
  at_most_one_latest owner P'.
Proof.
  intros Hnew Hone t1 t2 r1 r2 H1 H2 L1 L2.
  destruct (Hnew _ _ H1 L1) as (q1 & ? & ?).
  destruct (Hnew _ _ H2 L2) as (q2 & ? & ?). eauto.
Qed.

(** Publishing without pinning flags no row. *)
Lemma upsert_published_unpinned uid year semester subTerm now P P1 :
  upsert_published uid year semester subTerm 0 now P = Ok P1 →
  no_new_latest P P1.
Proof.
  unfold upsert_published.
  destruct (bound_term year semester subTerm) as [tm|]; [|discriminate].
  destruct (P !! (uid, tm)) as [old|] eqn:Hold; intros [= <-] k r'.
  - destruct (decide (k = (uid, tm))) as [->|Hk].
    + rewrite lookup_insert_eq. intros [= <-]. simpl.
      destruct (decide (0 = 1)); [lia|]. eauto.
    + rewrite lookup_insert_ne by done. eauto.
  - destruct (decide (k = (uid, tm))) as [->|Hk].
    + rewrite lookup_insert_eq. intros [= <-]. simpl. discriminate.
    + rewrite lookup_insert_ne by done. eauto.
Qed.

(** Set-then-clear-others: writing the row of (uid, tm) and clearing the
    other rows of uid keeps the flag unique for every owner. *)
Lemma pin_latest_unique owner uid tm row P :
  at_most_one_latest owner P →
  at_most_one_latest owner
    (clear_other_latest uid (Num tm.1.1) (Num tm.1.2) (Num tm.2)
       (<[(uid, tm) := row]> P)).
Proof.
  intros Hone. destruct (decide (owner = uid)) as [->|Hne].
  - intros t1 t2 r1 r2 H1 H2 L1 L2.
    apply clear_other_latest_flagged in H1; [|done].
    apply clear_other_latest_flagged in H2; [|done]. congruence.
  - intros t1 t2 r1 r2 H1 H2 L1 L2.
    destruct (clear_other_latest_no_new _ _ _ _ _ _ _ H1 L1) as (q1 & G1 & ?).
    destruct (clear_other_latest_no_new _ _ _ _ _ _ _ H2 L2) as (q2 & G2 & ?).
    rewrite lookup_insert_ne in G1 by congruence.
    rewrite lookup_insert_ne in G2 by congruence. eauto.
Qed.

Lemma PUT_publish_latest_unique owner now d cred body :
  at_most_one_latest owner (timetable_published_terms d) →
  at_most_one_latest owner
    (timetable_published_terms (PUT_publish now d cred body).2).
Proof.
  intros Hone. unfold PUT_publish.
  destruct (auth cred) as [uid|]; [|done].
  destruct (negb _ || negb _); [done|].
  destruct (upsert_published _ _ _ _ _ _ _) as [P1|] eqn:Hup; [|done].
  simpl. destruct (p_latest body).
  - revert Hup. unfold upsert_published.
    destruct (bound_term _ _ _) as [tm|] eqn:Htm; [|discriminate].
    apply bound_term_Some in Htm as (-> & -> & ->).
    destruct (timetable_published_terms d !! (uid, tm));
      intros [= <-]; by apply pin_latest_unique.
  - eapply at_most_one_latest_no_new; [|done].
    by eapply upsert_published_unpinned.
Qed.

Lemma PUT_sync_published now d cred body :
  timetable_published_terms (PUT_sync now d cred body).1.2
  = timetable_published_terms d
  ∨ ∃ uid year semester subTerm,
      timetable_published_terms (PUT_sync now d cred body).1.2
      = (sync_publish now uid year semester subTerm (b_publishLatest body)
           (timetable_published_terms d)).1.
Proof.
  unfold PUT_sync.
  destruct (auth cred) as [uid|]; [|left; reflexivity].
  destruct (sync_entries body) as [entries|]; [|left; reflexivity].
  destruct (sync_insert _ _ _ _ _ _ _) as [E2|]; [|left; reflexivity].
  right. exists uid, (Number (b_year body)), (Number (b_semester body)),
    (default (Num 0) (coalesce (b_subTerm body) (b_sub_term body))).
  simpl. destruct (sync_publish _ _ _ _ _ _ _). reflexivity.
Qed.

Lemma sync_publish_latest_unique owner now uid year semester subTerm b P :
  at_most_one_latest owner P →
  at_most_one_latest owner
    (sync_publish now uid year semester subTerm b P).1.
Proof.
  intros Hone. unfold sync_publish. destruct b; [|done].
  unfold upsert_published_latest.
  destruct (bound_term _ _ _) as [tm|] eqn:Htm; [|done].
  apply bound_term_Some in Htm as (-> & -> & ->). simpl.
  by apply pin_latest_unique.
Qed.

Lemma apply_op_latest_unique owner d op :
  at_most_one_latest owner (timetable_published_terms d) →
  at_most_one_latest owner (timetable_published_terms (apply_op d op)).
Proof.
  intros Hone. destruct op as [now cred body|now cred body]; simpl.
  - by apply PUT_publish_latest_unique.
  - destruct (PUT_sync_published now d cred body)
      as [-> | (uid & y & s & t & ->)]; [done|].
    by apply sync_publish_latest_unique.
Qed.
End Publication.

(** C2: from a state where at most one published term of the owner is
    flagged latest, any sequence of publish and sync requests, served one
    after the other, leads to a state where at most one is. *)
Theorem latest_unique_preserved (owner : string) (ops : list publish_op)
    (d : db) :
  at_most_one_latest owner (timetable_published_terms d) →
  at_most_one_latest owner (timetable_published_terms (run_ops d ops)).
Proof.
  revert d. induction ops as [|op ops IH]; intros d Hone; [done|].
  simpl. apply IH. by apply apply_op_latest_unique.
Qed.

Lemma latest_unique_preserved_witness :
  at_most_one_latest "u"
    (timetable_published_terms
       (run_ops db_published
          [Publish 200 (Verified "u") (publish_2024 true);
           Sync 300 (Verified "u") (sync_2025 [] true);
           Publish 400 (Verified "u") (publish_2024 false)])).
Proof.
  apply (latest_unique_preserved "u").
  intros t1 t2 r1 r2 H1 H2 L1 L2. simpl in H1, H2.
  apply lookup_insert_Some in H1 as [[_ <-]|[_ H1]]; [discriminate|].
  apply lookup_insert_Some in H2 as [[_ <-]|[_ H2]]; [discriminate|].
  apply lookup_singleton_Some in H1 as [H1 _].
  apply lookup_singleton_Some in H2 as [H2 _]. congruence.
Defined.

(** ** The publication step of a sync *)

Lemma sync_answer_no_extra_field body entries :
  ¬ has_extra_field (sync_answer body entries).
Proof.
  intros (k & v & Hin & Hk). apply Hk. unfold sync_answer in Hin.
  repeat (apply elem_of_cons in Hin as [[= -> _]|Hin];
          [apply (bool_decide_unpack _); vm_compute; exact I|]).
  by apply elem_of_nil in Hin.
Qed.

(** Without a refused statement the explicit store is the store of
    [PUT_sync]. *)
Lemma PUT_sync_under_NoFault now d cred body :
  PUT_sync_under NoFault now d cred body = PUT_sync now d cred body.
Proof.
  unfold PUT_sync_under, PUT_sync.
  destruct (auth cred) as [uid|]; [|done].
  destruct (sync_entries body) as [entries|]; [|done]. simpl.
  destruct (sync_insert _ _ _ _ _ _ _) as [E2|]; [|done].
  unfold sync_publish_under, sync_publish, publish_latest_under.
  destruct (b_publishLatest body); [|done]. simpl.
  by destruct (upsert_published_latest _ _ _ _ _ _).
Qed.

(** The sync whose publication step fails after the entries were
    replaced. *)
Lemma PUT_sync_under_publish_failed fault now d cred uid body entries E2 e :
  auth cred = Ok uid →
  sync_entries body = Some entries →
  b_publishLatest body = true →
  sync_insert now uid (body_year body) (body_semester body) (body_subTerm body)
    entries
    (delete_term uid (body_year body) (body_semester body) (body_subTerm body)
       (timetable_entries d)) = Ok E2 →
  (publish_latest_under fault now uid (body_year body) (body_semester body)
     (body_subTerm body) (timetable_published_terms d)).1 = Throw e →
  PUT_sync_under fault now d cred body
  = (Ok (sync_answer body entries),
     set_published (set_entries d E2)
       (publish_latest_under fault now uid (body_year body)
          (body_semester body) (body_subTerm body)
          (timetable_published_terms d)).2,
     ["[PUT /timetables/sync] publishLatest failed (ignored):"]).
Proof.
  intros Ha He Hp Hins Hfail. unfold PUT_sync_under. rewrite Ha, He.
  fold (body_year body) (body_semester body) (body_subTerm body).
  simpl. rewrite Hins. unfold sync_publish_under. rewrite Hp. simpl.
  destruct (publish_latest_under _ _ _ _ _ _ _) as [[[]|e'] P'];
    [discriminate|reflexivity].
Qed.

(** C8, as the code has it: when the entries were replaced and a statement
    of the publication step fails, the sync still answers success with the
    four fields of every successful sync and no further one, the replaced
    entries stay, and the failure is written by [console.warn] only. *)
Theorem sync_publish_failure_is_silent (fault : store_fault) (now : Z)
    (d : db) (cred : credentials) (uid : string) (body : sync_body)
    (entries : list entry_json) (E2 : gmap entry_key entry_row) (e : exn) :
  auth cred = Ok uid →
  sync_entries body = Some entries →
  b_publishLatest body = true →
  sync_insert now uid (body_year body) (body_semester body) (body_subTerm body)
    entries
    (delete_term uid (body_year body) (body_semester body) (body_subTerm body)
       (timetable_entries d)) = Ok E2 →
  (publish_latest_under fault now uid (body_year body) (body_semester body)
     (body_subTerm body) (timetable_published_terms d)).1 = Throw e →
  ∃ d',
    PUT_sync_under fault now d cred body
    = (Ok (sync_answer body entries), d',
       ["[PUT /timetables/sync] publishLatest failed (ignored):"])
    ∧ timetable_entries d' = E2
    ∧ ¬ has_extra_field (sync_answer body entries).
Proof.
  intros Ha He Hp Hins Hfail.
  rewrite (PUT_sync_under_publish_failed _ _ _ _ _ _ _ _ _ Ha He Hp Hins Hfail).
  eexists. split; [reflexivity|]. split; [reflexivity|].
  apply sync_answer_no_extra_field.
Qed.

Lemma sync_publish_failure_is_silent_witness :
  ∃ d',
    PUT_sync_under ClearRefused 10 db_one_entry (Verified "u")
      (sync_2025 two_entries true)
    = (Ok (sync_answer (sync_2025 two_entries true) two_entries), d',
       ["[PUT /timetables/sync] publishLatest failed (ignored):"])
    ∧ timetable_entries d'
      = {[ ("u", (2025, 1, 0), (3, 2))
             := {| course_code := Some "CS101"; course_name := None;
                   instructor := None; updated_at := 10 |};
           ("u", (2025, 1, 0), (1, 4))
             := {| course_code := None; course_name := None;
                   instructor := None; updated_at := 10 |} ]}
    ∧ ¬ has_extra_field
          (sync_answer (sync_2025 two_entries true) two_entries).
Proof.
  apply (sync_publish_failure_is_silent ClearRefused 10 db_one_entry
           (Verified "u") "u" (sync_2025 two_entries true) two_entries _
           D1Error).
  - reflexivity.
  - reflexivity.
  - reflexivity.
  - vm_compute. reflexivity.
  - reflexivity.
Defined.

(** C8 as the claim states it fails: the sync of [two_entries] over the
    stored cell of [db_one_entry] replaces the entries, the UPDATE of its
    publication step is refused, and the answer has no field that tells
    so. *)
Lemma sync_publish_failure_not_in_answer :
  ¬ (∀ fault now d cred uid body answer d' warned e,
       auth cred = Ok uid →
       b_publishLatest body = true →
       PUT_sync_under fault now d cred body = (Ok answer, d', warned) →
       (publish_latest_under fault now uid (body_year body)
          (body_semester body) (body_subTerm body)
          (timetable_published_terms d)).1 = Throw e →
       has_extra_field answer).
Proof.
  intros Hclaim.
  specialize (Hclaim ClearRefused 10 db_one_entry (Verified "u") "u"
    (sync_2025 two_entries true)
    (sync_answer (sync_2025 two_entries true) two_entries)
    (PUT_sync_under ClearRefused 10 db_one_entry (Verified "u")
       (sync_2025 two_entries true)).1.2
    ["[PUT /timetables/sync] publishLatest failed (ignored):"] D1Error eq_refl eq_refl eq_refl eq_refl).
  by apply sync_answer_no_extra_field in Hclaim.
Qed.

(** ** Resolving the term of a read *)

Section Resolver.
Implicit Types (P : gmap published_key published_row) (tm : term).

Global Instance published_desc_total : Total published_desc.
Proof. intros a b. unfold published_desc. lia. Qed.

Global Instance published_desc_trans : Transitive published_desc.
Proof. intros a b c. unfold published_desc. lia. Qed.

(** [ORDER BY ... LIMIT 1]: the first row of the sorted list is a row of
    the list that comes before every other. *)
Lemma head_merge_sort {A} (R : relation A) `{!RelDecision R}
    `{!Total R} `{!Transitive R} (l : list A) (x : A) :
  head (merge_sort R l) = Some x → x ∈ l ∧ ∀ y, y ∈ l → R x y.
Proof.
  pose proof (StronglySorted_merge_sort R l) as Hs.
  pose proof (merge_sort_Permutation R l) as Hp.
  destruct (merge_sort R l) as [|z l']; [discriminate|].
  intros [= ->]. split.
  - rewrite <- Hp. apply list_elem_of_here.
  - intros y Hy. rewrite <- Hp in Hy.
    apply elem_of_cons in Hy as [->|Hy].
    + by destruct (total R x x).
    + apply StronglySorted_cons in Hs as [Hall _].
      by apply (proj1 (Forall_forall _ _) Hall).
Qed.

Lemma head_merge_sort_None {A} (R : relation A) `{!RelDecision R}
    (l : list A) :
  head (merge_sort R l) = None ↔ l = [].
Proof.
  pose proof (merge_sort_Permutation R l) as Hp. split.
  - destruct (merge_sort R l); [|discriminate].
    intros _. by apply Permutation_nil_l in Hp.
  - intros ->. reflexivity.
Qed.

Lemma elem_of_published_of owner P tm r :
  (tm, r) ∈ published_of owner P ↔ P !! (owner, tm) = Some r.
Proof.
  unfold published_of. rewrite list_elem_of_fmap. split.
  - intros ([[u tm'] r'] & [= -> ->] & Hin).
    apply elem_of_map_to_list, map_lookup_filter_Some in Hin as [Hin Hu].
    simpl in Hu. by subst.
  - intros Hin. exists (owner, tm, r). split; [done|].
    by apply elem_of_map_to_list, map_lookup_filter_Some.
Qed.

Lemma published_of_nil owner P :
  published_of owner P = [] ↔ ∀ tm, P !! (owner, tm) = None.
Proof.
  split.
  - intros Hnil tm. destruct (P !! (owner, tm)) as [r|] eqn:Hr; [|done].
    apply elem_of_published_of in Hr. rewrite Hnil in Hr.
    by apply elem_of_nil in Hr.
  - intros Hnone. destruct (published_of owner P) as [|[tm r] l] eqn:Hl; [done|].
    assert ((tm, r) ∈ published_of owner P) as Hin
      by (rewrite Hl; apply list_elem_of_here).
    apply elem_of_published_of in Hin. by rewrite Hnone in Hin.
Qed.

(** A flagged row exists: the resolver answers a flagged row, the most
    recently published of them. *)
Lemma latest_term_flagged owner P tm0 r0 :
  P !! (owner, tm0) = Some r0 → is_latest r0 = 1 →
  ∃ tm r, latest_term owner P = Some tm ∧ P !! (owner, tm) = Some r
          ∧ is_latest r = 1
          ∧ ∀ tm' r', P !! (owner, tm') = Some r' → is_latest r' = 1 →
                      published_at r' ≤ published_at r.
Proof.
  intros H0 L0. unfold latest_term.
  destruct (head (merge_sort published_desc
    (filter (λ r : published, is_latest r.2 = 1) (published_of owner P))))
    as [[tm r]|] eqn:Hh.
  - apply head_merge_sort in Hh as [Hin Htop]; [|apply _..].
    apply list_elem_of_filter in Hin as [Hl Hin].
    apply elem_of_published_of in Hin.
    exists tm, r. repeat split; [done..|].
    intros tm' r' H' L'.
    apply (Htop (tm', r')), list_elem_of_filter.
    split; [done|by apply elem_of_published_of].
  - apply head_merge_sort_None in Hh.
    assert ((tm0, r0) ∈ filter (λ r : published, is_latest r.2 = 1)
               (published_of owner P)) as Hin.
    { apply list_elem_of_filter. split; [done|by apply elem_of_published_of]. }
    rewrite Hh in Hin. by apply elem_of_nil in Hin.
Qed.

(** No row is flagged: the resolver answers the most recently published
    row, if there is one. *)
Lemma latest_term_fallback owner P tm0 r0 :
  P !! (owner, tm0) = Some r0 →
  (∀ tm' r', P !! (owner, tm') = Some r' → is_latest r' ≠ 1) →
  ∃ tm r, latest_term owner P = Some tm ∧ P !! (owner, tm) = Some r
          ∧ ∀ tm' r', P !! (owner, tm') = Some r' →
                      published_at r' ≤ published_at r.
Proof.
  intros H0 Hno. unfold latest_term.
  destruct (head (merge_sort published_desc
    (filter (λ r : published, is_latest r.2 = 1) (published_of owner P))))
    as [[tm r]|] eqn:Hh.
  - apply head_merge_sort in Hh as [Hin _]; [|apply _..].
    apply list_elem_of_filter in Hin as [Hl Hin].
    apply elem_of_published_of in Hin. by destruct (Hno tm r).
  - destruct (head (merge_sort published_desc (published_of owner P)))
      as [[tm r]|] eqn:Hh2.
    + apply head_merge_sort in Hh2 as [Hin Htop]; [|apply _..].
      apply elem_of_published_of in Hin.
      exists tm, r. repeat split; [done..|].
      intros tm' r' H'. apply (Htop (tm', r')).
      by apply elem_of_published_of.
    + apply head_merge_sort_None in Hh2.
      rewrite published_of_nil in Hh2. by rewrite Hh2 in H0.
Qed.

(** The resolver finds nothing exactly when the owner never published. *)
Lemma latest_term_None owner P :
  latest_term owner P = None ↔ ∀ tm, P !! (owner, tm) = None.
Proof.
  split.
  - unfold latest_term.
    destruct (head (merge_sort published_desc (filter _ _))); [discriminate|].
    destruct (head (merge_sort published_desc (published_of owner P)))
      eqn:Hh; [discriminate|].
    intros _. by apply published_of_nil, (head_merge_sort_None published_desc).
  - intros Hnone. apply published_of_nil in Hnone.
    unfold latest_term. by rewrite Hnone.
Qed.
End Resolver.

Section ReadLatest.
Variable JSON_valid : string → bool.

(** What an answer of the handler says about the selected term. *)
Lemma GET_timetable_selected d req resp :
  GET_timetable JSON_valid d req = Ok resp →
  r_selected resp
  = (if noTermSpecified req
     then latest_term (g_owner req) (timetable_published_terms d)
     else bound_term (g_year req) (g_semester req) (g_subTerm req))
  ∧ (r_selected resp = None →
     r_entries resp = [] ∧ r_available_terms resp = [])
  ∧ (∀ tm, r_selected resp = Some tm →
       mapM (view_entry tm.2)
         (select_term (g_owner req) (Num tm.1.1) (Num tm.1.2) (Num tm.2)
            (timetable_entries d)) = Ok (r_entries resp)).
Proof.
  unfold GET_timetable. fold (noTermSpecified req).
  destruct (parse_colors _ _) as [colors|]; [|discriminate]. rewrite bind_Ok.
  destruct (visibility_gate _ _ _ _ _) as [[]|]; [|discriminate].
  rewrite bind_Ok.
  destruct (if noTermSpecified req then _ else _) as [[[y s] t]|].
  - destruct (mapM _ _) as [entries|] eqn:Hm; [|discriminate].
    rewrite bind_Ok. intros [= <-]. simpl.
    split; [done|]. split; [discriminate|]. by intros tm [= <-].
  - intros [= <-]. simpl. split; [done|]. split; [done|]. discriminate.
Qed.

(** A read that passes the gate and resolves no term is answered. *)
Lemma GET_timetable_unresolved d req colors :
  parse_colors JSON_valid (timetable_settings d !! g_owner req) = Ok colors →
  read_gate d (g_cred req) (g_owner req) = Ok () →
  noTermSpecified req = true →
  latest_term (g_owner req) (timetable_published_terms d) = None →
  ∃ resp, GET_timetable JSON_valid d req = Ok resp.
Proof.
  unfold GET_timetable, read_gate. fold (noTermSpecified req).
  intros -> -> -> ->. rewrite !bind_Ok. eauto.
Qed.
End ReadLatest.

(** C6: a read that names no term is served the owner's published term
    flagged latest if there is one, otherwise the owner's most recently
    published term: that term is the selected term of the answer and its
    stored cells are the entries of the answer.  The resolver finds no
    term exactly when the owner has no published term, and the read is
    then answered with no entries, no available terms and no selected
    term. *)
Theorem term_resolution (JSON_valid : string → bool) (d : db)
    (req : get_request) :
  (∀ tm0 r0,
     timetable_published_terms d !! (g_owner req, tm0) = Some r0 →
     is_latest r0 = 1 →
     ∃ tm r, latest_term (g_owner req) (timetable_published_terms d) = Some tm
             ∧ timetable_published_terms d !! (g_owner req, tm) = Some r
             ∧ is_latest r = 1)
  ∧ (∀ tm0 r0,
       timetable_published_terms d !! (g_owner req, tm0) = Some r0 →
       (∀ tm' r', timetable_published_terms d !! (g_owner req, tm') = Some r' →
                  is_latest r' ≠ 1) →
       ∃ tm r, latest_term (g_owner req) (timetable_published_terms d) = Some tm
               ∧ timetable_published_terms d !! (g_owner req, tm) = Some r
               ∧ ∀ tm' r',
                   timetable_published_terms d !! (g_owner req, tm') = Some r' →
                   published_at r' ≤ published_at r)
  ∧ (latest_term (g_owner req) (timetable_published_terms d) = None
     ↔ ∀ tm, timetable_published_terms d !! (g_owner req, tm) = None)
  ∧ (noTermSpecified req = true →
     (∀ resp, GET_timetable JSON_valid d req = Ok resp →
        r_selected resp
        = latest_term (g_owner req) (timetable_published_terms d))
     ∧ (∀ resp tm, GET_timetable JSON_valid d req = Ok resp →
          latest_term (g_owner req) (timetable_published_terms d) = Some tm →
          mapM (view_entry tm.2)
            (select_term (g_owner req) (Num tm.1.1) (Num tm.1.2) (Num tm.2)
               (timetable_entries d)) = Ok (r_entries resp))
     ∧ ((∀ tm, timetable_published_terms d !! (g_owner req, tm) = None) →
        (∀ resp, GET_timetable JSON_valid d req = Ok resp →
           r_entries resp = [] ∧ r_available_terms resp = []
           ∧ r_selected resp = None)
        ∧ (∀ colors,
             parse_colors JSON_valid (timetable_settings d !! g_owner req)
             = Ok colors →
             read_gate d (g_cred req) (g_owner req) = Ok () →
             ∃ resp, GET_timetable JSON_valid d req = Ok resp))).
Proof.
  split; [|split; [|split]].
  - intros tm0 r0 H0 L0.
    destruct (latest_term_flagged _ _ _ _ H0 L0) as (tm & r & ? & ? & ? & _).
    eauto.
  - intros tm0 r0 H0 Hno. by eapply latest_term_fallback.
  - apply latest_term_None.
  - intros Hno. split; [|split].
    + intros resp [Hsel _]%GET_timetable_selected. by rewrite Hno in Hsel.
    + intros resp tm (Hsel & _ & Hrows)%GET_timetable_selected Hlatest.
      apply Hrows. by rewrite Hsel, Hno.
    + intros Hnone%latest_term_None. split.
      * intros resp (Hsel & Hempty & _)%GET_timetable_selected.
        rewrite Hno, Hnone in Hsel. destruct (Hempty Hsel). done.
      * intros colors Hp Hg. by eapply GET_timetable_unresolved.
Qed.

Lemma term_resolution_witness :
  (∃ tm r, latest_term "u" (timetable_published_terms db_published) = Some tm
           ∧ timetable_published_terms db_published !! ("u", tm) = Some r
           ∧ is_latest r = 1)
  ∧ (∃ resp, GET_timetable (λ _, true) empty_db (read_latest (Verified "u"))
             = Ok resp).
Proof.
  split.
  - apply (proj1 (term_resolution (λ _, true) db_published
                    (read_latest (Verified "u")))
             (2025, 1, 0) {| is_latest := 1; published_at := 90 |});
      reflexivity.
  - destruct (term_resolution (λ _, true) empty_db (read_latest (Verified "u")))
      as (_ & _ & _ & Hread).
    destruct (Hread eq_refl) as (_ & _ & Hnone).
    destruct Hnone as [_ Hex]; [intros tm; apply lookup_empty|].
    apply (Hex None); reflexivity.
Defined.

(** ** Replace, then fetch *)

Section Lists.
Context {A : Type} (P : A → Prop) `{!∀ x, Decision (P x)}.

Lemma filter_all (l : list A) : Forall P l → filter P l = l.
Proof.
  induction 1 as [|x l Hx _ IH]; [done|].
  by rewrite filter_cons_True, IH.
Qed.

Lemma filter_none (l : list A) : Forall (λ x, ¬ P x) l → filter P l = [].
Proof.
  induction 1 as [|x l Hx _ IH]; [done|].
  by rewrite filter_cons_False.
Qed.
End Lists.

Section Store.
Implicit Types (E : gmap entry_key entry_row) (tm : term).

(** The rows of a filtered table are the filtered rows of the table. *)
Lemma map_to_list_filter (F : entry_key * entry_row → Prop)
    `{!∀ x, Decision (F x)} E :
  map_to_list (filter F E) ≡ₚ filter F (map_to_list E).
Proof.
  apply NoDup_Permutation.
  - apply NoDup_map_to_list.
  - apply NoDup_filter, NoDup_map_to_list.
  - intros [k r]. rewrite list_elem_of_filter, !elem_of_map_to_list,
      map_lookup_filter_Some. tauto.
Qed.

(** After the DELETE the user has no row in the term. *)
Lemma delete_term_rows uid tm E :
  Forall (λ kv : entry_key * entry_row, ¬ kv.1.1 = (uid, tm))
    (map_to_list
       (delete_term uid (Num tm.1.1) (Num tm.1.2) (Num tm.2) E)).
Proof.
  destruct tm as [[y s] t]. unfold delete_term. simpl.
  apply Forall_forall. intros [k r] Hin.
  by apply elem_of_map_to_list, map_lookup_filter_Some in Hin as [_ Hk].
Qed.

Lemma run_insert_Ok now E st E' :
  run_insert now E st = Ok E' →
  ∃ k, insert_key st = Some k ∧ E !! k = None
       ∧ E' = <[k := insert_row now st]> E.
Proof.
  unfold run_insert. destruct (insert_key st) as [k|]; [|discriminate].
  destruct (E !! k) eqn:Hk; [discriminate|]. intros [= <-]. eauto.
Qed.

(** A batch that goes through adds one row per statement. *)
Lemma batch_Ok now stmts : ∀ E E2,
  batch now E stmts = Ok E2 →
  ∃ kvs : list (entry_key * entry_row),
    Forall2 (λ st kv, insert_key st = Some kv.1
                      ∧ kv.2 = insert_row now st) stmts kvs
    ∧ map_to_list E2 ≡ₚ kvs ++ map_to_list E.
Proof.
  induction stmts as [|st stmts IH]; intros E E2; simpl.
  - intros [= <-]. exists []. split; [constructor|done].
  - destruct (run_insert now E st) as [E'|] eqn:Hrun; [|discriminate].
    rewrite bind_Ok. intros Hrest.
    apply run_insert_Ok in Hrun as (k & Hk & Hfree & ->).
    destruct (IH _ _ Hrest) as (kvs & Hkvs & Hperm).
    exists ((k, insert_row now st) :: kvs). split; [by constructor|].
    rewrite Hperm, map_to_list_insert by done.
    simpl. by rewrite Permutation_middle.
Qed.

Lemma sync_insert_Ok now uid year semester subTerm entries E E2 :
  sync_insert now uid year semester subTerm entries E = Ok E2 →
  ∃ stmts,
    Forall2 (λ e st, sync_stmt uid year semester subTerm e = Ok st)
      entries stmts
    ∧ batch now E stmts = Ok E2.
Proof.
  unfold sync_insert. destruct (decide (entries = [])) as [->|_].
  - intros [= <-]. exists []. split; [constructor|done].
  - destruct (mapM _ entries) as [stmts|] eqn:Hm; [|discriminate].
    rewrite bind_Ok. intros Hb. apply mapM_Ok in Hm. eauto.
Qed.

(** What a sync that answers has done. *)
Lemma PUT_sync_Ok now d cred uid body entries answer d' warned :
  auth cred = Ok uid →
  sync_entries body = Some entries →
  PUT_sync now d cred body = (Ok answer, d', warned) →
  answer = sync_answer body entries
  ∧ timetable_settings d' = timetable_settings d
  ∧ sync_insert now uid (body_year body) (body_semester body)
      (body_subTerm body) entries
      (delete_term uid (body_year body) (body_semester body)
         (body_subTerm body) (timetable_entries d))
    = Ok (timetable_entries d').
Proof.
  intros Ha He. unfold PUT_sync. rewrite Ha, He.
  fold (body_year body) (body_semester body) (body_subTerm body). simpl.
  destruct (sync_insert _ _ _ _ _ _ _) as [E2|]; [|discriminate].
  destruct (sync_publish _ _ _ _ _ _ _) as [P3 w].
  intros [= <- <- <-]. done.
Qed.

(** One statement of a sync, for an entry of the request's term with a
    day of the week: its key and the view that a read gives of its row. *)
Lemma sync_stmt_view now uid tm e st k :
  sync_stmt uid (Num tm.1.1) (Num tm.1.2) (Num tm.2) e = Ok st →
  entry_in_term (Num tm.1.1) (Num tm.1.2) (Num tm.2) e →
  day_in_week e →
  insert_key st = Some k →
  k.1 = (uid, tm) ∧ 1 ≤ k.2.1 ≤ 5
  ∧ expected_view tm.2 e = Some (view_of tm.2 (k.2, insert_row now st)).
Proof.
  destruct tm as [[y s] t]. simpl.
  intros Hst (Hy & Hs & Ht) (d & Hd & Hrange). revert Hst Hd.
  unfold sync_stmt, expected_view, entry_day. rewrite Hy, Hs, Ht.
  destruct (dayKeyToNum (day_value e)) as [[[d'|]|]|]; try discriminate.
  rewrite !bind_Ok. simpl. intros [= <-] [= ->].
  unfold insert_key. simpl.
  destruct (Number (e_period e)) as [p|]; [|discriminate].
  intros [= <-]. simpl. done.
Qed.

Lemma sync_stmts_views now uid tm entries stmts :
  Forall2 (λ e st, sync_stmt uid (Num tm.1.1) (Num tm.1.2) (Num tm.2) e
                   = Ok st) entries stmts →
  ∀ kvs : list (entry_key * entry_row),
    Forall2 (λ st kv, insert_key st = Some kv.1
                      ∧ kv.2 = insert_row now st) stmts kvs →
    Forall (entry_in_term (Num tm.1.1) (Num tm.1.2) (Num tm.2)) entries →
    Forall day_in_week entries →
    Forall2 (λ e kv, kv.1.1 = (uid, tm) ∧ 1 ≤ kv.1.2.1 ≤ 5
                     ∧ expected_view tm.2 e
                       = Some (view_of tm.2 (kv.1.2, kv.2))) entries kvs.
Proof.
  induction 1 as [|e st entries stmts Hst _ IH]; intros kvs Hk Ht Hd.
  - inversion Hk. constructor.
  - inversion Hk as [|? [k r] ? kvs' [Hkey Hrow] Hk']; subst.
    inversion Ht; inversion Hd; subst. simpl in *. subst r.
    constructor; [|by apply IH].
    by eapply sync_stmt_view.
Qed.
End Store.

Section Fetch.
Variable JSON_valid : string → bool.

Global Instance cell_le_total : Total cell_le.
Proof. intros a b. unfold cell_le. lia. Qed.

Lemma read_gate_owner d cred owner :
  auth cred = Ok owner → read_gate d cred owner = Ok ().
Proof.
  intros Ha. unfold read_gate, visibility_gate. rewrite Ha.
  destruct (row_isPublic _); [done|].
  by destruct (decide (owner ≠ owner)).
Qed.

(** The read of a named term whose stored days are all within 1..5. *)
Lemma GET_timetable_term d uid tm cred colors :
  parse_colors JSON_valid (timetable_settings d !! uid) = Ok colors →
  read_gate d cred uid = Ok () →
  Forall (λ r : cell, 1 ≤ r.1.1 ≤ 5)
    (select_term uid (Num tm.1.1) (Num tm.1.2) (Num tm.2)
       (timetable_entries d)) →
  ∃ resp,
    GET_timetable JSON_valid d (read_term uid tm cred) = Ok resp
    ∧ r_entries resp
      = view_of tm.2
          <$> select_term uid (Num tm.1.1) (Num tm.1.2) (Num tm.2)
                (timetable_entries d)
    ∧ r_selected resp = Some tm.
Proof.
  destruct tm as [[y s] t]. simpl. intros Hp Hg Hdays.
  unfold GET_timetable, read_gate in *. simpl in *.
  rewrite Hp, bind_Ok, Hg, bind_Ok.
  rewrite (mapM_total (view_of t)).
  - rewrite bind_Ok. eexists. split; [reflexivity|]. done.
  - intros r Hr. apply (proj1 (Forall_forall _ _) Hdays) in Hr.
    unfold view_entry. by rewrite dayNumToKey_in_range.
Qed.
End Fetch.

(** C4, as the code has it: after a sync of the term (year, semester,
    subTerm) that answered, with entries that name no other term and whose
    days are days of the week, the owner's read of that term returns the
    submitted entries, each once, ordered by day and then by period. *)
Theorem replace_then_fetch (JSON_valid : string → bool) (now : Z) (d d' : db)
    (cred : credentials) (uid : string) (body : sync_body)
    (entries : list entry_json) (tm : term) (answer : json_object)
    (warned : list string) (colors : option string) :
  auth cred = Ok uid →
  sync_entries body = Some entries →
  body_year body = Num tm.1.1 →
  body_semester body = Num tm.1.2 →
  body_subTerm body = Num tm.2 →
  PUT_sync now d cred body = (Ok answer, d', warned) →
  Forall (entry_in_term (Num tm.1.1) (Num tm.1.2) (Num tm.2)) entries →
  Forall day_in_week entries →
  parse_colors JSON_valid (timetable_settings d' !! uid) = Ok colors →
  ∃ resp views,
    GET_timetable JSON_valid d' (read_term uid tm cred) = Ok resp
    ∧ Forall2 (λ e v, expected_view tm.2 e = Some v) entries views
    ∧ r_entries resp ≡ₚ views
    ∧ Sorted view_le (r_entries resp)
    ∧ r_selected resp = Some tm.
Proof.
  intros Ha He Hy Hs Ht Hsync Hterm Hdays Hcolors.
  destruct (PUT_sync_Ok _ _ _ _ _ _ _ _ _ Ha He Hsync) as (_ & _ & Hins).
  rewrite Hy, Hs, Ht in Hins.
  apply sync_insert_Ok in Hins as (stmts & Hstmts & Hbatch).
  apply batch_Ok in Hbatch as (kvs & Hkvs & Hperm).
  pose proof (sync_stmts_views now uid tm entries stmts Hstmts kvs Hkvs
                Hterm Hdays) as Hviews.
  set (proj := λ kv : entry_key * entry_row, (kv.1.2, kv.2)).
  (* the rows that the SELECT finds are the inserted ones *)
  assert (select_term uid (Num tm.1.1) (Num tm.1.2) (Num tm.2)
            (timetable_entries d') ≡ₚ proj <$> kvs) as Hsel.
  { unfold select_term. simpl. rewrite merge_sort_Permutation.
    fold proj. apply fmap_Permutation.
    rewrite map_to_list_filter, Hperm, filter_app.
    rewrite (filter_none _ (map_to_list _)).
    - rewrite app_nil_r. apply reflexive_eq, filter_all.
      destruct tm as [[y s] t].
      eapply Forall2_Forall_r; [exact Hviews|].
      apply Forall_forall. intros e _ kv (Hk & _). exact Hk.
    - destruct tm as [[y s] t].
      apply (delete_term_rows uid (y, s, t)). }
  destruct (GET_timetable_term JSON_valid d' uid tm cred colors Hcolors)
    as (resp & Hget & Hentries & Hselected).
  { by apply read_gate_owner. }
  { rewrite Hsel. apply Forall_fmap.
    eapply Forall2_Forall_r; [exact Hviews|].
    apply Forall_forall. intros e _ kv (_ & Hd & _). exact Hd. }
  exists resp, (view_of tm.2 <$> (proj <$> kvs)).
  split; [done|]. split; [|split; [|split]].
  - apply Forall2_fmap_r, Forall2_fmap_r.
    eapply Forall2_impl; [exact Hviews|].
    intros e kv (_ & _ & Hv). exact Hv.
  - rewrite Hentries. by apply fmap_Permutation.
  - rewrite Hentries. unfold select_term.
    destruct (bound_term _ _ _); [|constructor].
    eapply Sorted_fmap; [|apply (Sorted_merge_sort cell_le)].
    intros a b Hab. exact Hab.
  - done.
Qed.

Lemma replace_then_fetch_witness :
  ∃ resp views,
    GET_timetable (λ _, true)
      (PUT_sync 10 db_one_entry (Verified "u") (sync_2025 two_entries false)).1.2
      (read_term "u" (2025, 1, 0) (Verified "u")) = Ok resp
    ∧ Forall2 (λ e v, expected_view 0 e = Some v) two_entries views
    ∧ r_entries resp ≡ₚ views
    ∧ Sorted view_le (r_entries resp)
    ∧ r_selected resp = Some (2025, 1, 0).
Proof.
  apply (replace_then_fetch (λ _, true) 10 db_one_entry
           (PUT_sync 10 db_one_entry (Verified "u")
              (sync_2025 two_entries false)).1.2
           (Verified "u") "u" (sync_2025 two_entries false) two_entries
           (2025, 1, 0) (sync_answer (sync_2025 two_entries false) two_entries)
           [] None); try reflexivity.
  - repeat constructor.
  - repeat constructor.
    + exists 3. split; [reflexivity|lia].
    + exists 1. split; [reflexivity|lia].
Defined.

(** C4 as the claim states it fails: a sync of the term (2025, 1, 0) whose
    one entry names the year 2024 answers success, and the read of
    (2025, 1, 0) returns no entry. *)
Lemma replace_then_fetch_other_term :
  ¬ (∀ (JSON_valid : string → bool) now d d' cred uid body entries (tm : term)
       answer warned colors,
       auth cred = Ok uid →
       sync_entries body = Some entries →
       body_year body = Num tm.1.1 →
       body_semester body = Num tm.1.2 →
       body_subTerm body = Num tm.2 →
       PUT_sync now d cred body = (Ok answer, d', warned) →
       parse_colors JSON_valid (timetable_settings d' !! uid) = Ok colors →
       ∃ resp views,
         GET_timetable JSON_valid d' (read_term uid tm cred) = Ok resp
         ∧ Forall2 (λ e v, expected_view tm.2 e = Some v) entries views
         ∧ r_entries resp ≡ₚ views
         ∧ Sorted view_le (r_entries resp)).
Proof.
  intros Hclaim.
  destruct (Hclaim (λ _, true) 10 empty_db
              (PUT_sync 10 empty_db (Verified "u")
                 (sync_2025 [entry_2024] false)).1.2
              (Verified "u") "u" (sync_2025 [entry_2024] false) [entry_2024]
              (2025, 1, 0)
              (sync_answer (sync_2025 [entry_2024] false) [entry_2024])
              [] None eq_refl eq_refl eq_refl eq_refl eq_refl eq_refl eq_refl)
    as (resp & views & Hget & Hviews & Hperm & _).
  assert (r_entries resp = []) as Hnil.
  { vm_compute in Hget. by injection Hget as <-. }
  rewrite Hnil in Hperm. apply Permutation_nil_l in Hperm. subst views.
  inversion Hviews.
Qed.

(** * Further properties *)

(** ** Days given as strings *)

Lemma digit_of_lower c : digit_of c = None → digit_of (lower_ascii c) = None.
Proof. destruct c as [[] [] [] [] [] [] [] []]; vm_compute; congruence. Qed.

Lemma day_map_digit c rest : is_Some (digit_of c) → day_map (String c rest) = None.
Proof.
  intros Hd. unfold day_map.
  repeat case_decide; try done;
    match goal with H : String _ _ = _ |- _ => injection H as -> _ end;
    by destruct Hd.
Qed.

Lemma parseInt_digit c r d :
  digit_of c = Some d →
  parseInt (String c r)
  = match digits (Some d) r with Some v => Num v | None => NaN end.
Proof.
  destruct c as [[] [] [] [] [] [] [] []]; vm_compute digit_of;
    intros [= <-]; reflexivity.
Qed.

(** X1: a day given as a string whose lower case is [constructor] or
    [__proto__] is accepted and gives the inherited member of the map
    object, not a number; every other string is decoded to a number within
    1..5, which [dayNumToKey] encodes back, or not at all. *)
Theorem dayKeyToNum_string_in_range (s : string) :
  (toLowerCase s = "constructor" ∨ toLowerCase s = "__proto__" →
   dayKeyToNum (DayString s) = Ok (OutProto (toLowerCase s)))
  ∧ (toLowerCase s ≠ "constructor" → toLowerCase s ≠ "__proto__" →
     ∀ v, dayKeyToNum (DayString s) = Ok v →
          ∃ d, v = OutNumber (Num d) ∧ 1 ≤ d ≤ 5
               ∧ dayNumToKey d = Ok (day_keys d)).
Proof.
  unfold dayKeyToNum. split.
  - by intros [-> | ->].
  - intros Hc Hp v.
    assert (∀ d, 1 ≤ d ≤ 5 →
              ∃ d', OutNumber (Num d) = OutNumber (Num d') ∧ 1 ≤ d' ≤ 5
                    ∧ dayNumToKey d' = Ok (day_keys d')) as Hok.
    { intros d Hd. exists d. split; [done|]. split; [done|].
      by apply dayNumToKey_in_range. }
    destruct (day_map (toLowerCase s)) as [v'|] eqn:Hm.
    + revert Hm. unfold day_map.
      repeat case_decide; try done; intros [= <-] [= <-]; apply Hok; lia.
    + destruct (parseInt (toLowerCase s)) as [num|]; [|discriminate].
      destruct ((1 <=? num) && (num <=? 5)) eqn:Hr; [|discriminate].
      intros [= <-]. apply Hok. lia.
Qed.

Lemma dayKeyToNum_string_in_range_witness :
  dayKeyToNum (DayString "Constructor") = Ok (OutProto "constructor")
  ∧ ∃ d, OutNumber (Num 3) = OutNumber (Num d) ∧ 1 ≤ d ≤ 5
         ∧ dayNumToKey d = Ok (day_keys d).
Proof.
  split.
  - apply (proj1 (dayKeyToNum_string_in_range "Constructor")).
    left. reflexivity.
  - apply (proj2 (dayKeyToNum_string_in_range " 3rd")).
    + discriminate.
    + discriminate.
    + reflexivity.
Defined.

(** X2: a string that starts with a digit 1..5 followed by something that
    is not a digit is decoded to that digit: what follows is ignored. *)
Theorem dayKeyToNum_digit_prefix (d : Z) (rest : string) :
  1 ≤ d ≤ 5 →
  (∀ c r, rest = String c r → digit_of c = None) →
  dayKeyToNum (DayString (String (digit_char d) rest)) = Ok (OutNumber (Num d)).
Proof.
  intros Hd Hrest.
  assert (digits (Some d) (toLowerCase rest) = Some d) as Hdig.
  { destruct rest as [|c r]; [done|]. simpl.
    by rewrite (digit_of_lower c (Hrest c r eq_refl)). }
  assert (d = 1 ∨ d = 2 ∨ d = 3 ∨ d = 4 ∨ d = 5) as Hc by lia.
  assert (lower_ascii (digit_char d) = digit_char d
          ∧ digit_of (digit_char d) = Some d) as [Hlow Hdigit].
  { destruct Hc as [-> | [-> | [-> | [-> | ->]]]]; by vm_compute. }
  unfold dayKeyToNum. cbn [toLowerCase]. rewrite Hlow.
  rewrite day_map_digit by (rewrite Hdigit; eauto).
  rewrite (parseInt_digit _ _ d Hdigit), Hdig.
  destruct Hc as [-> | [-> | [-> | [-> | ->]]]]; reflexivity.
Qed.

Lemma dayKeyToNum_digit_prefix_witness :
  dayKeyToNum (DayString (String (digit_char 4) "th period"))
  = Ok (OutNumber (Num 4)).
Proof.
  apply (dayKeyToNum_digit_prefix 4 "th period"); [lia|].
  intros c r [= <- _]. reflexivity.
Defined.

(** ** POST /timetables and DELETE /timetables *)

Section Upsert.
Implicit Types (E : gmap entry_key entry_row)
  (kvs : list (entry_key * entry_row)).

(** Writing the rows one after the other. *)
Lemma foldl_insert_absent kvs : ∀ E k,
  k ∉ kvs.*1 →
  foldl (λ E' kv, <[kv.1 := kv.2]> E') E kvs !! k = E !! k.
Proof.
  induction kvs as [|[k' r'] kvs IH]; intros E k Hk; [done|].
  simpl in *. apply not_elem_of_cons in Hk as [Hne Hk].
  rewrite IH by done. by rewrite lookup_insert_ne.
Qed.

Lemma foldl_insert_last kvs1 kvs2 E k r :
  k ∉ kvs2.*1 →
  foldl (λ E' kv, <[kv.1 := kv.2]> E') E (kvs1 ++ (k, r) :: kvs2) !! k
  = Some r.
Proof.
  intros Hk. rewrite foldl_app. simpl.
  rewrite foldl_insert_absent by done. by rewrite lookup_insert_eq.
Qed.

Lemma batch_upsert_Ok now stmts : ∀ E E',
  batch_upsert now E stmts = Ok E' →
  ∃ kvs,
    Forall2 (λ st kv, insert_key st = Some kv.1
                      ∧ kv.2 = insert_row now st) stmts kvs
    ∧ E' = foldl (λ E' kv, <[kv.1 := kv.2]> E') E kvs.
Proof.
  induction stmts as [|st stmts IH]; intros E E'; simpl.
  - intros [= <-]. exists []. split; [constructor|done].
  - unfold run_upsert at 1.
    destruct (insert_key st) as [k|] eqn:Hk; [|discriminate].
    rewrite bind_Ok. intros (kvs & Hkvs & ->)%IH.
    exists ((k, insert_row now st) :: kvs). split; [by constructor|done].
Qed.

(** What a POST that answers has done. *)
Lemma POST_timetables_Ok now d cred uid entries answer d' :
  auth cred = Ok uid →
  POST_timetables now d cred entries = (Ok answer, d') →
  ∃ l kvs,
    entries = EntriesArray l ∧ l ≠ []
    ∧ Forall2 (upsert_cell now uid) l kvs
    ∧ d' = set_entries d
             (foldl (λ E' kv, <[kv.1 := kv.2]> E') (timetable_entries d) kvs).
Proof.
  intros Ha. unfold POST_timetables. rewrite Ha.
  destruct entries as [| |[|e l]]; try discriminate.
  destruct (mapM _ _) as [stmts|] eqn:Hm; [|discriminate].
  destruct (batch_upsert _ _ _) as [E'|] eqn:Hb; [|discriminate].
  intros [= <- <-].
  apply mapM_Ok in Hm. apply batch_upsert_Ok in Hb as (kvs & Hkvs & ->).
  exists (e :: l), kvs. split; [done|]. split; [done|]. split; [|done].
  clear -Hm Hkvs. revert kvs Hkvs.
  induction Hm as [|e' st l' stmts' Hst _ IH]; intros kvs Hkvs.
  - inversion Hkvs. constructor.
  - inversion Hkvs as [|? kv ? kvs' [Hk Hr] Hrest]; subst.
    constructor; [|by apply IH]. by exists st.
Qed.
End Upsert.

Lemma POST_timetables_Throw now d cred entries err :
  (POST_timetables now d cred entries).1 = Throw err →
  (POST_timetables now d cred entries).2 = d.
Proof.
  unfold POST_timetables.
  destruct (auth cred) as [uid|]; [|done].
  destruct entries as [| |[|e l]]; try done.
  destruct (mapM _ _) as [stmts|]; [|done].
  destruct (batch_upsert _ _ _); [discriminate|done].
Qed.

(** X3: a POST that throws writes nothing, and it throws as soon as one
    entry has a day that does not decode: its entries are all checked
    before the batch is run. *)
Theorem POST_timetables_invalid_entry_writes_nothing (now : Z) (d : db)
    (cred : credentials) (entries : entries_field) :
  (∀ err, (POST_timetables now d cred entries).1 = Throw err →
          (POST_timetables now d cred entries).2 = d)
  ∧ (∀ l e err, entries = EntriesArray l → e ∈ l →
       dayKeyToNum (day_value e) = Throw err →
       ∃ err', POST_timetables now d cred entries = (Throw err', d)).
Proof.
  split.
  - intros err. apply POST_timetables_Throw.
  - intros l e err -> Hin Hday. unfold POST_timetables.
    destruct (auth cred) as [uid|]; [|eauto].
    destruct l as [|e0 l]; [by apply elem_of_nil in Hin|].
    destruct (mapM_elem_Throw (upsert_stmt uid) (e0 :: l) e err Hin)
      as [err' ->]; [|eauto].
    unfold upsert_stmt. by rewrite Hday.
Qed.

Lemma POST_timetables_invalid_entry_writes_nothing_witness :
  ∃ err',
    POST_timetables 20 db_one_entry (Verified "u")
      (EntriesArray [full_entry 2025 1 (DayString "t") 3 (Some "PHYS2");
                     full_entry 2025 1 (DayString "x") 1 None])
    = (Throw err', db_one_entry).
Proof.
  eapply (proj2 (POST_timetables_invalid_entry_writes_nothing 20 db_one_entry
                   (Verified "u") _) _
            (full_entry 2025 1 (DayString "x") 1 None)).
  - reflexivity.
  - apply list_elem_of_further, list_elem_of_here.
  - reflexivity.
Defined.

(** X4: after a POST that answers, a cell that no entry names is as it
    was, and a cell that entries name holds the row of the last entry
    that names it, whatever it held before (the row is replaced, not
    merged); the other tables are as they were. *)
Theorem POST_timetables_upserts (now : Z) (d d' : db) (cred : credentials)
    (uid : string) (entries : entries_field) (answer : json_object) :
  auth cred = Ok uid →
  POST_timetables now d cred entries = (Ok answer, d') →
  ∃ l kvs,
    entries = EntriesArray l
    ∧ Forall2 (upsert_cell now uid) l kvs
    ∧ (∀ k, k ∉ kvs.*1 → timetable_entries d' !! k = timetable_entries d !! k)
    ∧ (∀ kvs1 k r kvs2, kvs = (kvs1 ++ (k, r) :: kvs2)%list → k ∉ kvs2.*1 →
         timetable_entries d' !! k = Some r)
    ∧ timetable_settings d' = timetable_settings d
    ∧ timetable_published_terms d' = timetable_published_terms d
    ∧ follows d' = follows d.
Proof.
  intros Ha Hpost.
  destruct (POST_timetables_Ok _ _ _ _ _ _ _ Ha Hpost)
    as (l & kvs & -> & _ & Hkvs & ->).
  exists l, kvs. split; [done|]. split; [done|]. split; [|split; [|done]].
  - intros k Hk. simpl. by apply foldl_insert_absent.
  - intros kvs1 k r kvs2 -> Hk. simpl. by apply foldl_insert_last.
Qed.

Lemma POST_timetables_upserts_witness :
  ∃ l kvs,
    post_one = EntriesArray l
    ∧ Forall2 (upsert_cell 20 "u") l kvs
    ∧ (∀ k, k ∉ kvs.*1 →
         timetable_entries
           (POST_timetables 20 db_one_entry (Verified "u") post_one).2 !! k
         = timetable_entries db_one_entry !! k)
    ∧ (∀ kvs1 k r kvs2, kvs = (kvs1 ++ (k, r) :: kvs2)%list → k ∉ kvs2.*1 →
         timetable_entries
           (POST_timetables 20 db_one_entry (Verified "u") post_one).2 !! k
         = Some r)
    ∧ timetable_settings
        (POST_timetables 20 db_one_entry (Verified "u") post_one).2
      = timetable_settings db_one_entry
    ∧ timetable_published_terms
        (POST_timetables 20 db_one_entry (Verified "u") post_one).2
      = timetable_published_terms db_one_entry
    ∧ follows (POST_timetables 20 db_one_entry (Verified "u") post_one).2
      = follows db_one_entry.
Proof.
  apply (POST_timetables_upserts 20 db_one_entry _ (Verified "u") "u" post_one
           [("success", JBool true); ("upserted", JNumber (Num 1))]);
    reflexivity.
Defined.

Section ReadBack.
Variable JSON_valid : string → bool.
Implicit Types (E : gmap entry_key entry_row).

(** The rows of a SELECT of a term are the stored cells of the term. *)
Lemma elem_of_select_term uid (tm : term) E (c : cell) :
  c ∈ select_term uid (Num tm.1.1) (Num tm.1.2) (Num tm.2) E
  ↔ E !! (uid, tm, c.1) = Some c.2.
Proof.
  destruct tm as [[y s] t], c as [cell r]. unfold select_term. simpl.
  rewrite merge_sort_Permutation, list_elem_of_fmap. split.
  - intros ([[k1 k2] r'] & [= -> ->] & Hin).
    apply elem_of_map_to_list, map_lookup_filter_Some in Hin as [Hl Hk].
    simpl in Hk. by subst.
  - intros Hl. exists (uid, (y, s, t), cell, r). split; [done|].
    by apply elem_of_map_to_list, map_lookup_filter_Some.
Qed.

(** The view of the row that a POST writes for an entry. *)
Lemma upsert_stmt_view now uid e st k t :
  upsert_stmt uid e = Ok st → insert_key st = Some k →
  expected_view t e = Some (view_of t (k.2, insert_row now st)).
Proof.
  unfold upsert_stmt, expected_view, entry_day.
  destruct (dayKeyToNum (day_value e)) as [[[dd|]|]|];
    rewrite ?bind_Ok; simpl; try discriminate;
    intros [= <-]; unfold insert_key; simpl;
    destruct (bound_term _ _ _) as [tm|]; try discriminate.
  destruct (Number (e_period e)) as [pp|]; [|discriminate].
  by intros [= <-].
Qed.

(** A read that answers shows every stored cell of the selected term. *)
Lemma GET_timetable_shows d req resp (tm : term) (c : cell) :
  GET_timetable JSON_valid d req = Ok resp →
  r_selected resp = Some tm →
  timetable_entries d !! (g_owner req, tm, c.1) = Some c.2 →
  view_of tm.2 c ∈ r_entries resp.
Proof.
  intros (_ & _ & Hrows)%GET_timetable_selected Hsel Hc.
  specialize (Hrows tm Hsel). apply mapM_Ok in Hrows.
  apply elem_of_select_term in Hc.
  apply list_elem_of_lookup in Hc as [i Hi].
  destruct (Forall2_lookup_l _ _ _ _ _ Hrows Hi) as (v & Hv & Hview).
  revert Hview. unfold view_entry.
  destruct (dayNumToKey c.1.1) as [key|] eqn:Hkey; [|discriminate].
  apply dayNumToKey_Ok in Hkey as [_ ->]. rewrite bind_Ok. intros [= <-].
  apply list_elem_of_lookup. eauto.
Qed.
End ReadBack.

(** X5: after a POST that answers and whose entries name pairwise
    different cells, every read of a term of the caller that answers shows
    each posted entry of that term. *)
Theorem POST_then_read (JSON_valid : string → bool) (now : Z) (d d' : db)
    (cred : credentials) (uid : string) (l : list entry_json)
    (answer : json_object) (e : entry_json) (tm : term) (c : Z * Z)
    (req : get_request) (resp : get_response) :
  auth cred = Ok uid →
  POST_timetables now d cred (EntriesArray l) = (Ok answer, d') →
  NoDup (entry_cell uid <$> l) →
  e ∈ l →
  entry_cell uid e = Some (uid, tm, c) →
  g_owner req = uid →
  GET_timetable JSON_valid d' req = Ok resp →
  r_selected resp = Some tm →
  ∃ v, expected_view tm.2 e = Some v ∧ v ∈ r_entries resp.
Proof.
  intros Ha Hpost Hnd Hin Hcell.
  destruct (POST_timetables_Ok _ _ _ _ _ _ _ Ha Hpost)
    as (l' & kvs & [= <-] & _ & Hkvs & ->).
  assert (∀ l2 kvs2, Forall2 (upsert_cell now uid) l2 kvs2 →
            entry_cell uid <$> l2 = Some <$> kvs2.*1) as Hcells.
  { induction 1 as [|e' kv l2 kvs2 (st & Hst & Hk & _) _ IH]; [done|].
    simpl. f_equal; [|done]. unfold entry_cell. by rewrite Hst. }
  apply list_elem_of_split in Hin as (l1 & l2 & ->).
  apply Forall2_app_inv_l in Hkvs as (kvs1 & kvs' & Hk1 & Hk2 & ->).
  inversion Hk2 as [|? [k r] ? kvs2 (st & Hst & Hk & Hr) Hk3]; subst.
  simpl in Hk, Hr. subst r.
  assert (k = (uid, tm, c)) as ->.
  { unfold entry_cell in Hcell. rewrite Hst in Hcell. congruence. }
  assert ((uid, tm, c) ∉ kvs2.*1) as Hlast.
  { intros Hk'. rewrite fmap_app, fmap_cons in Hnd.
    apply NoDup_app in Hnd as (_ & _ & Hnd).
    apply NoDup_cons in Hnd as [Hnd _]. apply Hnd.
    rewrite (Hcells _ _ Hk3), Hcell. by apply list_elem_of_fmap_2. }
  intros Hown Hget Hsel.
  exists (view_of tm.2 (c, insert_row now st)). split.
  - by apply (upsert_stmt_view now uid e st (uid, tm, c)).
  - eapply (GET_timetable_shows JSON_valid _ req resp tm
              (c, insert_row now st)); [done..|].
    rewrite Hown. simpl. by apply foldl_insert_last.
Qed.

Lemma POST_then_read_witness :
  ∃ v, expected_view 0 (full_entry 2025 1 (DayString "t") 3 (Some "PHYS2"))
       = Some v
       ∧ v ∈ [view_of 0 (2, 3, {| course_code := Some "PHYS2";
                                  course_name := None; instructor := None;
                                  updated_at := 20 |})].
Proof.
  apply (POST_then_read (λ _, true) 20 empty_db
           (POST_timetables 20 empty_db (Verified "u") post_one).2
           (Verified "u") "u"
           [full_entry 2025 1 (DayString "t") 3 (Some "PHYS2")]
           [("success", JBool true); ("upserted", JNumber (Num 1))]
           (full_entry 2025 1 (DayString "t") 3 (Some "PHYS2"))
           (2025, 1, 0) (2, 3) (read_2025 (Verified "u"))
           {| r_entries :=
                [view_of 0 (2, 3, {| course_code := Some "PHYS2";
                                     course_name := None; instructor := None;
                                     updated_at := 20 |})];
              r_settings :=
                {| s_is_public := 0; s_allow_copy := 0;
                   s_allow_followers := 0; s_custom_colors := None |};
              r_available_terms := [];
              r_selected := Some (2025, 1, 0) |}); try reflexivity.
  - apply NoDup_singleton.
  - apply list_elem_of_here.
Defined.

Lemma set_entries_same d : set_entries d (timetable_entries d) = d.
Proof. by destruct d. Qed.

(** What a DELETE leaves: the table as it was, or without one cell of the
    caller. *)
Lemma DELETE_timetables_entries d cred body :
  timetable_entries (DELETE_timetables d cred body).2 = timetable_entries d
  ∨ ∃ uid k, auth cred = Ok uid ∧ k.1.1 = uid
             ∧ timetable_entries (DELETE_timetables d cred body).2
               = delete k (timetable_entries d).
Proof.
  unfold DELETE_timetables.
  destruct (auth cred) as [uid|]; [|by left].
  destruct (dayKeyToNum (d_day body)) as [day|]; [|by left].
  destruct (bind_day day) as [dd|]; [|by left].
  simpl. unfold delete_cell.
  destruct (bound_term _ _ _) as [tm|]; [|by left].
  destruct dd as [dd|]; [|by left].
  destruct (Number (d_period body)) as [p|]; [|by left].
  right. by exists uid, (uid, tm, (dd, p)).
Qed.

(** X6: a DELETE adds and changes no row, removes at most one cell, and
    only a cell of the authenticated caller; the other tables are as they
    were. *)
Theorem DELETE_timetables_removes_at_most_one (d : db) (cred : credentials)
    (body : delete_body) :
  (∀ k r, timetable_entries (DELETE_timetables d cred body).2 !! k = Some r →
          timetable_entries d !! k = Some r)
  ∧ (∀ k1 k2,
       is_Some (timetable_entries d !! k1) →
       timetable_entries (DELETE_timetables d cred body).2 !! k1 = None →
       is_Some (timetable_entries d !! k2) →
       timetable_entries (DELETE_timetables d cred body).2 !! k2 = None →
       k1 = k2)
  ∧ (∀ k, is_Some (timetable_entries d !! k) →
          timetable_entries (DELETE_timetables d cred body).2 !! k = None →
          auth cred = Ok k.1.1)
  ∧ timetable_settings (DELETE_timetables d cred body).2 = timetable_settings d
  ∧ timetable_published_terms (DELETE_timetables d cred body).2
    = timetable_published_terms d
  ∧ follows (DELETE_timetables d cred body).2 = follows d.
Proof.
  split; [|split; [|split]].
  - intros k r.
    destruct (DELETE_timetables_entries d cred body)
      as [-> | (uid & k0 & _ & _ & ->)]; [done|].
    by intros [_ ?]%lookup_delete_Some.
  - intros k1 k2 [r1 H1] G1 [r2 H2] G2.
    destruct (DELETE_timetables_entries d cred body)
      as [Heq | (uid & k0 & _ & _ & Heq)]; rewrite Heq in G1, G2;
      [congruence|].
    apply lookup_delete_None in G1 as [G1|G1]; [|congruence].
    apply lookup_delete_None in G2 as [G2|G2]; congruence.
  - intros k [r Hk] Gk.
    destruct (DELETE_timetables_entries d cred body)
      as [Heq | (uid & k0 & Ha & Hu & Heq)]; rewrite Heq in Gk;
      [congruence|].
    apply lookup_delete_None in Gk as [Gk|Gk]; congruence.
  - unfold DELETE_timetables.
    destruct (auth cred) as [uid|]; [|done].
    destruct (dayKeyToNum (d_day body)) as [day|]; [|done].
    by destruct (bind_day day).
Qed.

Lemma DELETE_timetables_removes_at_most_one_witness :
  is_Some (timetable_entries db_one_entry !! ("u", (2025, 1, 0), (2, 3)))
  ∧ timetable_entries
      (DELETE_timetables db_one_entry (Verified "u")
         (delete_of (full_entry 2025 1 (DayString "t") 3 None))).2
      !! ("u", (2025, 1, 0), (2, 3)) = None
  ∧ auth (Verified "u") = Ok "u".
Proof.
  assert (is_Some (timetable_entries db_one_entry
                     !! ("u", (2025, 1, 0), (2, 3)))) as Hin by (by eexists).
  split; [exact Hin|]. split; [reflexivity|].
  apply (proj1 (proj2 (proj2
           (DELETE_timetables_removes_at_most_one db_one_entry (Verified "u")
              (delete_of (full_entry 2025 1 (DayString "t") 3 None)))))
           ("u", (2025, 1, 0), (2, 3)) Hin).
  reflexivity.
Defined.

(** X7: posting one entry into a free cell and then deleting the cell that
    the entry names gives back the database as it was. *)
Theorem DELETE_undoes_POST (now : Z) (d d1 : db) (cred : credentials)
    (uid : string) (e : entry_json) (k : entry_key) (answer : json_object) :
  auth cred = Ok uid →
  entry_cell uid e = Some k →
  timetable_entries d !! k = None →
  POST_timetables now d cred (EntriesArray [e]) = (Ok answer, d1) →
  DELETE_timetables d1 cred (delete_of e) = (Ok [("success", JBool true)], d).
Proof.
  intros Ha Hcell Hfree Hpost.
  destruct (POST_timetables_Ok _ _ _ _ _ _ _ Ha Hpost)
    as (l & kvs & [= <-] & _ & Hkvs & ->).
  inversion Hkvs as [|? [k' r] ? kvs' (st & Hst & Hk & Hr) Hnil]; subst.
  inversion Hnil; subst. simpl in Hk, Hr. subst r.
  assert (k' = k) as ->.
  { unfold entry_cell in Hcell. rewrite Hst in Hcell. congruence. }
  revert Hst Hk. unfold upsert_stmt, DELETE_timetables, delete_of. simpl.
  rewrite Ha.
  destruct (dayKeyToNum (day_value e)) as [day|]; [|discriminate].
  rewrite bind_Ok.
  destruct (bind_day day) as [dd|]; [|discriminate].
  rewrite bind_Ok. intros [= <-]. unfold insert_key, delete_cell. simpl.
  destruct (bound_term _ _ _) as [tm|]; [|discriminate].
  destruct dd as [dd|]; [|discriminate].
  destruct (Number (e_period e)) as [p|]; [|discriminate].
  intros [= <-]. simpl. rewrite delete_insert_eq, delete_id by done.
  apply (f_equal (pair _)). clear. destruct d. reflexivity.
Qed.

Lemma DELETE_undoes_POST_witness :
  DELETE_timetables
    (POST_timetables 20 db_one_entry (Verified "u")
       (EntriesArray [full_entry 2025 1 (DayString "F") 1 None])).2
    (Verified "u") (delete_of (full_entry 2025 1 (DayString "F") 1 None))
  = (Ok [("success", JBool true)], db_one_entry).
Proof.
  apply (DELETE_undoes_POST 20 db_one_entry _ (Verified "u") "u"
           (full_entry 2025 1 (DayString "F") 1 None)
           ("u", (2025, 1, 0), (5, 1))
           [("success", JBool true); ("upserted", JNumber (Num 1))]);
    reflexivity.
Defined.

(** ** Settings *)

Section SettingsProps.
Variable JSON_valid : string → bool.

(** The row that a settings write leaves for the caller. *)
Lemma PUT_settings_Ok now d cred uid b :
  auth cred = Ok uid → allow_followers_col d = true →
  ∃ row,
    PUT_settings now d cred b
    = (Ok [("success", JBool true)],
       set_settings d (<[uid := row]> (timetable_settings d)))
    ∧ is_public row
      = default (from_option is_public 1 (timetable_settings d !! uid))
          (flag (sb_isPublic b))
    ∧ allow_copy row
      = default (from_option allow_copy 0 (timetable_settings d !! uid))
          (flag (sb_allowCopy b))
    ∧ allow_followers row
      = default (from_option allow_followers 1 (timetable_settings d !! uid))
          (flag (sb_allowFollowers b))
    ∧ custom_colors row = stored_colors (sb_customColors b).
Proof.
  intros Ha Hcol. unfold PUT_settings. rewrite Ha, Hcol.
  destruct (timetable_settings d !! uid) as [old|]; simpl; eauto 10.
Qed.

Lemma parse_colors_Some row text :
  custom_colors row = text →
  parse_colors JSON_valid (Some row)
  = match shown_colors text with
    | None => Ok None
    | Some s => if JSON_valid s then Ok (Some s) else Throw SyntaxError
    end.
Proof.
  intros <-. unfold parse_colors, shown_colors. simpl.
  destruct (custom_colors row) as [s|]; [|done].
  by destruct (decide (s = "")).
Qed.
End SettingsProps.

(** X8: what PUT /timetables/settings wrote is what the owner's read of
    the timetable shows in its settings: a flag that the request gives, a
    flag that it does not give with the stored value, or with the default
    (public, no copy, followers allowed) when there was no row, and the
    colours of the request, none when the request has none.  The read
    fails with status 500 only, and it answers when every stored day of
    the owner is within 1..5. *)
Theorem settings_round_trip (JSON_valid : string → bool) (now : Z) (d : db)
    (cred : credentials) (uid : string) (b : settings_body)
    (req : get_request) :
  auth cred = Ok uid →
  allow_followers_col d = true →
  (∀ s, shown_colors (stored_colors (sb_customColors b)) = Some s →
        JSON_valid s = true) →
  g_owner req = uid →
  g_cred req = cred →
  (∀ resp,
     GET_timetable JSON_valid (PUT_settings now d cred b).2 req = Ok resp →
     r_settings resp = written_settings d uid b)
  ∧ (∀ e,
       GET_timetable JSON_valid (PUT_settings now d cred b).2 req = Throw e →
       ∃ msg, e = HTTPException 500 msg)
  ∧ ((∀ k r, timetable_entries d !! k = Some r → k.1.1 = uid →
             1 ≤ k.2.1 ≤ 5) →
     ∃ resp,
       GET_timetable JSON_valid (PUT_settings now d cred b).2 req = Ok resp).
Proof.
  intros Ha Hcol Hvalid Hown Hcred.
  destruct (PUT_settings_Ok now d cred uid b Ha Hcol)
    as (row & -> & Hp & Hc & Hf & Hcolors).
  unfold GET_timetable. rewrite Hown, Hcred. simpl.
  rewrite Hcol, lookup_insert_eq, (parse_colors_Some JSON_valid row _ Hcolors).
  assert ((match shown_colors (stored_colors (sb_customColors b)) with
           | Some s => if JSON_valid s then Ok (Some s) else Throw SyntaxError
           | None => Ok None
           end)
          = Ok (shown_colors (stored_colors (sb_customColors b)))) as ->.
  { destruct (shown_colors _) as [s|] eqn:Hs; [|done].
    by rewrite (Hvalid s eq_refl). }
  rewrite bind_Ok.
  assert (visibility_gate
            (set_settings d (<[uid:=row]> (timetable_settings d)))
            (row_isPublic (Some row)) (row_allowFollowers true (Some row))
            cred uid = Ok ()) as ->.
  { unfold visibility_gate. rewrite Ha.
    destruct (row_isPublic _); [done|]. by destruct (decide (uid ≠ uid)). }
  rewrite bind_Ok.
  assert ({| s_is_public := bool_to_Z (row_isPublic (Some row));
             s_allow_copy := bool_to_Z (row_allowCopy (Some row));
             s_allow_followers :=
               bool_to_Z (row_allowFollowers true (Some row));
             s_custom_colors :=
               shown_colors (stored_colors (sb_customColors b)) |}
          = written_settings d uid b) as ->.
  { unfold written_settings, row_isPublic, row_allowCopy, row_allowFollowers.
    simpl. rewrite Hp, Hc, Hf.
    destruct (timetable_settings d !! uid) as [old|];
      destruct (sb_isPublic b) as [[]|], (sb_allowCopy b) as [[]|],
        (sb_allowFollowers b) as [[]|]; done. }
  destruct (if isNaN (g_year req) || isNaN (g_semester req)
                 || isNaN (g_subTerm req) then _ else _)
    as [[[y s] t]|] eqn:Hterm.
  - split; [|split].
    + intros resp. destruct (mapM _ _); [|discriminate].
      rewrite bind_Ok. by intros [= <-].
    + intros e. destruct (mapM _ _) as [vs|e'] eqn:Hm; [discriminate|].
      rewrite bind_Throw. intros [= <-].
      by apply view_entries_Throw in Hm.
    + intros Hdays. rewrite (mapM_total (view_of t)).
      * rewrite bind_Ok. eauto.
      * intros c Hc'.
        apply (elem_of_select_term uid (y, s, t)) in Hc'.
        unfold view_entry.
        rewrite dayNumToKey_in_range; [done|].
        by apply (Hdays _ _ Hc').
  - split; [|split].
    + by intros resp [= <-].
    + intros e. discriminate.
    + eauto.
Qed.

Lemma settings_round_trip_witness :
  ∃ resp,
    GET_timetable starts_with_brace
      (PUT_settings 30 db_private (Verified "o")
         (settings_flags true true false)).2
      (read_term "o" (2025, 1, 0) (Verified "o")) = Ok resp
    ∧ r_settings resp
      = {| s_is_public := 1; s_allow_copy := 1; s_allow_followers := 0;
           s_custom_colors := None |}.
Proof.
  destruct (settings_round_trip starts_with_brace 30 db_private (Verified "o")
              "o" (settings_flags true true false)
              (read_term "o" (2025, 1, 0) (Verified "o"))
              eq_refl eq_refl)
    as (Hshown & _ & Hanswers); [intros s [=]|reflexivity|reflexivity|].
  destruct Hanswers as [resp Hresp].
  - intros k r Hk. vm_compute in Hk. discriminate.
  - exists resp. split; [exact Hresp|]. exact (Hshown resp Hresp).
Defined.

(** X9: the settings decide the gate of the reads that follow.  After the
    owner sets isPublic to true everybody passes; after the owner sets
    isPublic and allowFollowers to false only the owner passes; and a
    first settings write that does not give isPublic makes the timetable
    public, although it was private while there was no row. *)
Theorem settings_control_gate (now : Z) (d : db) (cred : credentials)
    (uid : string) (b : settings_body) :
  auth cred = Ok uid →
  allow_followers_col d = true →
  (sb_isPublic b = Some true →
     ∀ viewer, read_gate (PUT_settings now d cred b).2 viewer uid = Ok ())
  ∧ (sb_isPublic b = Some false → sb_allowFollowers b = Some false →
     ∀ viewer, read_gate (PUT_settings now d cred b).2 viewer uid = Ok ()
               ↔ auth viewer = Ok uid)
  ∧ (timetable_settings d !! uid = None → sb_isPublic b = None →
     read_gate d NoToken uid = Throw PrivateTimetable
     ∧ ∀ viewer, read_gate (PUT_settings now d cred b).2 viewer uid = Ok ()).
Proof.
  intros Ha Hcol.
  destruct (PUT_settings_Ok now d cred uid b Ha Hcol)
    as (row & -> & Hp & _ & Hf & _).
  unfold read_gate. simpl. rewrite lookup_insert_eq, Hcol.
  unfold row_isPublic, row_allowFollowers. simpl.
  split; [|split].
  - intros Hb viewer. rewrite Hb in Hp. simpl in Hp.
    unfold visibility_gate. by rewrite (bool_decide_eq_true_2 _ Hp).
  - intros Hb Hfb viewer. rewrite Hb in Hp. rewrite Hfb in Hf. simpl in Hp, Hf.
    unfold visibility_gate.
    rewrite bool_decide_eq_false_2 by (rewrite Hp; done).
    rewrite bool_decide_eq_false_2 by (rewrite Hf; done). simpl.
    destruct (auth viewer) as [v|e]; [|split; discriminate].
    destruct (decide (v ≠ uid)) as [Hne|Heq]; split; try done.
    + by intros [= ->].
    + intros _. f_equal. by destruct (decide (v = uid)).
  - intros Hrow Hb. rewrite Hrow. split; [done|].
    intros viewer. rewrite Hb, Hrow in Hp. simpl in Hp.
    unfold visibility_gate. by rewrite (bool_decide_eq_true_2 _ Hp).
Qed.

Lemma settings_control_gate_witness :
  (∀ viewer,
     read_gate (PUT_settings 30 db_private (Verified "o")
                  (settings_flags true false false)).2 viewer "o" = Ok ())
  ∧ (∀ viewer,
       read_gate (PUT_settings 30 db_private (Verified "o")
                    (settings_flags false false false)).2 viewer "o" = Ok ()
       ↔ auth viewer = Ok "o")
  ∧ (read_gate empty_db NoToken "u" = Throw PrivateTimetable
     ∧ ∀ viewer,
         read_gate (PUT_settings 30 empty_db (Verified "u")
                      (settings_colors "{}")).2 viewer "u" = Ok ()).
Proof.
  split; [|split].
  - apply (proj1 (settings_control_gate 30 db_private (Verified "o") "o"
                    (settings_flags true false false) eq_refl eq_refl)).
    reflexivity.
  - apply (proj1 (proj2 (settings_control_gate 30 db_private (Verified "o") "o"
                           (settings_flags false false false)
                           eq_refl eq_refl))); reflexivity.
  - apply (proj2 (proj2 (settings_control_gate 30 empty_db (Verified "u") "u"
                           (settings_colors "{}") eq_refl eq_refl)));
      reflexivity.
Defined.

(** X10: colours given as a string are stored as they are; when the
    string is not JSON (and not empty), every later read of the owner's
    timetable throws the error of [JSON.parse], whoever asks and whatever
    term is asked for. *)
Theorem raw_string_colors_break_reads (JSON_valid : string → bool) (now : Z)
    (d : db) (cred : credentials) (uid : string) (b : settings_body)
    (s : string) (req : get_request) :
  auth cred = Ok uid →
  allow_followers_col d = true →
  sb_customColors b = ColorsString s →
  s ≠ "" →
  JSON_valid s = false →
  g_owner req = uid →
  (PUT_settings now d cred b).1 = Ok [("success", JBool true)]
  ∧ GET_timetable JSON_valid (PUT_settings now d cred b).2 req
    = Throw SyntaxError.
Proof.
  intros Ha Hcol Hb Hs Hinvalid Hown.
  destruct (PUT_settings_Ok now d cred uid b Ha Hcol)
    as (row & -> & _ & _ & _ & Hcolors).
  rewrite Hb in Hcolors. simpl in Hcolors.
  assert (parse_colors JSON_valid (Some row) = Throw SyntaxError) as Hparse.
  { rewrite (parse_colors_Some JSON_valid row _ Hcolors). simpl.
    destruct (decide (s = "")); [done|]. by rewrite Hinvalid. }
  split; [done|]. unfold GET_timetable. simpl.
  rewrite Hown, lookup_insert_eq, Hparse. reflexivity.
Qed.

Lemma raw_string_colors_break_reads_witness :
  (PUT_settings 30 empty_db (Verified "u") (settings_colors "red")).1
  = Ok [("success", JBool true)]
  ∧ GET_timetable starts_with_brace
      (PUT_settings 30 empty_db (Verified "u") (settings_colors "red")).2
      (read_latest NoToken)
    = Throw SyntaxError.
Proof.
  apply (raw_string_colors_break_reads starts_with_brace 30 empty_db
           (Verified "u") "u" (settings_colors "red") "red"
           (read_latest NoToken));
    [reflexivity..|discriminate|reflexivity|reflexivity].
Defined.

(** ** The publication index: flags, listing, pinning *)

Section Index.
Implicit Types (P : gmap published_key published_row) (tm : term).

Global Instance latest_desc_total : Total latest_desc.
Proof. intros a b. unfold latest_desc. lia. Qed.

Global Instance latest_desc_trans : Transitive latest_desc.
Proof. intros a b c. unfold latest_desc. lia. Qed.

Lemma clear_other_latest_boolean uid year semester subTerm P :
  flags_boolean P →
  flags_boolean (clear_other_latest uid year semester subTerm P).
Proof.
  intros HP [u [[y s] t]] r'. rewrite clear_other_latest_lookup.
  destruct (P !! (u, (y, s, t))) as [r|] eqn:Hr; [|discriminate]. simpl.
  destruct (_ && _); intros [= <-]; simpl; [by left|]. by eapply HP.
Qed.

Lemma insert_boolean P k row :
  flags_boolean P → is_latest row = 0 ∨ is_latest row = 1 →
  flags_boolean (<[k := row]> P).
Proof.
  intros HP Hrow k' r'. destruct (decide (k' = k)) as [->|Hne].
  - rewrite lookup_insert_eq. by intros [= <-].
  - rewrite lookup_insert_ne by done. apply HP.
Qed.

Lemma PUT_publish_boolean now d cred body :
  flags_boolean (timetable_published_terms d) →
  flags_boolean (timetable_published_terms (PUT_publish now d cred body).2).
Proof.
  intros HP. unfold PUT_publish.
  destruct (auth cred) as [uid|]; [|done].
  destruct (negb _ || negb _); [done|].
  destruct (upsert_published _ _ _ _ _ _ _) as [P1|] eqn:Hup; [|done].
  simpl. assert (flags_boolean P1) as HP1.
  { revert Hup. unfold upsert_published.
    destruct (bound_term _ _ _) as [tm|]; [|discriminate].
    destruct (timetable_published_terms d !! (uid, tm)) as [old|] eqn:Hold;
      intros [= <-]; apply insert_boolean; try done; simpl.
    - destruct (decide _); [by right|]. by eapply HP.
    - destruct (p_latest body); [by right|by left]. }
  destruct (p_latest body); [|done]. by apply clear_other_latest_boolean.
Qed.

Lemma sync_publish_boolean now uid year semester subTerm b P :
  flags_boolean P →
  flags_boolean (sync_publish now uid year semester subTerm b P).1.
Proof.
  intros HP. unfold sync_publish. destruct b; [|done].
  unfold upsert_published_latest.
  destruct (bound_term _ _ _) as [tm|]; [|done]. simpl.
  apply clear_other_latest_boolean, insert_boolean; [done|by right].
Qed.

Lemma head_fmap {A B} (f : A → B) (l : list A) : head (f <$> l) = f <$> head l.
Proof. by destruct l. Qed.

Lemma StronglySorted_fmap_Forall {A B} (f : A → B) (R1 : relation A)
    (R2 : relation B) (Q : A → Prop) (l : list A) :
  (∀ x y, Q x → Q y → R1 x y → R2 (f x) (f y)) →
  Forall Q l → StronglySorted R1 l → StronglySorted R2 (f <$> l).
Proof.
  intros HR HQ Hs. induction Hs as [|x l Hs IH Hx]; [constructor|].
  apply Forall_cons in HQ as [Qx Ql]. simpl. constructor; [by apply IH|].
  apply Forall_fmap, Forall_forall. intros y Hy. simpl.
  apply HR; [done| |].
  - by apply (proj1 (Forall_forall _ _) Ql).
  - by apply (proj1 (Forall_forall _ _) Hx).
Qed.
End Index.

(** X11: publish and sync requests, served one after the other, keep
    every flag of the publication index at 0 or 1. *)
Theorem latest_flag_boolean_preserved (ops : list publish_op) (d : db) :
  flags_boolean (timetable_published_terms d) →
  flags_boolean (timetable_published_terms (run_ops d ops)).
Proof.
  revert d. induction ops as [|op ops IH]; intros d HP; [done|].
  simpl. apply IH. destruct op as [now cred body|now cred body]; simpl.
  - by apply PUT_publish_boolean.
  - destruct (PUT_sync_published now d cred body)
      as [-> | (uid & y & s & t & ->)]; [done|].
    by apply sync_publish_boolean.
Qed.

Lemma latest_flag_boolean_preserved_witness :
  flags_boolean
    (timetable_published_terms
       (run_ops db_published
          [Publish 200 (Verified "u") (publish_2024 true);
           Sync 300 (Verified "v") (sync_2025 [] true)])).
Proof.
  apply latest_flag_boolean_preserved.
  intros k r Hk. simpl in Hk.
  apply lookup_insert_Some in Hk as [[_ <-]|[_ Hk]]; [by left|].
  apply lookup_singleton_Some in Hk as [_ <-]. by right.
Defined.

(** X12: GET /timetables/:userId/terms lists the published terms of the
    owner and no other, each once; with flags that are 0 or 1 the list is
    ordered latest first and then most recently published first. *)
Theorem GET_terms_lists_owner_rows (d : db) (owner : string) :
  (∀ tv, tv ∈ GET_terms d owner
         ↔ ∃ tm r, timetable_published_terms d !! (owner, tm) = Some r
                   ∧ tv = view_term (tm, r))
  ∧ List.length (GET_terms d owner)
    = List.length (published_of owner (timetable_published_terms d))
  ∧ (flags_boolean (timetable_published_terms d) →
     StronglySorted term_view_desc (GET_terms d owner)).
Proof.
  unfold GET_terms. split; [|split].
  - intros tv. rewrite list_elem_of_fmap. split.
    + intros ([tm r] & -> & Hin). rewrite merge_sort_Permutation in Hin.
      apply elem_of_published_of in Hin. eauto.
    + intros (tm & r & Hr & ->). exists (tm, r). split; [done|].
      rewrite merge_sort_Permutation. by apply elem_of_published_of.
  - rewrite length_fmap. apply Permutation_length, merge_sort_Permutation.
  - intros HP.
    apply (StronglySorted_fmap_Forall view_term latest_desc term_view_desc
             (λ x, is_latest x.2 = 0 ∨ is_latest x.2 = 1)).
    + intros [tm1 r1] [tm2 r2] H1 H2. unfold latest_desc, term_view_desc.
      simpl in *. repeat case_decide; lia.
    + apply Forall_forall. intros [tm r] Hin.
      rewrite merge_sort_Permutation in Hin.
      apply elem_of_published_of in Hin. by eapply HP.
    + apply (StronglySorted_merge_sort latest_desc).
Qed.

Lemma GET_terms_lists_owner_rows_witness :
  StronglySorted term_view_desc (GET_terms db_published "u").
Proof.
  apply (GET_terms_lists_owner_rows db_published "u").
  intros k r Hk. simpl in Hk.
  apply lookup_insert_Some in Hk as [[_ <-]|[_ Hk]]; [by left|].
  apply lookup_singleton_Some in Hk as [_ <-]. by right.
Defined.

(** X13: when the flags are 0 or 1 and the owner has pinned one term, that
    term is the first of the listed terms and it is the term that a read
    without a term is served. *)
Theorem GET_terms_head_is_latest (d : db) (owner : string) (tm0 : term)
    (r0 : published_row) :
  flags_boolean (timetable_published_terms d) →
  at_most_one_latest owner (timetable_published_terms d) →
  timetable_published_terms d !! (owner, tm0) = Some r0 →
  is_latest r0 = 1 →
  head (GET_terms d owner) = Some (view_term (tm0, r0))
  ∧ latest_term owner (timetable_published_terms d) = Some tm0.
Proof.
  intros HP Hone H0 L0. split.
  - unfold GET_terms. rewrite head_fmap.
    destruct (head (merge_sort latest_desc _)) as [[tm r]|] eqn:Hh.
    + apply head_merge_sort in Hh as [Hin Htop]; [|apply _..].
      apply elem_of_published_of in Hin.
      assert (latest_desc (tm, r) (tm0, r0)) as Hle
        by (by apply Htop, elem_of_published_of).
      assert (is_latest r = 1) as L.
      { unfold latest_desc in Hle. simpl in Hle.
        destruct (HP _ _ Hin); lia. }
      assert (tm = tm0) as -> by (by eapply Hone).
      simpl. repeat f_equal. congruence.
    + apply head_merge_sort_None in Hh. rewrite published_of_nil in Hh.
      by rewrite Hh in H0.
  - destruct (latest_term_flagged _ _ _ _ H0 L0) as (tm & r & -> & Hr & L & _).
    f_equal. by eapply Hone.
Qed.

Lemma GET_terms_head_is_latest_witness :
  head (GET_terms db_published "u")
  = Some (view_term (2025, 1, 0, {| is_latest := 1; published_at := 90 |}))
  ∧ latest_term "u" (timetable_published_terms db_published) = Some (2025, 1, 0).
Proof.
  apply (GET_terms_head_is_latest db_published "u" (2025, 1, 0)
           {| is_latest := 1; published_at := 90 |}); try reflexivity.
  - intros k r Hk. simpl in Hk.
    apply lookup_insert_Some in Hk as [[_ <-]|[_ Hk]]; [by left|].
    apply lookup_singleton_Some in Hk as [_ <-]. by right.
  - intros t1 t2 r1 r2 H1 H2 L1 L2. simpl in H1, H2.
    apply lookup_insert_Some in H1 as [[_ <-]|[_ H1]]; [discriminate|].
    apply lookup_insert_Some in H2 as [[_ <-]|[_ H2]]; [discriminate|].
    apply lookup_singleton_Some in H1 as [H1 _].
    apply lookup_singleton_Some in H2 as [H2 _]. congruence.
Defined.

(** X14: a publish request with latest set that names a term leaves that
    term flagged and published now, every other term of the caller
    unflagged, the rows of other owners untouched, and the term is what a
    read of the caller's timetable without a term is served from then on. *)
Theorem publish_pins_latest (now : Z) (d : db) (cred : credentials)
    (uid : string) (body : publish_body) (tm : term) :
  auth cred = Ok uid →
  p_latest body = true →
  publish_term body = Some tm →
  (PUT_publish now d cred body).1 = Ok [("ok", JBool true)]
  ∧ timetable_published_terms (PUT_publish now d cred body).2 !! (uid, tm)
    = Some {| is_latest := 1; published_at := now |}
  ∧ (∀ tm' r', tm' ≠ tm →
       timetable_published_terms (PUT_publish now d cred body).2 !! (uid, tm')
       = Some r' → is_latest r' = 0)
  ∧ (∀ k, k.1 ≠ uid →
       timetable_published_terms (PUT_publish now d cred body).2 !! k
       = timetable_published_terms d !! k)
  ∧ latest_term uid (timetable_published_terms (PUT_publish now d cred body).2)
    = Some tm.
Proof.
  intros Ha Hl Htm. unfold publish_term in Htm.
  pose proof (bound_term_Some _ _ _ _ Htm) as (Hy & Hs & Ht).
  unfold PUT_publish. rewrite Ha, Hl, Hy, Hs, Ht. simpl.
  set (P := timetable_published_terms d).
  assert (∃ row, upsert_published uid (Num tm.1.1) (Num tm.1.2) (Num tm.2) 1
                   now P = Ok (<[(uid, tm) := row]> P)
                 ∧ row = {| is_latest := 1; published_at := now |})
    as (row & -> & Hrow).
  { unfold upsert_published. destruct tm as [[y s] t]. simpl.
    destruct (P !! (uid, (y, s, t))); eauto. }
  simpl. split; [done|].
  assert (∀ tm', clear_other_latest uid (Num tm.1.1) (Num tm.1.2) (Num tm.2)
                   (<[(uid, tm) := row]> P) !! (uid, tm')
                 = (λ r, if bool_decide (tm' ≠ tm)
                         then {| is_latest := 0;
                                 published_at := published_at r |}
                         else r) <$> <[(uid, tm) := row]> P !! (uid, tm'))
    as Hlook.
  { intros [[y' s'] t']. rewrite clear_other_latest_lookup, sql_differs_term.
    by rewrite bool_decide_eq_true_2. }
  assert (clear_other_latest uid (Num tm.1.1) (Num tm.1.2) (Num tm.2)
            (<[(uid, tm) := row]> P) !! (uid, tm) = Some row) as Hpinned.
  { rewrite Hlook, lookup_insert_eq. simpl.
    by rewrite bool_decide_eq_false_2 by (intros ?; done). }
  split; [by rewrite Hpinned, Hrow|]. split; [|split].
  - intros tm' r' Hne. rewrite Hlook, lookup_insert_ne by congruence.
    destruct (P !! (uid, tm')) as [r|]; [|discriminate]. simpl.
    rewrite bool_decide_eq_true_2 by done. by intros [= <-].
  - intros [u [[y s] t]] Hu. simpl in Hu.
    rewrite clear_other_latest_lookup.
    rewrite (bool_decide_eq_false_2 _ Hu). simpl.
    rewrite lookup_insert_ne by congruence.
    by destruct (P !! (u, (y, s, t))).
  - destruct (latest_term_flagged uid _ tm row Hpinned)
      as (tm1 & r1 & -> & Hr1 & L1 & _); [by rewrite Hrow|].
    f_equal. by eapply clear_other_latest_flagged.
Qed.

Lemma publish_pins_latest_witness :
  (PUT_publish 200 db_published (Verified "u") (publish_2024 true)).1
  = Ok [("ok", JBool true)]
  ∧ timetable_published_terms
      (PUT_publish 200 db_published (Verified "u") (publish_2024 true)).2
      !! ("u", (2024, 2, 0))
    = Some {| is_latest := 1; published_at := 200 |}
  ∧ (∀ tm' r', tm' ≠ (2024, 2, 0) →
       timetable_published_terms
         (PUT_publish 200 db_published (Verified "u") (publish_2024 true)).2
         !! ("u", tm') = Some r' → is_latest r' = 0)
  ∧ (∀ k : published_key, k.1 ≠ "u" →
       timetable_published_terms
         (PUT_publish 200 db_published (Verified "u") (publish_2024 true)).2
         !! k
       = timetable_published_terms db_published !! k)
  ∧ latest_term "u"
      (timetable_published_terms
         (PUT_publish 200 db_published (Verified "u") (publish_2024 true)).2)
    = Some (2024, 2, 0).
Proof.
  apply (publish_pins_latest 200 db_published (Verified "u") "u"
           (publish_2024 true) (2024, 2, 0)); reflexivity.
Defined.

(** X15: while an owner has one pinned term, a publish request of that
    owner without latest does not change the term that a read without a
    term is served, whichever term it publishes. *)
Theorem publish_unpinned_keeps_latest (now : Z) (d : db) (cred : credentials)
    (uid : string) (body : publish_body) (tm0 : term) (r0 : published_row) :
  auth cred = Ok uid →
  p_latest body = false →
  at_most_one_latest uid (timetable_published_terms d) →
  timetable_published_terms d !! (uid, tm0) = Some r0 →
  is_latest r0 = 1 →
  latest_term uid (timetable_published_terms (PUT_publish now d cred body).2)
  = Some tm0
  ∧ latest_term uid (timetable_published_terms d) = Some tm0.
Proof.
  intros Ha Hl Hone H0 L0.
  assert (latest_term uid (timetable_published_terms d) = Some tm0) as Hbefore.
  { destruct (latest_term_flagged _ _ _ _ H0 L0) as (tm & r & -> & Hr & L & _).
    f_equal. by eapply Hone. }
  split; [|done].
  unfold PUT_publish. rewrite Ha, Hl.
  destruct (negb _ || negb _); [done|].
  destruct (upsert_published _ _ _ _ _ _ _) as [P1|] eqn:Hup; [|done]. simpl.
  pose proof (upsert_published_unpinned _ _ _ _ _ _ _ Hup) as Hnew.
  assert (∃ r1, P1 !! (uid, tm0) = Some r1 ∧ is_latest r1 = 1)
    as (r1 & Hr1 & L1).
  { revert Hup. unfold upsert_published.
    destruct (bound_term _ _ _) as [tm|]; [|discriminate].
    destruct (decide (tm = tm0)) as [->|Hne].
    - rewrite H0. intros [= <-]. rewrite lookup_insert_eq.
      eexists. split; [done|]. simpl. by destruct (decide (0 = 1)).
    - destruct (timetable_published_terms d !! (uid, tm));
        intros [= <-]; rewrite lookup_insert_ne by congruence; eauto. }
  destruct (latest_term_flagged _ _ _ _ Hr1 L1) as (tm & r & -> & Hr & L & _).
  f_equal. destruct (Hnew _ _ Hr L) as (q & Hq & Lq). by eapply Hone.
Qed.

Lemma publish_unpinned_keeps_latest_witness :
  latest_term "u"
    (timetable_published_terms
       (PUT_publish 200 db_published (Verified "u") (publish_2024 false)).2)
  = Some (2025, 1, 0)
  ∧ latest_term "u" (timetable_published_terms db_published) = Some (2025, 1, 0).
Proof.
  apply (publish_unpinned_keeps_latest 200 db_published (Verified "u") "u"
           (publish_2024 false) (2025, 1, 0)
           {| is_latest := 1; published_at := 90 |}); try reflexivity.
  intros t1 t2 r1 r2 H1 H2 L1 L2. simpl in H1, H2.
  apply lookup_insert_Some in H1 as [[_ <-]|[_ H1]]; [discriminate|].
  apply lookup_insert_Some in H2 as [[_ <-]|[_ H2]]; [discriminate|].
  apply lookup_singleton_Some in H1 as [H1 _].
  apply lookup_singleton_Some in H2 as [H2 _]. congruence.
Defined.

(** ** What a request leaves alone *)

Section Frames.
Implicit Types (E : gmap entry_key entry_row)
  (P : gmap published_key published_row)
  (kvs : list (entry_key * entry_row)).

Lemma insert_key_user st k : insert_key st = Some k → k.1.1 = i_user st.
Proof.
  unfold insert_key. destruct (bound_term _ _ _); [|discriminate].
  destruct (i_day st); [|discriminate].
  destruct (i_period st); [|discriminate]. by intros [= <-].
Qed.

Lemma batch_Ok_foldl now stmts : ∀ E E2,
  batch now E stmts = Ok E2 →
  ∃ kvs,
    Forall2 (λ st kv, insert_key st = Some kv.1
                      ∧ kv.2 = insert_row now st) stmts kvs
    ∧ E2 = foldl (λ E' kv, <[kv.1 := kv.2]> E') E kvs.
Proof.
  induction stmts as [|st stmts IH]; intros E E2; simpl.
  - intros [= <-]. exists []. split; [constructor|done].
  - destruct (run_insert now E st) as [E'|] eqn:Hrun; [|discriminate].
    rewrite bind_Ok. intros (kvs & Hkvs & ->)%IH.
    apply run_insert_Ok in Hrun as (k & Hk & _ & ->).
    exists ((k, insert_row now st) :: kvs). split; [by constructor|done].
Qed.

(** A batch of statements of one user leaves the cells of the others. *)
Lemma batch_other_user now uid stmts E E2 k :
  Forall (λ st, i_user st = uid) stmts →
  batch now E stmts = Ok E2 →
  k.1.1 ≠ uid → E2 !! k = E !! k.
Proof.
  intros Hu (kvs & Hkvs & ->)%batch_Ok_foldl Hk.
  apply foldl_insert_absent. intros (kv & -> & Hin)%list_elem_of_fmap.
  apply list_elem_of_lookup in Hin as [i Hi].
  destruct (Forall2_lookup_r _ _ _ _ _ Hkvs Hi) as (st & Hst & Hkey & _).
  apply insert_key_user in Hkey.
  apply list_elem_of_lookup_2 in Hst.
  apply (proj1 (Forall_forall _ _) Hu) in Hst. congruence.
Qed.

Lemma delete_term_other_user uid year semester subTerm E k :
  k.1.1 ≠ uid → delete_term uid year semester subTerm E !! k = E !! k.
Proof.
  intros Hk. unfold delete_term.
  destruct (bound_term _ _ _) as [tm|]; [|done].
  destruct (E !! k) as [r|] eqn:Hr.
  - apply map_lookup_filter_Some. split; [done|]. simpl.
    intros Heq. apply Hk. by rewrite Heq.
  - apply map_lookup_filter_None. by left.
Qed.

Lemma sync_stmt_user uid year semester subTerm e st :
  sync_stmt uid year semester subTerm e = Ok st → i_user st = uid.
Proof.
  unfold sync_stmt. destruct (dayKeyToNum _) as [day|]; [|discriminate].
  rewrite bind_Ok. destruct (bind_day day); [|discriminate].
  rewrite bind_Ok. by intros [= <-].
Qed.

Lemma upsert_stmt_user uid e st : upsert_stmt uid e = Ok st → i_user st = uid.
Proof.
  unfold upsert_stmt. destruct (dayKeyToNum _) as [day|]; [|discriminate].
  rewrite bind_Ok. destruct (bind_day day); [|discriminate].
  rewrite bind_Ok. by intros [= <-].
Qed.

Lemma Forall2_Ok_user {A} (f : A → result entry_insert) uid l stmts :
  (∀ x st, f x = Ok st → i_user st = uid) →
  Forall2 (λ x st, f x = Ok st) l stmts →
  Forall (λ st, i_user st = uid) stmts.
Proof.
  intros Hf. induction 1; constructor; eauto.
Qed.

Lemma PUT_sync_other_user now d cred body k :
  auth cred ≠ Ok k.1.1 →
  timetable_entries (PUT_sync now d cred body).1.2 !! k
  = timetable_entries d !! k.
Proof.
  intros Hk. unfold PUT_sync.
  destruct (auth cred) as [uid|] eqn:Ha; [|done].
  assert (k.1.1 ≠ uid) as Hne by congruence.
  destruct (sync_entries body) as [entries|]; [|done].
  destruct (sync_insert _ _ _ _ _ _ _) as [E2|] eqn:Hins; simpl.
  - destruct (sync_publish _ _ _ _ _ _ _). simpl.
    apply sync_insert_Ok in Hins as (stmts & Hstmts & Hbatch).
    rewrite (batch_other_user _ uid _ _ _ k
               (Forall2_Ok_user _ uid _ _ (sync_stmt_user uid _ _ _) Hstmts)
               Hbatch Hne).
    by apply delete_term_other_user.
  - by apply delete_term_other_user.
Qed.

Lemma POST_timetables_other_user now d cred entries k :
  auth cred ≠ Ok k.1.1 →
  timetable_entries (POST_timetables now d cred entries).2 !! k
  = timetable_entries d !! k.
Proof.
  intros Hk.
  destruct (POST_timetables now d cred entries) as [[answer|e] d'] eqn:Hpost.
  - destruct (auth cred) as [uid|] eqn:Ha;
      [|by unfold POST_timetables in Hpost; rewrite Ha in Hpost].
    destruct (POST_timetables_Ok _ _ _ _ _ _ _ Ha Hpost)
      as (l & kvs & _ & _ & Hkvs & ->). simpl.
    apply foldl_insert_absent. intros (kv & -> & Hin)%list_elem_of_fmap.
    apply list_elem_of_lookup in Hin as [i Hi].
    destruct (Forall2_lookup_r _ _ _ _ _ Hkvs Hi)
      as (e & _ & st & Hst & Hkey & _).
    apply insert_key_user in Hkey. apply upsert_stmt_user in Hst. congruence.
  - pose proof (POST_timetables_Throw now d cred entries e) as Hsame.
    rewrite Hpost in Hsame. simpl in *. by rewrite Hsame.
Qed.

Lemma POST_copy_other_user now d cred source body k :
  auth cred ≠ Ok k.1.1 →
  timetable_entries (POST_copy now d cred source body).2 !! k
  = timetable_entries d !! k.
Proof.
  intros Hk. unfold POST_copy.
  destruct (auth cred) as [uid|] eqn:Ha; [|done].
  assert (k.1.1 ≠ uid) as Hne by congruence.
  destruct (copy_refused _); [done|].
  destruct (batch _ _ _) as [E2|] eqn:Hbatch; simpl.
  - simpl in Hbatch.
    assert (E2 !! k
            = delete_term uid (Number (c_year body)) (Number (c_semester body))
                (default (Num 0) (c_subTerm body)) (timetable_entries d) !! k)
      as ->.
    { eapply (batch_other_user now uid); [|exact Hbatch|exact Hne].
      apply Forall_fmap, Forall_forall. by intros r _. }
    by apply delete_term_other_user.
  - by apply delete_term_other_user.
Qed.
End Frames.

(** X16: a sync, a POST and a copy write only cells of the authenticated
    caller: whatever the request, answered or not, every cell of another
    user is as it was. *)
Theorem entry_writes_touch_only_caller (now : Z) (d : db) (cred : credentials)
    (k : entry_key) :
  auth cred ≠ Ok k.1.1 →
  (∀ body, timetable_entries (PUT_sync now d cred body).1.2 !! k
           = timetable_entries d !! k)
  ∧ (∀ entries, timetable_entries (POST_timetables now d cred entries).2 !! k
                = timetable_entries d !! k)
  ∧ (∀ source body,
       timetable_entries (POST_copy now d cred source body).2 !! k
       = timetable_entries d !! k).
Proof.
  intros Hk. split; [|split].
  - intros body. by apply PUT_sync_other_user.
  - intros entries. by apply POST_timetables_other_user.
  - intros source body. by apply POST_copy_other_user.
Qed.

Lemma entry_writes_touch_only_caller_witness :
  (∀ body,
     timetable_entries (PUT_sync 10 db_one_entry (Verified "v") body).1.2
       !! ("u", (2025, 1, 0), (2, 3))
     = timetable_entries db_one_entry !! ("u", (2025, 1, 0), (2, 3)))
  ∧ (∀ entries,
       timetable_entries
         (POST_timetables 10 db_one_entry (Verified "v") entries).2
         !! ("u", (2025, 1, 0), (2, 3))
       = timetable_entries db_one_entry !! ("u", (2025, 1, 0), (2, 3)))
  ∧ (∀ source body,
       timetable_entries
         (POST_copy 10 db_one_entry (Verified "v") source body).2
         !! ("u", (2025, 1, 0), (2, 3))
       = timetable_entries db_one_entry !! ("u", (2025, 1, 0), (2, 3))).
Proof.
  apply (entry_writes_touch_only_caller 10 db_one_entry (Verified "v")
           ("u", (2025, 1, 0), (2, 3))).
  discriminate.
Defined.

(** X17: the publication index is written by publishing only.  A sync
    without publishLatest, a POST, a copy and a settings write leave it as
    it was; a sync with publishLatest and a publish request leave the rows
    of every owner other than the authenticated caller as they were. *)
Theorem publication_index_frame (now : Z) (d : db) (cred : credentials) :
  (∀ body, b_publishLatest body = false →
     timetable_published_terms (PUT_sync now d cred body).1.2
     = timetable_published_terms d)
  ∧ (∀ entries, timetable_published_terms (POST_timetables now d cred entries).2
                = timetable_published_terms d)
  ∧ (∀ source body,
       timetable_published_terms (POST_copy now d cred source body).2
       = timetable_published_terms d)
  ∧ (∀ b, timetable_published_terms (PUT_settings now d cred b).2
          = timetable_published_terms d)
  ∧ (∀ k : published_key, auth cred ≠ Ok k.1 →
       (∀ body, timetable_published_terms (PUT_sync now d cred body).1.2 !! k
                = timetable_published_terms d !! k)
       ∧ (∀ body, timetable_published_terms (PUT_publish now d cred body).2 !! k
                  = timetable_published_terms d !! k)).
Proof.
  assert (∀ uid year semester subTerm P (k : published_key), k.1 ≠ uid →
            clear_other_latest uid year semester subTerm P !! k = P !! k)
    as Hclear.
  { intros uid y s t P [u [[y' s'] t']] Hu. simpl in Hu.
    rewrite clear_other_latest_lookup, (bool_decide_eq_false_2 _ Hu). simpl.
    by destruct (P !! _). }
  split; [|split; [|split; [|split]]].
  - intros body Hb. unfold PUT_sync.
    destruct (auth cred) as [uid|]; [|done].
    destruct (sync_entries body) as [entries|]; [|done].
    destruct (sync_insert _ _ _ _ _ _ _) as [E2|]; [|done].
    unfold sync_publish. by rewrite Hb.
  - intros entries. unfold POST_timetables.
    destruct (auth cred) as [uid|]; [|done].
    destruct entries as [| |[|e l]]; try done.
    destruct (mapM _ _) as [stmts|]; [|done].
    by destruct (batch_upsert _ _ _).
  - intros source body. unfold POST_copy.
    destruct (auth cred) as [uid|]; [|done].
    destruct (copy_refused _); [done|].
    by destruct (batch _ _ _).
  - intros b. unfold PUT_settings.
    destruct (auth cred) as [uid|]; [|done].
    destruct (timetable_settings d !! uid).
    + by destruct (negb _ && _).
    + by destruct (allow_followers_col d).
  - intros k Hk. split.
    + intros body.
      destruct (PUT_sync_published now d cred body) as [-> | Hsync]; [done|].
      unfold PUT_sync in *.
      destruct (auth cred) as [uid|]; [|done].
      destruct (sync_entries body) as [entries|]; [|done].
      destruct (sync_insert _ _ _ _ _ _ _) as [E2|]; [|done].
      simpl. unfold sync_publish.
      destruct (b_publishLatest body); [|done].
      unfold upsert_published_latest.
      destruct (bound_term _ _ _) as [tm|]; [|done]. simpl.
      rewrite Hclear by congruence.
      apply lookup_insert_ne. destruct k. simpl in *. congruence.
    + intros body. unfold PUT_publish.
      destruct (auth cred) as [uid|]; [|done].
      destruct (negb _ || negb _); [done|].
      destruct (upsert_published _ _ _ _ _ _ _) as [P1|] eqn:Hup; [|done].
      simpl.
      assert (P1 !! k = timetable_published_terms d !! k) as <-.
      { revert Hup. unfold upsert_published.
        destruct (bound_term _ _ _) as [tm|]; [|discriminate].
        destruct (timetable_published_terms d !! (uid, tm));
          intros [= <-]; apply lookup_insert_ne;
          destruct k; simpl in *; congruence. }
      destruct (p_latest body); [|done]. apply Hclear. congruence.
Qed.

Lemma publication_index_frame_witness :
  timetable_published_terms
    (PUT_sync 10 db_published (Verified "u") (sync_2025 two_entries false)).1.2
  = timetable_published_terms db_published
  ∧ (∀ body,
       timetable_published_terms
         (PUT_publish 10 db_published (Verified "v") body).2
         !! ("u", (2025, 1, 0))
       = timetable_published_terms db_published !! ("u", (2025, 1, 0))).
Proof.
  destruct (publication_index_frame 10 db_published (Verified "u"))
    as (Hsync & _).
  destruct (publication_index_frame 10 db_published (Verified "v"))
    as (_ & _ & _ & _ & Hother).
  split.
  - apply Hsync. reflexivity.
  - apply (Hother ("u", (2025, 1, 0))). discriminate.
Defined.

(** ** Sync as a replacement of one term *)

Section Replace.
Implicit Types (E : gmap entry_key entry_row)
  (P : gmap published_key published_row) (tm : term)
  (kvs : list (entry_key * entry_row)).

Lemma delete_term_lookup uid tm E k :
  delete_term uid (Num tm.1.1) (Num tm.1.2) (Num tm.2) E !! k
  = if decide (k.1 = (uid, tm)) then None else E !! k.
Proof.
  destruct tm as [[y s] t]. unfold delete_term. simpl.
  destruct (decide (k.1 = (uid, (y, s, t)))) as [Heq|Hne].
  - apply map_lookup_filter_None. right. intros r _. simpl. by intros [].
  - destruct (E !! k) as [r|] eqn:Hr.
    + by apply map_lookup_filter_Some.
    + apply map_lookup_filter_None. by left.
Qed.

Lemma sync_stmt_key_term uid tm e st k :
  sync_stmt uid (Num tm.1.1) (Num tm.1.2) (Num tm.2) e = Ok st →
  entry_in_term (Num tm.1.1) (Num tm.1.2) (Num tm.2) e →
  insert_key st = Some k → k.1 = (uid, tm).
Proof.
  destruct tm as [[y s] t]. simpl. intros Hst (Hy & Hs & Ht). revert Hst.
  unfold sync_stmt. rewrite Hy, Hs, Ht.
  destruct (dayKeyToNum _) as [day|]; [|discriminate]. rewrite bind_Ok.
  destruct (bind_day day) as [dd|]; [|discriminate]. rewrite bind_Ok.
  intros [= <-]. unfold insert_key. simpl.
  destruct dd; [|discriminate].
  destruct (Number (e_period e)); [|discriminate]. by intros [= <-].
Qed.

(** What a sync of entries of its own term inserts. *)
Lemma sync_insert_in_term now uid tm entries E E2 :
  Forall (entry_in_term (Num tm.1.1) (Num tm.1.2) (Num tm.2)) entries →
  sync_insert now uid (Num tm.1.1) (Num tm.1.2) (Num tm.2) entries E = Ok E2 →
  ∃ kvs, Forall (λ kv, kv.1.1 = (uid, tm)) kvs
         ∧ E2 = foldl (λ E' kv, <[kv.1 := kv.2]> E') E kvs.
Proof.
  intros Hterm (stmts & Hstmts & Hbatch)%sync_insert_Ok.
  apply batch_Ok_foldl in Hbatch as (kvs & Hkvs & ->).
  exists kvs. split; [|done].
  clear -Hterm Hstmts Hkvs. revert kvs Hkvs Hterm.
  induction Hstmts as [|e st entries stmts Hst _ IH]; intros kvs Hkvs Hterm.
  - inversion Hkvs. constructor.
  - inversion Hkvs as [|? kv ? kvs' [Hk _] Hrest]; subst.
    apply Forall_cons in Hterm as [He Hterm].
    constructor; [|by apply IH]. by eapply sync_stmt_key_term.
Qed.

Lemma foldl_insert_outside_term uid tm kvs E k :
  Forall (λ kv, kv.1.1 = (uid, tm)) kvs → k.1 ≠ (uid, tm) →
  foldl (λ E' kv, <[kv.1 := kv.2]> E') E kvs !! k = E !! k.
Proof.
  intros Hkvs Hk. apply foldl_insert_absent.
  intros (kv & -> & Hin)%list_elem_of_fmap.
  by apply (proj1 (Forall_forall _ _) Hkvs) in Hin.
Qed.

Lemma clear_other_latest_idemp uid year semester subTerm P :
  clear_other_latest uid year semester subTerm
    (clear_other_latest uid year semester subTerm P)
  = clear_other_latest uid year semester subTerm P.
Proof.
  apply map_eq. intros [u [[y s] t]].
  rewrite !clear_other_latest_lookup.
  destruct (P !! (u, (y, s, t))) as [r|]; [|done]. simpl.
  by destruct (_ && _).
Qed.
End Replace.

Lemma PUT_sync_follows now d cred body :
  follows (PUT_sync now d cred body).1.2 = follows d
  ∧ timetable_settings (PUT_sync now d cred body).1.2 = timetable_settings d.
Proof.
  unfold PUT_sync.
  destruct (auth cred) as [uid|]; [|done].
  destruct (sync_entries body) as [entries|]; [|done].
  destruct (sync_insert _ _ _ _ _ _ _) as [E2|]; [|done].
  by destruct (sync_publish _ _ _ _ _ _ _).
Qed.

(** X18: a sync that answered, of a term and with entries that name no
    other term, changes the caller's cells of that term only: every other
    cell, the settings and the follows are as they were. *)
Theorem sync_only_replaces_term (now : Z) (d d' : db) (cred : credentials)
    (uid : string) (body : sync_body) (entries : list entry_json) (tm : term)
    (answer : json_object) (warned : list string) :
  auth cred = Ok uid →
  sync_entries body = Some entries →
  body_year body = Num tm.1.1 →
  body_semester body = Num tm.1.2 →
  body_subTerm body = Num tm.2 →
  PUT_sync now d cred body = (Ok answer, d', warned) →
  Forall (entry_in_term (Num tm.1.1) (Num tm.1.2) (Num tm.2)) entries →
  (∀ k, k.1 ≠ (uid, tm) → timetable_entries d' !! k = timetable_entries d !! k)
  ∧ timetable_settings d' = timetable_settings d
  ∧ follows d' = follows d.
Proof.
  intros Ha He Hy Hs Ht Hsync Hterm.
  destruct (PUT_sync_Ok _ _ _ _ _ _ _ _ _ Ha He Hsync) as (_ & Hset & Hins).
  rewrite Hy, Hs, Ht in Hins.
  destruct (sync_insert_in_term _ _ _ _ _ _ Hterm Hins) as (kvs & Hkvs & ->).
  split; [|split; [done|]].
  - intros k Hk. rewrite (foldl_insert_outside_term uid tm) by done.
    rewrite delete_term_lookup. by destruct (decide (k.1 = (uid, tm))).
  - pose proof (proj1 (PUT_sync_follows now d cred body)) as Hf.
    by rewrite Hsync in Hf.
Qed.

Lemma sync_only_replaces_term_witness :
  (∀ k : entry_key, k.1 ≠ ("u", (2025, 1, 0)) →
     timetable_entries
       (PUT_sync 10 db_no_copy (Verified "u")
          (sync_2025 two_entries false)).1.2 !! k
     = timetable_entries db_no_copy !! k)
  ∧ timetable_settings
      (PUT_sync 10 db_no_copy (Verified "u") (sync_2025 two_entries false)).1.2
    = timetable_settings db_no_copy
  ∧ follows
      (PUT_sync 10 db_no_copy (Verified "u") (sync_2025 two_entries false)).1.2
    = follows db_no_copy.
Proof.
  apply (sync_only_replaces_term 10 db_no_copy _ (Verified "u") "u"
           (sync_2025 two_entries false) two_entries (2025, 1, 0)
           (sync_answer (sync_2025 two_entries false) two_entries) []);
    try reflexivity.
  repeat constructor.
Defined.

(** X19: a sync is idempotent.  When a sync of a term, with entries that
    name no other term, has answered, the same request served again at
    the same time gives the same answer and leaves the database as the
    first one left it. *)
Theorem sync_idempotent (now : Z) (d d' : db) (cred : credentials)
    (uid : string) (body : sync_body) (entries : list entry_json) (tm : term)
    (answer : json_object) (warned : list string) :
  auth cred = Ok uid →
  sync_entries body = Some entries →
  body_year body = Num tm.1.1 →
  body_semester body = Num tm.1.2 →
  body_subTerm body = Num tm.2 →
  PUT_sync now d cred body = (Ok answer, d', warned) →
  Forall (entry_in_term (Num tm.1.1) (Num tm.1.2) (Num tm.2)) entries →
  PUT_sync now d' cred body = (Ok answer, d', warned).
Proof.
  intros Ha He Hy Hs Ht Hsync Hterm.
  destruct (PUT_sync_Ok _ _ _ _ _ _ _ _ _ Ha He Hsync) as (_ & Hset & Hins).
  rewrite Hy, Hs, Ht in Hins.
  destruct (sync_insert_in_term _ _ _ _ _ _ Hterm Hins) as (kvs & Hkvs & HE2).
  (* deleting the term again gives the table that the first DELETE gave *)
  assert (delete_term uid (Num tm.1.1) (Num tm.1.2) (Num tm.2)
            (timetable_entries d')
          = delete_term uid (Num tm.1.1) (Num tm.1.2) (Num tm.2)
              (timetable_entries d)) as Hdel.
  { apply map_eq. intros k. rewrite !delete_term_lookup.
    destruct (decide (k.1 = (uid, tm))) as [Heq|Hne]; [done|].
    rewrite HE2, (foldl_insert_outside_term uid tm) by done.
    rewrite delete_term_lookup. by destruct (decide (k.1 = (uid, tm))). }
  revert Hsync. unfold PUT_sync. rewrite Ha, He.
  fold (body_year body) (body_semester body) (body_subTerm body).
  rewrite Hy, Hs, Ht. simpl. rewrite Hdel, Hins.
  generalize (timetable_entries d'). intros E2.
  unfold sync_publish. destruct (b_publishLatest body).
  - unfold upsert_published_latest.
    destruct tm as [[y s] t]. simpl. intros [= <- <- <-]. simpl.
    assert (∀ P row,
              <[(uid, (y, s, t)) := row]>
                (clear_other_latest uid (Num y) (Num s) (Num t)
                   (<[(uid, (y, s, t)) := row]> P))
              = clear_other_latest uid (Num y) (Num s) (Num t)
                  (<[(uid, (y, s, t)) := row]> P)) as Hpin.
    { intros P row. apply insert_id.
      rewrite clear_other_latest_lookup, lookup_insert_eq.
      unfold sql_differs. rewrite !Z.eqb_refl. simpl.
      by rewrite andb_false_r. }
    by rewrite Hpin, clear_other_latest_idemp.
  - by intros [= <- <- <-].
Qed.

Lemma sync_idempotent_witness :
  PUT_sync 10
    (PUT_sync 10 db_one_entry (Verified "u") (sync_2025 two_entries true)).1.2
    (Verified "u") (sync_2025 two_entries true)
  = (Ok (sync_answer (sync_2025 two_entries true) two_entries),
     (PUT_sync 10 db_one_entry (Verified "u") (sync_2025 two_entries true)).1.2,
     []).
Proof.
  apply (sync_idempotent 10 db_one_entry _ (Verified "u") "u"
           (sync_2025 two_entries true) two_entries (2025, 1, 0));
    try reflexivity.
  repeat constructor.
Defined.

(** ** Copy *)

Section Copy.
Implicit Types (E : gmap entry_key entry_row) (tm : term)
  (kvs : list (entry_key * entry_row)).

Lemma foldl_insert_elem kvs E k r :
  NoDup kvs.*1 → (k, r) ∈ kvs →
  foldl (λ E' kv, <[kv.1 := kv.2]> E') E kvs !! k = Some r.
Proof.
  intros Hnd (l1 & l2 & ->)%list_elem_of_split.
  apply foldl_insert_last.
  rewrite fmap_app, fmap_cons in Hnd.
  apply NoDup_app in Hnd as (_ & _ & Hnd).
  by apply NoDup_cons in Hnd as [Hnd _].
Qed.

(** A batch of inserts into free and pairwise different cells goes
    through. *)
Lemma batch_fresh now stmts : ∀ kvs E,
  Forall2 (λ st kv, insert_key st = Some kv.1
                    ∧ kv.2 = insert_row now st) stmts kvs →
  NoDup kvs.*1 →
  (∀ k, k ∈ kvs.*1 → E !! k = None) →
  batch now E stmts = Ok (foldl (λ E' kv, <[kv.1 := kv.2]> E') E kvs).
Proof.
  induction stmts as [|st stmts IH]; intros kvs E Hkvs Hnd Hfree.
  - by inversion Hkvs.
  - inversion Hkvs as [|? [k r] ? kvs' [Hk Hr] Hrest]; subst.
    rewrite fmap_cons in Hnd, Hfree. simpl in Hk, Hr, Hnd, Hfree. subst r.
    apply NoDup_cons in Hnd as [Hk' Hnd].
    cbn [batch foldl]. unfold run_insert.
    rewrite Hk, (Hfree k (list_elem_of_here _ _)), bind_Ok.
    apply IH; [done..|].
    intros k' Hin. assert (k ≠ k') as Hne by (intros ->; done).
    simpl. rewrite lookup_insert_ne by done.
    apply Hfree. by apply list_elem_of_further.
Qed.

(** The cells of a selected term are pairwise different. *)
Lemma NoDup_select_term uid year semester subTerm E :
  NoDup (select_term uid year semester subTerm E).*1.
Proof.
  unfold select_term. destruct (bound_term _ _ _) as [tm|]; [|constructor].
  rewrite merge_sort_Permutation, <- list_fmap_compose.
  change (fst ∘ _) with ((snd : entry_key → Z * Z) ∘ (fst : entry_key * entry_row → entry_key)).
  rewrite list_fmap_compose.
  apply NoDup_fmap_2_strong; [|apply NoDup_fst_map_to_list].
  intros k1 k2 (kv1 & -> & H1)%list_elem_of_fmap (kv2 & -> & H2)%list_elem_of_fmap.
  destruct kv1 as [[k1 c1] r1], kv2 as [[k2 c2] r2].
  apply elem_of_map_to_list, map_lookup_filter_Some in H1 as [_ H1].
  apply elem_of_map_to_list, map_lookup_filter_Some in H2 as [_ H2].
  simpl in *. congruence.
Qed.

(** What a copy that is allowed does to the cells. *)
Lemma POST_copy_allowed now d cred uid source body tm :
  auth cred = Ok uid →
  copy_refused (timetable_settings d !! source) = false →
  copy_term body = Some tm →
  source ≠ uid →
  ∃ kvs,
    kvs = (λ r : cell, ((uid, tm, r.1), copied_row now r.2))
            <$> select_term source (Num tm.1.1) (Num tm.1.2) (Num tm.2)
                  (timetable_entries d)
    ∧ NoDup kvs.*1
    ∧ Forall (λ kv, kv.1.1 = (uid, tm)) kvs
    ∧ POST_copy now d cred source body
      = (Ok [("success", JBool true);
             ("copied", JNumber (Num (Z.of_nat (List.length kvs))))],
         set_settings
           (set_entries d
              (foldl (λ E' kv, <[kv.1 := kv.2]> E')
                 (delete_term uid (Num tm.1.1) (Num tm.1.2) (Num tm.2)
                    (timetable_entries d)) kvs))
           (upsert_colors uid (timetable_settings d !! source ≫= custom_colors)
              now (timetable_settings d))).
Proof.
  intros Ha Hallowed Htm Hne. unfold copy_term in Htm.
  pose proof (bound_term_Some _ _ _ _ Htm) as (Hy & Hs & Ht).
  set (E1 := delete_term uid (Num tm.1.1) (Num tm.1.2) (Num tm.2)
               (timetable_entries d)).
  assert (select_term source (Num tm.1.1) (Num tm.1.2) (Num tm.2) E1
          = select_term source (Num tm.1.1) (Num tm.1.2) (Num tm.2)
              (timetable_entries d)) as Hsel.
  { unfold select_term. destruct tm as [[y s] t]. simpl. do 3 f_equal.
    apply map_filter_strong_ext. intros [k c] r. simpl.
    unfold E1. rewrite (delete_term_lookup uid (y, s, t)). simpl.
    destruct (decide (k = (uid, (y, s, t)))) as [->|_]; [|done].
    split; intros [[= ?] _]; done. }
  eexists. split; [reflexivity|].
  set (rows := select_term source (Num tm.1.1) (Num tm.1.2) (Num tm.2)
                 (timetable_entries d)) in *.
  assert (NoDup ((λ r : cell, ((uid, tm, r.1), copied_row now r.2)) <$> rows).*1)
    as Hnd.
  { rewrite <- list_fmap_compose.
    change (fst ∘ _) with ((λ c : Z * Z, (uid, tm, c))
                            ∘ (fst : cell → Z * Z)).
    rewrite list_fmap_compose. apply NoDup_fmap_2; [|apply NoDup_select_term].
    by intros c1 c2 [= ->]. }
  split; [done|]. split.
  { apply Forall_fmap, Forall_forall. by intros r _. }
  unfold POST_copy. rewrite Ha, Hallowed, Hy, Hs, Ht. simpl.
  fold E1. rewrite Hsel. fold rows.
  rewrite (batch_fresh now _
             ((λ r : cell, ((uid, tm, r.1), copied_row now r.2)) <$> rows) E1).
  - simpl. by rewrite !length_fmap.
  - apply Forall2_fmap, Forall_Forall2_diag, Forall_forall.
    intros [[dd p] r] _. destruct tm as [[y s] t]. by simpl.
  - done.
  - intros k (kv & -> & (r & -> & _)%list_elem_of_fmap)%list_elem_of_fmap.
    simpl. unfold E1. rewrite delete_term_lookup. simpl.
    by destruct (decide _).
Qed.
End Copy.

(** X20: a copy that is allowed, from another user, of a term: the
    caller's cells of the term become the source's cells of the term, with
    the same texts and written now; every other cell is as it was; the
    answer counts the copied cells; and the caller's settings take the
    source's colours. *)
Theorem copy_copies_cells (now : Z) (d : db) (cred : credentials)
    (uid source : string) (body : copy_body) (tm : term) :
  auth cred = Ok uid →
  copy_refused (timetable_settings d !! source) = false →
  copy_term body = Some tm →
  source ≠ uid →
  ∃ n d',
    POST_copy now d cred source body
    = (Ok [("success", JBool true); ("copied", JNumber (Num (Z.of_nat n)))], d')
    ∧ n = List.length
            (select_term source (Num tm.1.1) (Num tm.1.2) (Num tm.2)
               (timetable_entries d))
    ∧ (∀ c, timetable_entries d' !! (uid, tm, c)
            = copied_row now <$> timetable_entries d !! (source, tm, c))
    ∧ (∀ k, k.1 ≠ (uid, tm) →
            timetable_entries d' !! k = timetable_entries d !! k)
    ∧ (∃ row, timetable_settings d' !! uid = Some row
              ∧ custom_colors row
                = timetable_settings d !! source ≫= custom_colors).
Proof.
  intros Ha Hallowed Htm Hne.
  destruct (POST_copy_allowed now d cred uid source body tm Ha Hallowed Htm Hne)
    as (kvs & Hkvs & Hnd & Hterm & ->).
  eexists _, _. split; [reflexivity|]. simpl.
  split; [by rewrite Hkvs, length_fmap|]. split; [|split].
  - intros c.
    destruct (timetable_entries d !! (source, tm, c)) as [r|] eqn:Hr; simpl.
    + apply foldl_insert_elem; [done|]. rewrite Hkvs.
      apply list_elem_of_fmap. exists (c, r). split; [done|].
      by apply elem_of_select_term.
    + rewrite foldl_insert_absent.
      * rewrite delete_term_lookup. simpl. by destruct (decide _).
      * rewrite Hkvs.
        intros (kv & Hk & (r & -> & Hin)%list_elem_of_fmap)%list_elem_of_fmap.
        simpl in Hk. injection Hk as Hc.
        apply elem_of_select_term in Hin. rewrite <- Hc in Hin. congruence.
  - intros k Hk. rewrite (foldl_insert_outside_term uid tm) by done.
    rewrite delete_term_lookup. by destruct (decide _).
  - unfold upsert_colors.
    destruct (timetable_settings d !! uid) as [old|];
      rewrite lookup_insert_eq; eauto.
Qed.

Lemma copy_copies_cells_witness :
  ∃ n d',
    POST_copy 50 db_copyable (Verified "u") "p" copy_2025
    = (Ok [("success", JBool true); ("copied", JNumber (Num (Z.of_nat n)))], d')
    ∧ n = List.length
            (select_term "p" (Num 2025) (Num 1) (Num 0)
               (timetable_entries db_copyable))
    ∧ (∀ c, timetable_entries d' !! ("u", (2025, 1, 0), c)
            = copied_row 50
                <$> timetable_entries db_copyable !! ("p", (2025, 1, 0), c))
    ∧ (∀ k : entry_key, k.1 ≠ ("u", (2025, 1, 0)) →
            timetable_entries d' !! k = timetable_entries db_copyable !! k)
    ∧ (∃ row, timetable_settings d' !! "u" = Some row
              ∧ custom_colors row
                = timetable_settings db_copyable !! "p" ≫= custom_colors).
Proof.
  apply (copy_copies_cells 50 db_copyable (Verified "u") "u" "p" copy_2025
           (2025, 1, 0)); [reflexivity..|discriminate].
Defined.

(** X21: a copy from oneself, when one's own settings allow copies,
    erases the caller's cells of the term and copies nothing: the source
    is read after the caller's cells were deleted. *)
Theorem copy_from_self_clears (now : Z) (d : db) (cred : credentials)
    (uid : string) (body : copy_body) (tm : term) :
  auth cred = Ok uid →
  copy_refused (timetable_settings d !! uid) = false →
  copy_term body = Some tm →
  ∃ d',
    POST_copy now d cred uid body
    = (Ok [("success", JBool true); ("copied", JNumber (Num 0))], d')
    ∧ (∀ c, timetable_entries d' !! (uid, tm, c) = None)
    ∧ (∀ k, k.1 ≠ (uid, tm) →
            timetable_entries d' !! k = timetable_entries d !! k).
Proof.
  intros Ha Hallowed Htm. unfold copy_term in Htm.
  pose proof (bound_term_Some _ _ _ _ Htm) as (Hy & Hs & Ht).
  set (E1 := delete_term uid (Num tm.1.1) (Num tm.1.2) (Num tm.2)
               (timetable_entries d)).
  assert (select_term uid (Num tm.1.1) (Num tm.1.2) (Num tm.2) E1 = [])
    as Hsel.
  { destruct (select_term uid _ _ _ E1) as [|c rows] eqn:Hrows; [done|].
    assert (c ∈ select_term uid (Num tm.1.1) (Num tm.1.2) (Num tm.2) E1)
      as Hin by (rewrite Hrows; apply list_elem_of_here).
    apply elem_of_select_term in Hin. unfold E1 in Hin.
    rewrite delete_term_lookup in Hin. simpl in Hin.
    by destruct (decide _). }
  unfold POST_copy. rewrite Ha, Hallowed, Hy, Hs, Ht. simpl.
  fold E1. rewrite Hsel. simpl.
  eexists. split; [reflexivity|]. simpl. split.
  - intros c. unfold E1. rewrite delete_term_lookup. simpl.
    by destruct (decide _).
  - intros k Hk. unfold E1. rewrite delete_term_lookup.
    by destruct (decide _).
Qed.

Lemma copy_from_self_clears_witness :
  ∃ d',
    POST_copy 50 db_copyable (Verified "p") "p" copy_2025
    = (Ok [("success", JBool true); ("copied", JNumber (Num 0))], d')
    ∧ (∀ c, timetable_entries d' !! ("p", (2025, 1, 0), c) = None)
    ∧ (∀ k : entry_key, k.1 ≠ ("p", (2025, 1, 0)) →
            timetable_entries d' !! k = timetable_entries db_copyable !! k).
Proof.
  apply (copy_from_self_clears 50 db_copyable (Verified "p") "p" copy_2025
           (2025, 1, 0)); reflexivity.
Defined.

(** ** Reading *)

(** X22: one stored cell with a day outside 1..5 makes the term
    unreadable: every read that passes the gate and resolves to that term
    throws with status 500. *)
Theorem GET_bad_day_poisons_term (JSON_valid : string → bool) (d : db)
    (req : get_request) (colors : option string) (tm : term) (c : Z * Z)
    (r : entry_row) :
  parse_colors JSON_valid (timetable_settings d !! g_owner req) = Ok colors →
  read_gate d (g_cred req) (g_owner req) = Ok () →
  resolved_term d req = Some tm →
  timetable_entries d !! (g_owner req, tm, c) = Some r →
  c.1 < 1 ∨ 5 < c.1 →
  ∃ msg, GET_timetable JSON_valid d req = Throw (HTTPException 500 msg).
Proof.
  intros Hp Hg Htm Hc Hday.
  unfold GET_timetable, read_gate, resolved_term in *.
  fold (noTermSpecified req). rewrite Hp, bind_Ok, Hg, bind_Ok, Htm.
  destruct tm as [[y s] t].
  assert ((c, r) ∈ select_term (g_owner req) (Num y) (Num s) (Num t)
                     (timetable_entries d)) as Hin
    by (by apply (elem_of_select_term _ (y, s, t) _ (c, r))).
  destruct (mapM_elem_Throw (view_entry t) _ (c, r)
              (HTTPException 500 ("bad day num: " +:+ pretty c.1)) Hin)
    as [e' He'].
  { unfold view_entry. simpl. by rewrite (dayNumToKey_out_of_range c.1 Hday). }
  rewrite He'. apply view_entries_Throw in He' as [msg ->]. eauto.
Qed.

Lemma GET_bad_day_poisons_term_witness :
  ∃ msg, GET_timetable (λ _, true) db_day_6 (read_2025 (Verified "u"))
         = Throw (HTTPException 500 msg).
Proof.
  apply (GET_bad_day_poisons_term (λ _, true) db_day_6
           (read_2025 (Verified "u")) None (2025, 1, 0) (6, 1) old_row);
    try reflexivity.
  right. simpl. lia.
Defined.

(** ** The schema middleware *)

(** X23: on a settings table without the allow_followers column the read
    denies every follower of a private owner; after the middleware has
    added the column, with its default 1, the same follower passes.  The
    middleware leaves a table that has the column as it is. *)
Theorem ensureTimetableSchema_opens_followers (d : db) (cred : credentials)
    (v owner : string) (row : settings_row) :
  allow_followers_col d = false →
  timetable_settings d !! owner = Some row →
  is_public row ≠ 1 →
  auth cred = Ok v →
  v ≠ owner →
  isFollower d v owner = true →
  read_gate d cred owner = Throw PrivateTimetable
  ∧ read_gate (ensureTimetableSchema d) cred owner = Ok ()
  ∧ ensureTimetableSchema (ensureTimetableSchema d) = ensureTimetableSchema d.
Proof.
  intros Hcol Hrow Hpriv Ha Hne Hf. split; [|split].
  - unfold read_gate, visibility_gate. rewrite Hrow, Hcol, Ha. simpl.
    rewrite (bool_decide_eq_false_2 _ Hpriv).
    by destruct (decide (v ≠ owner)).
  - unfold read_gate, visibility_gate, ensureTimetableSchema. rewrite Hcol.
    simpl. rewrite lookup_fmap, Hrow, Ha. simpl.
    rewrite (bool_decide_eq_false_2 _ Hpriv).
    destruct (decide (v ≠ owner)); [|done].
    rewrite ?bool_decide_eq_true_2 by done. simpl.
    unfold isFollower in *. simpl. by rewrite Hf.
  - unfold ensureTimetableSchema. by rewrite Hcol.
Qed.

Lemma ensureTimetableSchema_opens_followers_witness :
  read_gate db_legacy (Verified "f") "o" = Throw PrivateTimetable
  ∧ read_gate (ensureTimetableSchema db_legacy) (Verified "f") "o" = Ok ()
  ∧ ensureTimetableSchema (ensureTimetableSchema db_legacy)
    = ensureTimetableSchema db_legacy.
Proof.
  apply (ensureTimetableSchema_opens_followers db_legacy (Verified "f") "f" "o"
           {| is_public := 0; allow_copy := 0; allow_followers := 0;
              custom_colors := None; settings_updated_at := None |});
    try reflexivity; discriminate.
Defined.

(** ** Following and the gate *)

(** X24: for a private owner who lets followers read, a viewer who is not
    the owner is let in by the reads that come after the viewer's follow
    request and denied by those that come after the viewer's unfollow
    request. *)
Theorem follow_then_unfollow (d : db) (v owner : string) :
  v ≠ "" → owner ≠ "" → v ≠ owner →
  row_isPublic (timetable_settings d !! owner) = false →
  row_allowFollowers (allow_followers_col d) (timetable_settings d !! owner)
  = true →
  read_gate (POST_follow d (Verified v) owner).2 (Verified v) owner = Ok ()
  ∧ read_gate
      (DELETE_follow (POST_follow d (Verified v) owner).2 (Verified v) owner).2
      (Verified v) owner
    = Throw PrivateTimetable.
Proof.
  intros Hv Ho Hne Hpriv Hallow.
  unfold POST_follow, DELETE_follow, requireAuth.
  destruct (decide (v = "")) as [|_]; [done|].
  destruct (decide (owner = "" ∨ v = owner)) as [[|]|_]; [done..|].
  simpl. unfold read_gate, visibility_gate. simpl.
  rewrite Hpriv, Hallow. simpl.
  destruct (decide (v = "")) as [|_]; [done|].
  destruct (decide (v ≠ owner)); [|done].
  unfold isFollower. simpl.
  destruct (decide (v = "" ∨ owner = "")) as [[|]|_]; [done..|].
  split.
  - rewrite lookup_insert_eq. reflexivity.
  - rewrite lookup_alter_eq, lookup_insert_eq. reflexivity.
Qed.

Lemma follow_then_unfollow_witness :
  read_gate (POST_follow db_private (Verified "s") "o").2 (Verified "s") "o"
  = Ok ()
  ∧ read_gate
      (DELETE_follow (POST_follow db_private (Verified "s") "o").2
         (Verified "s") "o").2
      (Verified "s") "o"
    = Throw PrivateTimetable.
Proof.
  apply (follow_then_unfollow db_private "s" "o");
    try reflexivity; discriminate.
Defined.

(** ** Resolving a user *)

Lemma find_ext {A} (f g : A → bool) (l : list A) :
  (∀ x, x ∈ l → f x = g x) → List.find f l = List.find g l.
Proof.
  induction l as [|x l IH]; intros Hfg; [done|]. simpl.
  rewrite (Hfg x) by apply list_elem_of_here.
  destruct (g x); [done|]. apply IH. intros y Hy.
  apply Hfg. by apply list_elem_of_further.
Qed.

(** X25: a user is found by id or by handle, the handle with or without a
    leading at sign and in any case: a parameter that no user matches
    resolves to itself without the at sign, and two spellings of a handle
    that some user has, and that are the id of no user, resolve to the
    same id. *)
Theorem resolveUid_handle (us : users) :
  (∀ q, q ≠ "" → strip_at q = q →
        resolveUid us (String "@" q) = resolveUid us q)
  ∧ (∀ p, p ≠ "" → (∀ row, row ∈ us → user_matches (strip_at p) row = false) →
          resolveUid us p = strip_at p)
  ∧ (∀ q1 q2, q1 ≠ "" → q2 ≠ "" → strip_at q1 = q1 → strip_at q2 = q2 →
       toLowerCase q1 = toLowerCase q2 →
       (∀ row, row ∈ us → row.1 ≠ q1 ∧ row.1 ≠ q2) →
       (∃ row h, row ∈ us ∧ row.2 = Some h ∧ toLowerCase h = toLowerCase q1) →
       resolveUid us q1 = resolveUid us q2
       ∧ ∃ row, row ∈ us ∧ resolveUid us q1 = row.1).
Proof.
  split; [|split].
  - intros q Hq Hstrip. unfold resolveUid.
    destruct (decide (String "@" q = "")) as [|_]; [done|].
    destruct (decide (q = "")) as [|_]; [done|].
    simpl. by rewrite Hstrip.
  - intros p Hp Hnone. unfold resolveUid.
    destruct (decide (p = "")) as [|_]; [done|].
    destruct (List.find _ us) as [row|] eqn:Hfind; [|done].
    apply List.find_some in Hfind as [Hin Hm].
    apply list_elem_of_In in Hin. by rewrite (Hnone row Hin) in Hm.
  - intros q1 q2 H1 H2 S1 S2 Hlow Hids (row & h & Hin & Hh & Hm).
    unfold resolveUid.
    destruct (decide (q1 = "")) as [|_]; [done|].
    destruct (decide (q2 = "")) as [|_]; [done|].
    rewrite S1, S2.
    rewrite (find_ext (user_matches q1) (user_matches q2)).
    + destruct (List.find (user_matches q2) us) as [found|] eqn:Hfind.
      * split; [done|]. apply List.find_some in Hfind as [Hf _].
        exists found. split; [by apply list_elem_of_In|done].
      * exfalso.
        assert (user_matches q2 row = false) as Hno
          by (apply (List.find_none _ _ Hfind row); by apply list_elem_of_In).
        revert Hno. unfold user_matches. rewrite Hh. simpl.
        rewrite (bool_decide_eq_true_2 (toLowerCase h = toLowerCase q2))
          by congruence.
        by rewrite orb_true_r.
    + intros x Hx. unfold user_matches. destruct (Hids x Hx) as [Hx1 Hx2].
      rewrite (bool_decide_eq_false_2 _ Hx1), (bool_decide_eq_false_2 _ Hx2).
      by rewrite Hlow.
Qed.

Lemma resolveUid_handle_witness :
  resolveUid two_users "@alice" = resolveUid two_users "alice"
  ∧ resolveUid two_users "@carol" = "carol"
  ∧ (resolveUid two_users "ALICE" = resolveUid two_users "alice"
     ∧ ∃ row, row ∈ two_users ∧ resolveUid two_users "ALICE" = row.1).
Proof.
  destruct (resolveUid_handle two_users) as (Hat & Hnone & Hcase).
  split; [|split].
  - apply Hat; [discriminate|reflexivity].
  - apply (Hnone "@carol"); [discriminate|].
    intros row Hin. apply list_elem_of_In in Hin.
    destruct Hin as [<-|[<-|[]]]; reflexivity.
  - apply Hcase; try reflexivity; try discriminate.
    + intros row Hin. apply list_elem_of_In in Hin.
      destruct Hin as [<-|[<-|[]]]; split; discriminate.
    + exists ("uid-2", Some "Alice"), "Alice".
      split; [|split; reflexivity].
      apply list_elem_of_In. right. by left.
Defined.

(** * The latest-only router *)

Lemma snapshot_run_insert_Ok now E st E' :
  Latest.run_insert now E st = Ok E' →
  ∃ k, Latest.insert_key st = Some k ∧ E !! k = None
       ∧ E' = <[k := Latest.insert_row now st]> E.
Proof.
  unfold Latest.run_insert.
  destruct (Latest.insert_key st) as [k|]; [|discriminate].
  destruct (E !! k) eqn:Hk; [discriminate|].
  intros [= <-]. eauto.
Qed.

(** What a batch that went through left in the table. *)
Lemma snapshot_batch_Ok now stmts : ∀ E E2,
  Latest.batch now E stmts = Ok E2 →
  ∀ k r,
    E2 !! k = Some r ↔
    E !! k = Some r
    ∨ ∃ st, st ∈ stmts ∧ Latest.insert_key st = Some k
            ∧ r = Latest.insert_row now st.
Proof.
  induction stmts as [|st stmts IH]; intros E E2; simpl.
  - intros [= <-] k r. split; [by left|].
    intros [H|(st & Hin & _)]; [done|by apply elem_of_nil in Hin].
  - destruct (Latest.run_insert now E st) as [E'|] eqn:Hrun; [|discriminate].
    rewrite bind_Ok. intros Hb k r. rewrite (IH _ _ Hb k r).
    apply snapshot_run_insert_Ok in Hrun as (k0 & Hk0 & Hfree & ->).
    rewrite lookup_insert_Some. split.
    + intros [[[<- <-]|[Hne Hl]]|(st' & Hin & Hk & Hr)].
      * right. exists st. split; [apply list_elem_of_here|done].
      * by left.
      * right. exists st'. split; [by apply list_elem_of_further|done].
    + intros [Hl|(st' & Hin & Hk & Hr)].
      * left. right. split; [|done]. intros <-. congruence.
      * apply elem_of_cons in Hin as [->|Hin].
        -- left. left. split; congruence.
        -- right. eauto.
Qed.

Lemma snapshot_delete_user_lookup uid E k r :
  Latest.delete_user uid E !! k = Some r ↔ k.1 ≠ uid ∧ E !! k = Some r.
Proof.
  unfold Latest.delete_user. rewrite map_lookup_filter_Some. simpl. tauto.
Qed.

Lemma snapshot_sync_stmt_user uid e st k :
  Latest.sync_stmt uid e = Ok st → Latest.insert_key st = Some k → k.1 = uid.
Proof.
  unfold Latest.sync_stmt.
  destruct (dayKeyToNum (day_value e)) as [day|]; [|discriminate].
  rewrite bind_Ok. destruct (bind_day day) as [n|]; [|discriminate].
  rewrite bind_Ok. intros [= <-]. unfold Latest.insert_key. simpl.
  destruct n; [|discriminate]. destruct (Number (e_period e)); [|discriminate].
  by intros [= <-].
Qed.

Lemma snapshot_elem_of_select_user uid E (c : cell) :
  c ∈ Latest.select_user uid E ↔ E !! (uid, c.1) = Some c.2.
Proof.
  destruct c as [c r]. unfold Latest.select_user. simpl.
  rewrite merge_sort_Permutation, list_elem_of_fmap. split.
  - intros ([[u c'] r'] & [= -> ->] & Hin).
    apply elem_of_map_to_list, map_lookup_filter_Some in Hin as [Hl Hk].
    simpl in Hk. by subst.
  - intros Hl. exists (uid, c, r). split; [done|].
    by apply elem_of_map_to_list, map_lookup_filter_Some.
Qed.

(** A sync that answers went through all three steps. *)
Lemma snapshot_PUT_sync_Ok now d cred body ans d' :
  Latest.PUT_sync now d cred body = (Ok ans, d') →
  ∃ uid entries E2,
    auth cred = Ok uid
    ∧ Latest.sync_entries body = Some entries
    ∧ Latest.sync_insert now uid entries
        (Latest.delete_user uid (Latest.timetable_entries_latest d)) = Ok E2
    ∧ Latest.timetable_entries_latest d' = E2
    ∧ Latest.timetable_settings d'
      = Latest.save_term now uid (Latest.body_year body)
          (Latest.body_semester body) (Latest.body_subTerm body)
          (default false (Latest.b_isTermMode body))
          (Latest.timetable_settings d)
    ∧ Latest.follows d' = Latest.follows d.
Proof.
  unfold Latest.PUT_sync.
  destruct (auth cred) as [uid|]; [|discriminate].
  destruct (Latest.sync_entries body) as [entries|]; [|discriminate].
  simpl.
  destruct (Latest.sync_insert now uid entries _) as [E2|] eqn:Hins;
    [|discriminate].
  intros [= _ <-]. exists uid, entries, E2. done.
Qed.

(** X26.  The latest-only sync deletes before it looks at the entries: when
    one entry has a day that [dayKeyToNum] refuses, the answer is 500
    "Sync failed" and every stored cell of the caller is gone; nothing
    else of the database has changed. *)
Theorem snapshot_sync_invalid_day_clears now d cred uid body entries e err :
  auth cred = Ok uid →
  Latest.sync_entries body = Some entries →
  e ∈ entries →
  dayKeyToNum (day_value e) = Throw err →
  ∃ d',
    Latest.PUT_sync now d cred body
    = (Throw (HTTPException 500 "Sync failed"), d')
    ∧ (∀ k, Latest.timetable_entries_latest d' !! k
            = if decide (k.1 = uid) then None
              else Latest.timetable_entries_latest d !! k)
    ∧ Latest.timetable_settings d' = Latest.timetable_settings d
    ∧ Latest.follows d' = Latest.follows d.
Proof.
  intros Ha He Hin Hday. unfold Latest.PUT_sync. rewrite Ha, He. simpl.
  assert (∃ e', Latest.sync_insert now uid entries
                  (Latest.delete_user uid (Latest.timetable_entries_latest d))
                = Throw e') as [e' ->].
  { unfold Latest.sync_insert.
    destruct (decide (entries = [])) as [->|_];
      [by apply elem_of_nil in Hin|].
    destruct (mapM_elem_Throw (Latest.sync_stmt uid) entries e err Hin)
      as [e' ->].
    - unfold Latest.sync_stmt. by rewrite Hday, bind_Throw.
    - rewrite bind_Throw. eauto. }
  eexists. split; [reflexivity|]. simpl. split; [|done].
  intros k. unfold Latest.delete_user. destruct (decide (k.1 = uid)) as [Hk|Hk].
  - apply map_lookup_filter_None. right. intros r _. simpl. tauto.
  - destruct (Latest.timetable_entries_latest d !! k) as [r|] eqn:Hl.
    + by apply map_lookup_filter_Some.
    + apply map_lookup_filter_None. by left.
Qed.

(** X27.  A latest-only sync that answers replaces the caller's whole
    timetable: afterwards the table holds the cells of the other users as
    they were and, for the caller, exactly the cells of the submitted
    entries, whatever year, semester or sub-term the body names. *)
Theorem snapshot_sync_replaces_timetable now d cred uid body entries ans d' :
  auth cred = Ok uid →
  Latest.sync_entries body = Some entries →
  Latest.PUT_sync now d cred body = (Ok ans, d') →
  ∀ k r,
    Latest.timetable_entries_latest d' !! k = Some r ↔
    (k.1 ≠ uid ∧ Latest.timetable_entries_latest d !! k = Some r)
    ∨ (k.1 = uid
       ∧ ∃ e, e ∈ entries ∧ Latest.stored now uid e = Some (k, r)).
Proof.
  intros Ha He (uid' & entries' & E2 & Ha' & He' & Hins & <- & _)
    %snapshot_PUT_sync_Ok k r.
  rewrite Ha in Ha'. injection Ha' as <-.
  rewrite He in He'. injection He' as <-.
  revert Hins. unfold Latest.sync_insert.
  destruct (decide (entries = [])) as [->|_].
  - intros [= <-]. rewrite snapshot_delete_user_lookup. split; [by left|].
    intros [H|(_ & e & Hin & _)]; [done|by apply elem_of_nil in Hin].
  - destruct (mapM (Latest.sync_stmt uid) entries) as [stmts|] eqn:Hmap;
      [|discriminate].
    rewrite bind_Ok. intros Hb.
    rewrite (snapshot_batch_Ok _ _ _ _ Hb k r), snapshot_delete_user_lookup.
    apply mapM_Ok in Hmap. split.
    + intros [H|(st & Hin & Hk & ->)]; [by left|]. right.
      apply list_elem_of_lookup in Hin as [i Hi].
      destruct (Forall2_lookup_r _ _ _ _ _ Hmap Hi) as (e & He0 & Hst).
      split; [by eapply snapshot_sync_stmt_user|].
      exists e. split; [apply list_elem_of_lookup; eauto|].
      unfold Latest.stored. by rewrite Hst, Hk.
    + intros [H|(_ & e & Hin & Hst)]; [by left|]. right.
      apply list_elem_of_lookup in Hin as [i Hi].
      destruct (Forall2_lookup_l _ _ _ _ _ Hmap Hi) as (st & Hst0 & Hstmt).
      revert Hst. unfold Latest.stored. rewrite Hstmt.
      destruct (Latest.insert_key st) as [k'|] eqn:Hk; [|discriminate].
      simpl. intros [= <- <-].
      exists st. split; [apply list_elem_of_lookup; eauto|done].
Qed.

Section Snapshot.
Variable JSON_valid : string → bool.

(** X28.  The first latest-only sync of a user publishes the timetable:
    without a settings row a caller without a token is refused with 403,
    and after a sync that answers the same caller gets an answer, whose
    settings say [is_public]. *)
Theorem snapshot_first_sync_makes_public now d cred uid body ans d'
    year semester subTerm :
  auth cred = Ok uid →
  Latest.timetable_settings d !! uid = None →
  Latest.PUT_sync now d cred body = (Ok ans, d') →
  Latest.GET_timetable JSON_valid d
    (Latest.anonymous uid year semester subTerm)
  = Throw (HTTPException 403 "Timetable is private")
  ∧ ∃ resp,
      Latest.GET_timetable JSON_valid d'
        (Latest.anonymous uid year semester subTerm) = Ok resp
      ∧ Latest.s_is_public (Latest.r_settings resp) = true.
Proof.
  intros Ha Hrow (uid' & entries & E2 & Ha' & _ & _ & _ & Hset & _)
    %snapshot_PUT_sync_Ok.
  rewrite Ha in Ha'. injection Ha' as <-. split.
  - unfold Latest.GET_timetable. simpl. rewrite Hrow. reflexivity.
  - unfold Latest.GET_timetable. simpl. rewrite Hset.
    unfold Latest.save_term. rewrite Hrow, lookup_insert_eq. simpl.
    destruct (mapM _ _); eexists; split; reflexivity.
Qed.

(** X29.  In the latest-only read one stored cell whose day is outside
    1..5 hides the whole timetable: the [catch] turns the error of
    [dayNumToKey] into an answer without any entry. *)
Theorem snapshot_read_hides_bad_day d req day period r resp :
  Latest.timetable_entries_latest d !! (Latest.g_owner req, (day, period))
  = Some r →
  ¬ (1 ≤ day ≤ 5) →
  Latest.GET_timetable JSON_valid d req = Ok resp →
  Latest.r_entries resp = [].
Proof.
  intros Hcell Hday. unfold Latest.GET_timetable.
  destruct (Latest.parse_colors _ _) as [colors|]; [|discriminate].
  rewrite bind_Ok.
  destruct (Latest.visibility_gate _ _ _ _ _) as [[]|]; [|discriminate].
  rewrite bind_Ok.
  set (view := Latest.view_entry _ _ _).
  assert (∃ e, mapM view
                 (Latest.select_user (Latest.g_owner req)
                    (Latest.timetable_entries_latest d)) = Throw e)
    as [e ->].
  { eapply (mapM_elem_Throw view _ ((day, period), r)).
    - by apply snapshot_elem_of_select_user.
    - unfold view, Latest.view_entry. simpl.
      rewrite (dayNumToKey_out_of_range day) by lia.
      by rewrite bind_Throw. }
  by intros [= <-].
Qed.

(** X30.  After a latest-only sync that answers, a read of the caller's
    timetable shows the term of the sync, not the term of the query: the
    settings and every entry of the answer carry the year, semester and
    sub-term that the sync saved. *)
Theorem snapshot_read_shows_synced_term now d cred uid body ans d'
    y s t req resp :
  auth cred = Ok uid →
  Latest.body_year body = Num y →
  Latest.body_semester body = Num s →
  Latest.body_subTerm body = Num t →
  Latest.PUT_sync now d cred body = (Ok ans, d') →
  Latest.g_owner req = uid →
  Latest.GET_timetable JSON_valid d' req = Ok resp →
  (Latest.s_current_year (Latest.r_settings resp) = Num y
   ∧ Latest.s_current_semester (Latest.r_settings resp) = Num s
   ∧ Latest.s_current_sub_term (Latest.r_settings resp) = Num t)
  ∧ ∀ v, v ∈ Latest.r_entries resp →
      Latest.v_year v = Num y ∧ Latest.v_semester v = Num s
      ∧ Latest.v_sub_term v = Num t.
Proof.
  intros Ha Hy Hs Ht (uid' & entries & E2 & Ha' & _ & _ & _ & Hset & _)
    %snapshot_PUT_sync_Ok Hown.
  rewrite Ha in Ha'. injection Ha' as <-.
  rewrite Hy, Hs, Ht in Hset.
  assert (∃ row, Latest.timetable_settings d' !! uid = Some row
                 ∧ Latest.current_year row = Some y
                 ∧ Latest.current_semester row = Some s
                 ∧ Latest.current_sub_term row = Some t)
    as (row & Hrow & Hry & Hrs & Hrt).
  { rewrite Hset. unfold Latest.save_term.
    destruct (Latest.timetable_settings d !! uid);
      rewrite lookup_insert_eq; eexists; (split; [reflexivity|done]). }
  unfold Latest.GET_timetable. rewrite Hown, Hrow.
  destruct (Latest.parse_colors _ _) as [colors|]; [|discriminate].
  rewrite bind_Ok.
  destruct (Latest.visibility_gate _ _ _ _ _) as [[]|]; [|discriminate].
  rewrite bind_Ok. unfold Latest.or_query. simpl. rewrite Hry, Hrs, Hrt. simpl.
  destruct (mapM _ _) as [views|] eqn:Hmap; intros [= <-]; simpl;
    (split; [done|]); intros v Hv; [|by apply elem_of_nil in Hv].
  apply mapM_Ok in Hmap.
  apply list_elem_of_lookup in Hv as [i Hi].
  destruct (Forall2_lookup_r _ _ _ _ _ Hmap Hi) as (c & _ & Hview).
  revert Hview. unfold Latest.view_entry.
  destruct (dayNumToKey c.1.1); [|discriminate].
  rewrite bind_Ok. by intros [= <-].
Qed.

End Snapshot.

Lemma snapshot_sync_invalid_day_clears_witness :
  ∃ d',
    Latest.PUT_sync 9 Latest.db_one_cell (Verified "u")
      (Latest.no_body [full_entry 2025 1 (DayString "x") 1 None])
    = (Throw (HTTPException 500 "Sync failed"), d')
    ∧ (∀ k, Latest.timetable_entries_latest d' !! k
            = if decide (k.1 = "u") then None
              else Latest.timetable_entries_latest Latest.db_one_cell !! k)
    ∧ Latest.timetable_settings d'
      = Latest.timetable_settings Latest.db_one_cell
    ∧ Latest.follows d' = Latest.follows Latest.db_one_cell.
Proof.
  eapply (snapshot_sync_invalid_day_clears 9 Latest.db_one_cell (Verified "u")
            "u" _ [full_entry 2025 1 (DayString "x") 1 None]
            (full_entry 2025 1 (DayString "x") 1 None)).
  - reflexivity.
  - reflexivity.
  - apply list_elem_of_here.
  - reflexivity.
Defined.

Lemma snapshot_sync_replaces_timetable_witness :
  Latest.timetable_entries_latest
    (Latest.PUT_sync 9 Latest.db_one_cell (Verified "u")
       (Latest.no_body [full_entry 2024 2 (DayString "F") 1 None])).2
    !! ("u", (5, 1))
  = Some {| course_code := None; course_name := None; instructor := None;
            updated_at := 9 |} ↔
  (("u", (5, 1)).1 ≠ "u"
   ∧ Latest.timetable_entries_latest Latest.db_one_cell !! ("u", (5, 1))
     = Some {| course_code := None; course_name := None; instructor := None;
               updated_at := 9 |})
  ∨ (("u", (5, 1)).1 = "u"
     ∧ ∃ e, e ∈ [full_entry 2024 2 (DayString "F") 1 None]
            ∧ Latest.stored 9 "u" e
              = Some ("u", (5, 1),
                      {| course_code := None; course_name := None;
                         instructor := None; updated_at := 9 |})).
Proof.
  eapply (snapshot_sync_replaces_timetable 9 Latest.db_one_cell (Verified "u")
            "u" (Latest.no_body [full_entry 2024 2 (DayString "F") 1 None])).
  - reflexivity.
  - reflexivity.
  - reflexivity.
Defined.

Lemma snapshot_first_sync_makes_public_witness :
  Latest.GET_timetable (λ _, true) Latest.db_one_cell
    (Latest.anonymous "u" (Num 2025) (Num 1) (Num 0))
  = Throw (HTTPException 403 "Timetable is private")
  ∧ ∃ resp,
      Latest.GET_timetable (λ _, true)
        (Latest.PUT_sync 9 Latest.db_one_cell (Verified "u")
           (Latest.no_body [full_entry 2024 2 (DayString "F") 1 None])).2
        (Latest.anonymous "u" (Num 2025) (Num 1) (Num 0)) = Ok resp
      ∧ Latest.s_is_public (Latest.r_settings resp) = true.
Proof.
  eapply (snapshot_first_sync_makes_public (λ _, true) 9 Latest.db_one_cell (Verified "u")
            "u" (Latest.no_body [full_entry 2024 2 (DayString "F") 1 None])).
  - reflexivity.
  - reflexivity.
  - reflexivity.
Defined.

Lemma snapshot_read_hides_bad_day_witness :
  ∃ resp,
    Latest.GET_timetable (λ _, true) Latest.db_day_6
      (Latest.anonymous "u" (Num 2025) (Num 1) (Num 0)) = Ok resp
    ∧ Latest.r_entries resp = [].
Proof.
  eexists. split; [reflexivity|].
  apply (snapshot_read_hides_bad_day (λ _, true) Latest.db_day_6
           (Latest.anonymous "u" (Num 2025) (Num 1) (Num 0)) 6 1 old_row).
  - reflexivity.
  - lia.
  - reflexivity.
Defined.

Lemma snapshot_read_shows_synced_term_witness :
  ∃ resp,
    Latest.GET_timetable (λ _, true)
      (Latest.PUT_sync 9 Latest.db_one_cell (Verified "u")
         (Latest.no_body [full_entry 2024 2 (DayString "F") 1 None])).2
      (Latest.anonymous "u" (Num 1999) (Num 2) (Num 1)) = Ok resp
    ∧ (Latest.s_current_year (Latest.r_settings resp) = Num 2025
       ∧ Latest.s_current_semester (Latest.r_settings resp) = Num 1
       ∧ Latest.s_current_sub_term (Latest.r_settings resp) = Num 0)
    ∧ ∀ v, v ∈ Latest.r_entries resp →
        Latest.v_year v = Num 2025 ∧ Latest.v_semester v = Num 1
        ∧ Latest.v_sub_term v = Num 0.
Proof.
  eexists. split; [reflexivity|].
  eapply (snapshot_read_shows_synced_term (λ _, true) 9 Latest.db_one_cell (Verified "u")
            "u" (Latest.no_body [full_entry 2024 2 (DayString "F") 1 None])
            _ _ 2025 1 0 (Latest.anonymous "u" (Num 1999) (Num 2) (Num 1))).
  - reflexivity.
  - reflexivity.
  - reflexivity.
  - reflexivity.
  - reflexivity.
  - reflexivity.
  - reflexivity.
Defined.
